(** * vocal-remover: the Flask application [app.py]

    A shallow embedding of the request handlers of [app.py] (upload,
    outputs_serve, health, index) and of their helpers (run_demucs,
    make_instrumental, _ffmpeg_exists), over an explicit model of what they
    act on: a directory tree, two external command-line tools whose output
    is read in text mode, the random job token, and the request that
    [send_from_directory] answers. *)

From Stdlib Require Import ZArith List Ascii String DecimalString.
From Stdlib.Strings Require Import Byte.
From stdpp Require Import base option list strings gmap.

Local Open Scope string_scope.
Local Open Scope Z_scope.
Local Open Scope list_scope.

(* ===================================================================== *)
(** * Python strings *)
(* ===================================================================== *)

Module Py.

(** The line feed written [\n] in the source. *)
Definition nl : string := String (ascii_of_nat 10) EmptyString.

(** [str.lower()] on one character.  Only the ASCII capitals are mapped;
    every other byte is left alone.  For the membership test of [upload]
    this agrees with Python's Unicode lowering: the only characters outside
    ASCII that lower to an ASCII letter give "k" or "i", and neither letter
    occurs in an allowed extension. *)
Definition lower_ascii (c : ascii) : ascii :=
  let n := nat_of_ascii c in
  if ((65 <=? n)%nat && (n <=? 90)%nat)%bool then ascii_of_nat (n + 32) else c.

Fixpoint lower (s : string) : string :=
  match s with
  | EmptyString => EmptyString
  | String c r => String (lower_ascii c) (lower r)
  end.

(** [sep.join(l)] *)
Fixpoint join (sep : string) (l : list string) : string :=
  match l with
  | [] => ""
  | [x] => x
  | x :: r => x +:+ sep +:+ join sep r
  end.

(** [s.split(sep)] for a one-character separator: the pieces between the
    separators, empty pieces included. *)
Fixpoint split_on (sep : ascii) (s : string) : list string :=
  match s with
  | EmptyString => [""]
  | String c r =>
      if Ascii.eqb c sep then "" :: split_on sep r
      else match split_on sep r with
           | [] => [String c ""]
           | w :: ws => String c w :: ws
           end
  end.

(** [s.rfind(c)]: the index of the last occurrence, or -1. *)
Fixpoint rfind_from (c : ascii) (s : string) (i last : Z) : Z :=
  match s with
  | EmptyString => last
  | String a r => rfind_from c r (i + 1) (if Ascii.eqb a c then i else last)
  end.

Definition rfind (c : ascii) (s : string) : Z := rfind_from c s 0 (-1).

(** The slice [s[i:j]] for [0 <= i]. *)
Definition slice (i j : Z) (s : string) : string :=
  substring (Z.to_nat i) (Z.to_nat (j - i)) s.

(** The slice [s[i:]]. *)
Definition slice_from (i : Z) (s : string) : string :=
  substring (Z.to_nat i) (String.length s - Z.to_nat i) s.

Fixpoint all_dots (s : string) : bool :=
  match s with
  | EmptyString => true
  | String c r => Ascii.eqb c "." && all_dots r
  end.

(** [os.path.splitext(p)] (posixpath, through [genericpath._splitext]):
    the extension starts at the last dot, provided that dot comes after the
    last slash and is preceded, within the last component, by a character
    that is not a dot. *)
Definition splitext (p : string) : string * string :=
  let sepIndex := rfind "/" p in
  let dotIndex := rfind "." p in
  if sepIndex <? dotIndex then
    if all_dots (slice (sepIndex + 1) dotIndex p) then (p, "")
    else (slice 0 dotIndex p, slice_from dotIndex p)
  else (p, "").

(** [c in s] *)
Fixpoint has_char (c : ascii) (s : string) : bool :=
  match s with
  | EmptyString => false
  | String a r => Ascii.eqb a c || has_char c r
  end.

(** [s.startswith(pre)] *)
Fixpoint startswith (pre s : string) : bool :=
  match pre with
  | EmptyString => true
  | String a pre' =>
      match s with
      | String b s' => Ascii.eqb a b && startswith pre' s'
      | EmptyString => false
      end
  end.

(** [uuid.UUID.hex]: the 128-bit value as 32 lowercase hexadecimal digits
    ([ '%032x' % self.int ]).  Only the low 128 bits of [n] are rendered. *)
Definition hex_digit (d : N) : ascii :=
  match String.get (N.to_nat d) "0123456789abcdef" with
  | Some c => c
  | None => "0"%char
  end.

Fixpoint hex_digits (k : nat) (n : N) (acc : string) : string :=
  match k with
  | O => acc
  | S k' => hex_digits k' (n / 16)%N (String (hex_digit (n mod 16)%N) acc)
  end.

Definition uuid_hex (n : N) : string := hex_digits 32 n "".


(** [str(n)] for a natural number, and ['%02x' % b] for a byte. *)
Definition str_nat (n : nat) : string := NilZero.string_of_uint (Nat.to_uint n).

Definition hex_byte (b : byte) : string :=
  let n := Byte.to_N b in
  String (hex_digit (n / 16)%N) (String (hex_digit (n mod 16)%N) "").

(** The carriage return and the line feed. *)
Definition cr : ascii := ascii_of_nat 13.
Definition lf : ascii := ascii_of_nat 10.

(** Universal newlines, as text mode reads them: "\r\n" and a lone "\r"
    both become "\n" ([s.replace("\r\n", "\n").replace("\r", "\n")]). *)
Fixpoint universal_newlines (s : string) : string :=
  match s with
  | EmptyString => EmptyString
  | String c r =>
      if Ascii.eqb c cr then
        match r with
        | String c' r' =>
            if Ascii.eqb c' lf then String lf (universal_newlines r')
            else String lf (universal_newlines r)
        | EmptyString => String lf EmptyString
        end
      else String c (universal_newlines r)
  end.

(** What [data.decode(encoding)] gives with the error handler "strict":
    the text, or the arguments of the [UnicodeDecodeError] it raises.  A
    [str] is held as the bytes of its UTF-8 form. *)
Inductive decoded :=
| Text (s : string)
| Undecodable (encoding : string) (start stop : nat) (reason : string).

Definition continuation (b : N) : bool := ((128 <=? b) && (b <=? 191))%N.

Definition bad_utf8 (i n : nat) (reason : string) : option (nat * nat * string) :=
  Some (i, (i + n)%nat, reason).

(** The strict UTF-8 decoder, reading from position [i]: [None] when the
    bytes are well formed, otherwise where the first ill-formed sequence
    starts and stops and what is wrong with it.  Lead bytes C2..DF take one
    continuation byte, E0..EF two, F0..F4 three; overlong forms (E0 before
    A0, F0 before 90), surrogates (ED from A0 on) and code points above
    10FFFF (F4 from 90 on) are refused at their second byte. *)
Fixpoint utf8_scan (i : nat) (l : list N) : option (nat * nat * string) :=
  match l with
  | [] => None
  | ch :: r =>
      if (ch <? 128)%N then utf8_scan (S i) r
      else if (ch <? 194)%N then bad_utf8 i 1 "invalid start byte"
      else if (ch <? 224)%N then
        match r with
        | [] => bad_utf8 i 1 "unexpected end of data"
        | ch2 :: r2 =>
            if continuation ch2 then utf8_scan (i + 2) r2
            else bad_utf8 i 1 "invalid continuation byte"
        end
      else if (ch <? 240)%N then
        match r with
        | [] => bad_utf8 i 1 "unexpected end of data"
        | ch2 :: r2 =>
            if negb (continuation ch2)
               || (if (ch2 <? 160)%N then (ch =? 224)%N else (ch =? 237)%N)
            then bad_utf8 i 1 "invalid continuation byte"
            else
              match r2 with
              | [] => bad_utf8 i 2 "unexpected end of data"
              | ch3 :: r3 =>
                  if continuation ch3 then utf8_scan (i + 3) r3
                  else bad_utf8 i 2 "invalid continuation byte"
              end
        end
      else if (ch <? 245)%N then
        match r with
        | [] => bad_utf8 i 1 "unexpected end of data"
        | ch2 :: r2 =>
            if negb (continuation ch2)
               || (if (ch2 <? 144)%N then (ch =? 240)%N else (ch =? 244)%N)
            then bad_utf8 i 1 "invalid continuation byte"
            else
              match r2 with
              | [] => bad_utf8 i 2 "unexpected end of data"
              | ch3 :: r3 =>
                  if negb (continuation ch3)
                  then bad_utf8 i 2 "invalid continuation byte"
                  else
                    match r3 with
                    | [] => bad_utf8 i 3 "unexpected end of data"
                    | ch4 :: r4 =>
                        if continuation ch4 then utf8_scan (i + 4) r4
                        else bad_utf8 i 3 "invalid continuation byte"
                    end
              end
        end
      else bad_utf8 i 1 "invalid start byte"
  end.

(** [data.decode("utf-8")] *)
Definition utf8_decode (data : list byte) : decoded :=
  match utf8_scan 0 (map Byte.to_N data) with
  | None => Text (string_of_list_byte data)
  | Some (start, stop, reason) => Undecodable "utf-8" start stop reason
  end.

End Py.

(* ===================================================================== *)
(** * The directory tree *)
(* ===================================================================== *)

Definition bytes := list Byte.byte.

(** A [pathlib.Path] as its [parts] below the root "/". *)
Definition path := list string.

(** A regular file with its content, or a directory with its entries in
    listing order.  There are no links, no permissions and no quota: an
    operation fails only for the shape of the tree or, where the path comes
    from a request, for its length. *)
#[warnings="-register-all"]
Inductive node :=
| File (data : bytes)
| Dir (entries : list (string * node)).

Module FS.

Fixpoint find_entry (name : string) (es : list (string * node)) : option node :=
  match es with
  | [] => None
  | (k, v) :: r => if decide (k = name) then Some v else find_entry name r
  end.

(** Replace the entry called [name], or add it at the end of the listing. *)
Fixpoint set_entry (name : string) (n : node) (es : list (string * node))
  : list (string * node) :=
  match es with
  | [] => [(name, n)]
  | (k, v) :: r =>
      if decide (k = name) then (name, n) :: r else (k, v) :: set_entry name n r
  end.

Fixpoint del_entry (name : string) (es : list (string * node))
  : list (string * node) :=
  match es with
  | [] => []
  | (k, v) :: r =>
      if decide (k = name) then del_entry name r else (k, v) :: del_entry name r
  end.

(** The node a path of plain names leads to. *)
Fixpoint node_at (p : path) (t : node) : option node :=
  match p with
  | [] => Some t
  | c :: r =>
      match t with
      | File _ => None
      | Dir es =>
          match find_entry c es with
          | Some sub => node_at r sub
          | None => None
          end
      end
  end.

(** Path resolution as the kernel does it for a path that may hold "..":
    [up] are the directories above [cur], nearest first (the parent of the
    root is the root); a component under a regular file does not resolve. *)
Fixpoint namei (up : list node) (cur : node) (p : path) : option node :=
  match p with
  | [] => Some cur
  | c :: r =>
      match cur with
      | File _ => None
      | Dir es =>
          if decide (c = "..") then
            match up with
            | [] => namei [] cur r
            | parent :: up' => namei up' parent r
            end
          else
            match find_entry c es with
            | Some sub => namei (cur :: up) sub r
            | None => None
            end
      end
  end.

Definition resolve (p : path) (root : node) : option node := namei [] root p.

(** The same walk under a bound on the length of a name: a directory
    refuses to look up a name of more than [name_max] bytes (ENAMETOOLONG),
    so the walk stops there; it does not get that far when an earlier name
    is missing or is a regular file. *)
Inductive walked :=
| Found (n : node)
| Missing
| TooLong.

Fixpoint walk (name_max : nat) (up : list node) (cur : node) (p : path) : walked :=
  match p with
  | [] => Found cur
  | c :: r =>
      match cur with
      | File _ => Missing
      | Dir es =>
          if decide (c = "..") then
            match up with
            | [] => walk name_max [] cur r
            | parent :: up' => walk name_max up' parent r
            end
          else if (name_max <? String.length c)%nat then TooLong
          else
            match find_entry c es with
            | Some sub => walk name_max (cur :: up) sub r
            | None => Missing
            end
      end
  end.

(** Rewrite the listing of the directory at [d]; [None] when [d] is not a
    directory of the tree. *)
Fixpoint with_dir (d : path) (f : list (string * node) -> list (string * node))
    (t : node) : option node :=
  match t with
  | File _ => None
  | Dir es =>
      match d with
      | [] => Some (Dir (f es))
      | c :: r =>
          match find_entry c es with
          | Some sub =>
              match with_dir r f sub with
              | Some sub' => Some (Dir (set_entry c sub' es))
              | None => None
              end
          | None => None
          end
      end
  end.

(** [Path.parent] and [Path.name] *)
Definition parent (p : path) : path := removelast p.
Definition name (p : path) : string := List.last p "".

(** Two paths that part ways at some component: neither lies under the
    other. *)
Fixpoint diverge (p q : path) : bool :=
  match p, q with
  | a :: p', b :: q' => if decide (a = b) then diverge p' q' else true
  | _, _ => false
  end.

Definition is_dir_node (o : option node) : bool :=
  match o with Some (Dir _) => true | _ => false end.

Definition is_file_node (o : option node) : bool :=
  match o with Some (File _) => true | _ => false end.

Definition is_some_node (o : option node) : bool :=
  match o with Some _ => true | None => false end.

End FS.


(* ===================================================================== *)
(** * Exceptions, and computations over the directory tree *)
(* ===================================================================== *)

Inductive oserror := ENOENT | EACCES | EISDIR | ENOTDIR | EEXIST | ENAMETOOLONG.

(** The exceptions the handlers can meet.  [OSError ENOENT] is Python's
    [FileNotFoundError], [OSError EACCES] its [PermissionError], and so on;
    [UnicodeDecodeError] carries the codec, the bytes it was given, where
    the undecodable bytes start and stop, and the reason.  All of them are
    subclasses of [Exception]. *)
Inductive exn :=
| RuntimeError (msg : string)
| ValueError (msg : string)
| OSError (errno : oserror) (filename : string)
| SameFileError (src dst : string)
| UnicodeDecodeError (encoding : string) (object : bytes) (start stop : nat)
    (reason : string).

Definition strerror (e : oserror) : string :=
  match e with
  | ENOENT => "[Errno 2] No such file or directory"
  | EACCES => "[Errno 13] Permission denied"
  | EISDIR => "[Errno 21] Is a directory"
  | ENOTDIR => "[Errno 20] Not a directory"
  | EEXIST => "[Errno 17] File exists"
  | ENAMETOOLONG => "[Errno 36] File name too long"
  end.

(** [str(e)] *)
Definition str_exn (e : exn) : string :=
  match e with
  | RuntimeError msg => msg
  | ValueError msg => msg
  | OSError errno f => strerror errno +:+ ": '" +:+ f +:+ "'"
  | SameFileError a b => "'" +:+ a +:+ "' and '" +:+ b +:+ "' are the same file"
  | UnicodeDecodeError encoding object start stop reason =>
      match nth_error object start with
      | Some b =>
          if (stop =? start + 1)%nat
          then "'" +:+ encoding +:+ "' codec can't decode byte 0x" +:+ Py.hex_byte b
               +:+ " in position " +:+ Py.str_nat start +:+ ": " +:+ reason
          else "'" +:+ encoding +:+ "' codec can't decode bytes in position "
               +:+ Py.str_nat start +:+ "-" +:+ Py.str_nat (stop - 1) +:+ ": " +:+ reason
      | None =>
          "'" +:+ encoding +:+ "' codec can't decode bytes in position "
          +:+ Py.str_nat start +:+ "-" +:+ Py.str_nat (stop - 1) +:+ ": " +:+ reason
      end
  end.

Inductive res (A : Type) :=
| Ok (a : A)
| Raise (e : exn).
Arguments Ok {A} a.
Arguments Raise {A} e.

(** A computation reads and updates the tree and either returns or raises;
    the tree it leaves behind is kept in both cases, as a handler that
    catches the exception goes on from it. *)
Definition M (A : Type) : Type := node -> res A * node.

Definition ret {A} (a : A) : M A := fun fs => (Ok a, fs).

Definition raise {A} (e : exn) : M A := fun fs => (Raise e, fs).

(** A result that does not depend on the tree. *)
Definition lift {A} (r : res A) : M A := fun fs => (r, fs).

Definition bind {A B} (m : M A) (k : A -> M B) : M B :=
  fun fs =>
    match m fs with
    | (Ok a, fs') => k a fs'
    | (Raise e, fs') => (Raise e, fs')
    end.

(** [try: body / except Exception as e: handler e] *)
Definition try_except {A} (body : M A) (handler : exn -> M A) : M A :=
  fun fs =>
    match body fs with
    | (Ok a, fs') => (Ok a, fs')
    | (Raise e, fs') => handler e fs'
    end.

Notation "'let*' x ':=' m 'in' k" := (bind m (fun x => k))
  (at level 10, x name, m at level 100, k at level 200).
Notation "m >> k" := (bind m (fun _ => k))
  (at level 100, k at level 200, right associativity).

(** [for x in l: body x] *)
Fixpoint for_each {A} (l : list A) (body : A -> M unit) : M unit :=
  match l with
  | [] => ret tt
  | x :: r => body x >> for_each r body
  end.

(** [[x for x in l if keep x]] where the test reads the tree. *)
Fixpoint filter_m {A} (keep : A -> M bool) (l : list A) : M (list A) :=
  match l with
  | [] => ret []
  | x :: r =>
      let* b := keep x in
      let* r' := filter_m keep r in
      ret (if b then x :: r' else r')
  end.

(* ===================================================================== *)
(** * pathlib, os and shutil *)
(* ===================================================================== *)

(** [str(p)] for an absolute path. *)
Definition str_path (p : path) : string := "/" +:+ Py.join "/" p.

(** [p.as_posix()] for a relative path. *)
Definition as_posix (p : path) : string := Py.join "/" p.

(** The [errno] of a failed walk along [p]: [ENOTDIR] when it runs into a
    regular file, [ENOENT] when a name is missing. *)
Fixpoint missing_errno (p : path) (t : node) : oserror :=
  match p, t with
  | _ :: _, File _ => ENOTDIR
  | c :: r, Dir es =>
      match FS.find_entry c es with
      | Some sub => missing_errno r sub
      | None => ENOENT
      end
  | [], _ => ENOENT
  end.

(** [p.exists()], [p.is_dir()], [p.is_file()] for a path of plain names
    that the program builds itself, from BASE_DIR, names of its own and
    names it has listed: such a path is taken to be within the bounds of
    the operating system on the length of names and paths, like the paths
    that are written to. *)
Definition path_exists (p : path) : M bool :=
  fun fs => (Ok (FS.is_some_node (FS.node_at p fs)), fs).

Definition is_dir (p : path) : M bool :=
  fun fs => (Ok (FS.is_dir_node (FS.node_at p fs)), fs).

Definition is_file (p : path) : M bool :=
  fun fs => (Ok (FS.is_file_node (FS.node_at p fs)), fs).

(** [list(p.iterdir())]: the children of a directory, in listing order. *)
Definition iterdir (p : path) : M (list path) :=
  fun fs =>
    match FS.node_at p fs with
    | Some (Dir es) => (Ok (map (fun kv => p ++ [fst kv]) es), fs)
    | Some (File _) => (Raise (OSError ENOTDIR (str_path p)), fs)
    | None => (Raise (OSError (missing_errno p fs) (str_path p)), fs)
    end.

(** [open(p, "rb").read()] *)
Definition read_bytes (p : path) : M bytes :=
  fun fs =>
    match FS.node_at p fs with
    | Some (File data) => (Ok data, fs)
    | Some (Dir _) => (Raise (OSError EISDIR (str_path p)), fs)
    | None => (Raise (OSError (missing_errno p fs) (str_path p)), fs)
    end.

(** [p.read_text(encoding="utf-8")]: the bytes of the file decoded as
    UTF-8, with universal newlines. *)
Definition read_text_utf8 (p : path) : M string :=
  let* data := read_bytes p in
  match Py.utf8_decode data with
  | Py.Text s => ret (Py.universal_newlines s)
  | Py.Undecodable encoding start stop reason =>
      raise (UnicodeDecodeError encoding data start stop reason)
  end.

(** [open(p, "wb").write(data)]: creates or truncates the file; the parent
    has to be a directory and [p] must not be one. *)
Definition write_bytes (p : path) (data : bytes) : M unit :=
  fun fs =>
    match FS.node_at p fs with
    | Some (Dir _) => (Raise (OSError EISDIR (str_path p)), fs)
    | _ =>
        match FS.with_dir (FS.parent p) (FS.set_entry (FS.name p) (File data)) fs with
        | Some fs' => (Ok tt, fs')
        | None => (Raise (OSError (missing_errno p fs) (str_path p)), fs)
        end
    end.

(** The tree after [p.mkdir(parents=True, exist_ok=True)]: every missing
    directory along [p] is created; [None] when the walk meets a regular
    file. *)
Fixpoint mkdir_p (p : path) (t : node) : option node :=
  match t with
  | File _ => None
  | Dir es =>
      match p with
      | [] => Some t
      | c :: r =>
          match mkdir_p r (default (Dir []) (FS.find_entry c es)) with
          | Some sub' => Some (Dir (FS.set_entry c sub' es))
          | None => None
          end
      end
  end.

Definition mkdir_parents_exist_ok (p : path) : M unit :=
  fun fs =>
    match mkdir_p p fs with
    | Some fs' => (Ok tt, fs')
    | None =>
        (Raise (OSError (if FS.is_file_node (FS.node_at p fs) then EEXIST else ENOTDIR)
                        (str_path p)), fs)
    end.

(** [p.mkdir(exist_ok=True)]: the parent has to exist. *)
Definition mkdir_exist_ok (p : path) : M unit :=
  fun fs =>
    match FS.node_at p fs with
    | Some (Dir _) => (Ok tt, fs)
    | Some (File _) => (Raise (OSError EEXIST (str_path p)), fs)
    | None =>
        match FS.with_dir (FS.parent p) (FS.set_entry (FS.name p) (Dir [])) fs with
        | Some fs' => (Ok tt, fs')
        | None => (Raise (OSError (missing_errno p fs) (str_path p)), fs)
        end
    end.

(** [shutil.copy2(src, dst)]: into [dst] when [dst] is a directory,
    otherwise onto it.  Metadata is not modelled. *)
Definition copy2 (src dst : path) : M unit :=
  let* into := is_dir dst in
  let dst := if into then dst ++ [FS.name src] else dst in
  let* there := path_exists src in
  if (there && bool_decide (src = dst))%bool
  then raise (SameFileError (str_path src) (str_path dst))
  else
    let* data := read_bytes src in
    write_bytes dst data.

(** [shutil.rmtree(p, ignore_errors=True)]: removes the directory [p] with
    all it holds; when [p] is missing or is not a directory the error is
    ignored and nothing changes. *)
Definition rmtree_ignore_errors (p : path) : M unit :=
  fun fs =>
    match FS.node_at p fs with
    | Some (Dir _) =>
        match p with
        | [] => (Ok tt, fs)
        | _ :: _ =>
            match FS.with_dir (FS.parent p) (FS.del_entry (FS.name p)) fs with
            | Some fs' => (Ok tt, fs')
            | None => (Ok tt, fs)
            end
        end
    | _ => (Ok tt, fs)
    end.

(** [p.relative_to(base)] *)
Fixpoint strip_prefix (base p : path) : option path :=
  match base, p with
  | [], _ => Some p
  | b :: base', c :: p' => if decide (b = c) then strip_prefix base' p' else None
  | _ :: _, [] => None
  end.

Definition relative_to (p base : path) : M path :=
  match strip_prefix base p with
  | Some rel => ret rel
  | None =>
      raise (ValueError ("'" +:+ str_path p +:+ "' is not in the subpath of '"
                         +:+ str_path base +:+ "'"))
  end.

Definition starts_with_slash (s : string) : bool :=
  match s with
  | String c _ => Ascii.eqb c "/"
  | EmptyString => false
  end.

(** The parts [pathlib] keeps of a string: empty pieces and "." are
    dropped, ".." is kept. *)
Definition parse_parts (s : string) : path :=
  filter (fun c => c <> "" /\ c <> ".") (Py.split_on "/" s).

(** [base / s]: an absolute [s] replaces [base]. *)
Definition joinpath (base : path) (s : string) : path :=
  if starts_with_slash s then parse_parts s else base ++ parse_parts s.

(* ===================================================================== *)
(** * Flask *)
(* ===================================================================== *)

Inductive jvalue :=
| JStr (s : string)
| JBool (b : bool).

Inductive body :=
| Json (d : gmap string jvalue)
| Html (text : string)
| Download (data : bytes).

Record response := Resp { status : Z; content : body }.

(** The uploaded part: [request.files.get("file")] is [None] when the form
    has no such part. *)
Record FileStorage := { filename : string; stream : bytes }.

(** [jsonify(d)] and [jsonify(d), code] *)
Definition jsonify (d : list (string * jvalue)) : response :=
  Resp 200 (Json (list_to_map d)).

Definition jsonify_status (d : list (string * jvalue)) (code : Z) : response :=
  Resp code (Json (list_to_map d)).

(** What Flask answers when a view raises [werkzeug.exceptions.NotFound]. *)
Definition not_found_page : response := Resp 404 (Html "404 Not Found").

(** The request headers that make the answer of [send_file] depend on the
    request: with one of them the file may be sent in part (206), not at
    all (304, 412) or refused (416).  Header names are compared in lower
    case. *)
Definition conditional_headers : list string :=
  ["range"; "if-range"; "if-match"; "if-none-match";
   "if-modified-since"; "if-unmodified-since"].

Definition is_conditional (header : string * string) : bool :=
  bool_decide (Py.lower (fst header) ∈ conditional_headers).

(* ===================================================================== *)
(** * The two external tools and the job token *)
(* ===================================================================== *)

(** [subprocess.CompletedProcess] of a run in text mode. *)
Record completed := { returncode : Z; stdout : string; stderr : string }.

(** What a child process leaves when it has ended: its exit status and the
    bytes it wrote on its two pipes. *)
Record ended := { exit_status : Z; stdout_bytes : bytes; stderr_bytes : bytes }.

(** Whether [subprocess.run] can start a program, or raises an [OSError]
    instead ([ENOENT] when the program is not found). *)
Inductive launch :=
| Starts
| Fails (errno : oserror).

(** What surrounds a call of a handler.  The separation tool may write any
    entries, but only into the directory it is given with [-o]; the mixing
    tool writes at most its output file; the probes [-h] and [-version]
    write nothing.  Whether a tool starts is the same for every call within
    one request.  [locale_decode] is [bytes.decode] for the encoding of the
    locale, which text mode uses for the output of a child.  [NAME_MAX] and
    [PATH_MAX] are the bounds of the operating system on the bytes of a
    name and of a path (255 and 4096 on Linux).  [request_method] and
    [request_headers] are those of [flask.request], and
    [conditional_response] is what [send_file] makes of a file for a
    request that is conditional or is not a GET. *)
Record Env := {
  BASE_DIR : path;
  sys_executable : string;
  uuid4 : N;
  python_launch : launch;
  demucs_help : ended;
  demucs_cli : list string -> node -> ended * list (string * node);
  ffmpeg_launch : launch;
  ffmpeg_version : ended;
  ffmpeg_amix : list string -> node -> ended * option bytes;
  locale_decode : bytes -> Py.decoded;
  NAME_MAX : nat;
  PATH_MAX : nat;
  request_method : string;
  request_headers : list (string * string);
  conditional_response : path -> bytes -> response
}.

Definition spawn (l : launch) (program : string) : M unit :=
  match l with
  | Starts => ret tt
  | Fails errno => raise (OSError errno program)
  end.

Section App.

Context (env : Env).

Definition UPLOADS : path := BASE_DIR env ++ ["uploads"].
Definition OUTPUTS : path := BASE_DIR env ++ ["outputs"].
Definition STATIC : path := BASE_DIR env ++ ["static"].

(** The three [mkdir(exist_ok=True)] of the module body. *)
Definition startup : M unit :=
  mkdir_exist_ok UPLOADS >>
  mkdir_exist_ok OUTPUTS >>
  mkdir_exist_ok STATIC.

(** [Popen._translate_newlines(data, encoding, errors)]: the bytes of a
    pipe decoded with the encoding of the locale, then universal newlines. *)
Definition translate_newlines (data : bytes) : res string :=
  match locale_decode env data with
  | Py.Text s => Ok (Py.universal_newlines s)
  | Py.Undecodable encoding start stop reason =>
      Raise (UnicodeDecodeError encoding data start stop reason)
  end.

(** What [subprocess.run(..., stdout=PIPE, stderr=PIPE, text=True)] returns
    for a child that has ended: stdout is decoded first, then stderr, and
    a [UnicodeDecodeError] of either leaves [run]. *)
Definition text_mode (child : ended) : res completed :=
  match translate_newlines (stdout_bytes child) with
  | Raise e => Raise e
  | Ok out =>
      match translate_newlines (stderr_bytes child) with
      | Raise e => Raise e
      | Ok err => Ok {| returncode := exit_status child; stdout := out; stderr := err |}
      end
  end.

(** [subprocess.run([sys.executable, "-m", "demucs", "-h"], ..., text=True)] *)
Definition run_demucs_help : M completed :=
  spawn (python_launch env) (sys_executable env) >>
  lift (text_mode (demucs_help env)).

(** [subprocess.run(cmd, ..., text=True)] for the separation command line:
    the child has written its files by the time its output is decoded. *)
Definition run_demucs_cli (cmd : list string) (out_dir : path) : M completed :=
  spawn (python_launch env) (sys_executable env) >>
  fun fs =>
    let '(child, written) := demucs_cli env cmd fs in
    let add es := fold_left (fun acc kv => FS.set_entry (fst kv) (snd kv) acc) written es in
    (text_mode child, default fs (FS.with_dir out_dir add fs)).

(** [subprocess.run(["ffmpeg", "-version"], ..., check=False)], in binary
    mode. *)
Definition run_ffmpeg_version : M ended :=
  spawn (ffmpeg_launch env) "ffmpeg" >>
  ret (ffmpeg_version env).

(** [subprocess.run(cmd, ..., text=True)] for the mixing command line. *)
Definition run_ffmpeg_amix (cmd : list string) (out : path) : M completed :=
  spawn (ffmpeg_launch env) "ffmpeg" >>
  fun fs =>
    let '(child, written) := ffmpeg_amix env cmd fs in
    match written with
    | Some data => (text_mode child, snd (write_bytes out data fs))
    | None => (text_mode child, fs)
    end.

Definition index : M response :=
  let* text := read_text_utf8 (STATIC ++ ["index.html"]) in
  ret (Resp 200 (Html text)).

(** [os.stat(str(p))]: the node [p] leads to, ".." included, or [None]
    when a name is missing or a regular file is in the way.  A path of
    [PATH_MAX] bytes or more is refused before the walk, a name of more
    than [NAME_MAX] bytes by the directory it is looked up in. *)
Definition os_stat (p : path) : M (option node) :=
  fun fs =>
    if (PATH_MAX env <=? String.length (str_path p))%nat
    then (Raise (OSError ENAMETOOLONG (str_path p)), fs)
    else
      match FS.walk (NAME_MAX env) [] fs p with
      | FS.Found n => (Ok (Some n), fs)
      | FS.Missing => (Ok None, fs)
      | FS.TooLong => (Raise (OSError ENAMETOOLONG (str_path p)), fs)
      end.

(** [full.exists()] and [full.is_file()] in [outputs_serve], whose path
    comes from the request: [False] when [os.stat] fails with ENOENT or
    ENOTDIR, while any other [OSError] is raised again. *)
Definition stat_exists (p : path) : M bool :=
  let* st := os_stat p in
  ret (FS.is_some_node st).

Definition stat_is_file (p : path) : M bool :=
  let* st := os_stat p in
  ret (FS.is_file_node st).

(** [os.path.isfile(p)], which is [False] on any [OSError], together with
    the bytes that [open(p, "rb")] reads when it holds. *)
Definition regular_file (p : path) : M (option bytes) :=
  try_except
    (let* st := os_stat p in
     ret (match st with Some (File data) => Some data | _ => None end))
    (fun _ => ret None).

(** A GET request without any conditional header. *)
Definition plain_get : bool :=
  bool_decide (request_method env = "GET")
  && forallb (fun h => negb (is_conditional h)) (request_headers env).

(** [send_file(path, conditional=True)]: the whole file with status 200
    for a plain GET. *)
Definition send_file (p : path) (data : bytes) : response :=
  if plain_get then Resp 200 (Download data) else conditional_response env p data.

(** [flask.send_from_directory(directory, filename)] for a file name
    without separators: [safe_join] refuses ".." and the file has to be a
    regular file, otherwise [NotFound]. *)
Definition send_from_directory (directory : path) (name : string) : M response :=
  if decide (name = "..") then ret not_found_page
  else
    let* found := regular_file (directory ++ [name]) in
    match found with
    | Some data => ret (send_file (directory ++ [name]) data)
    | None => ret not_found_page
    end.

Definition not_found : list (string * jvalue) := [("detail", JStr "File not found.")].

Definition outputs_serve (subpath : string) : M response :=
  let full := joinpath OUTPUTS subpath in
  let* there := stat_exists full in
  let* regular := if there then stat_is_file full else ret false in
  if (negb there || negb regular)%bool then ret (jsonify_status not_found 404)
  else
    let directory := FS.parent full in
    let filename := FS.name full in
    send_from_directory directory filename.

Definition _ffmpeg_exists : M bool :=
  try_except
    (run_ffmpeg_version >> ret true)
    (fun e =>
       match e with
       | OSError ENOENT _ => ret false
       | _ => raise e
       end).

Definition demucs_failed (cmd : list string) (proc : completed) : string :=
  "Demucs failed." +:+ Py.nl +:+ Py.nl
  +:+ "Command: " +:+ Py.join " " cmd +:+ Py.nl +:+ Py.nl
  +:+ "STDOUT:" +:+ Py.nl +:+ stdout proc +:+ Py.nl +:+ Py.nl
  +:+ "STDERR:" +:+ Py.nl +:+ stderr proc.

(** The command line of [run_demucs]. *)
Definition demucs_cmd (model : string) (input_path out_dir : path) : list string :=
  [sys_executable env; "-m"; "demucs";
   "-n"; model;
   "-o"; str_path out_dir;
   str_path input_path].

Definition run_demucs (input_path out_dir : path) : M path :=
  let model := "htdemucs" in
  let cmd := demucs_cmd model input_path out_dir in
  let* proc := run_demucs_cli cmd out_dir in
  if negb (bool_decide (returncode proc = 0))
  then raise (RuntimeError (demucs_failed cmd proc))
  else
    let model_dir := out_dir ++ [model] in
    let* there := path_exists model_dir in
    if negb there then raise (RuntimeError "Demucs output not found.")
    else
      let* children := iterdir model_dir in
      let* candidates := filter_m is_dir children in
      match candidates with
      | [] => raise (RuntimeError "Demucs didn't produce a track folder.")
      | first :: _ => ret first
      end.

(** The command line of [make_instrumental]. *)
Definition amix_cmd (drums bass other instrumental_out : path) : list string :=
  ["ffmpeg"; "-y";
   "-i"; str_path drums;
   "-i"; str_path bass;
   "-i"; str_path other;
   "-filter_complex"; "amix=inputs=3:normalize=0";
   str_path instrumental_out].

Definition make_instrumental (drums bass other instrumental_out : path) : M unit :=
  let* found := _ffmpeg_exists in
  if found then
    let cmd := amix_cmd drums bass other instrumental_out in
    let* proc := run_ffmpeg_amix cmd instrumental_out in
    if negb (bool_decide (returncode proc = 0))
    then copy2 other instrumental_out
    else ret tt
  else copy2 other instrumental_out.

Definition allowed : list string := [".mp3"; ".wav"; ".m4a"; ".flac"; ".ogg"; ".aac"].

Definition no_file : list (string * jvalue) := [("detail", JStr "No file uploaded.")].
Definition unsupported : list (string * jvalue) := [("detail", JStr "Unsupported file format.")].

Definition check_stem (p : path) : M unit :=
  let* there := path_exists p in
  if negb there
  then raise (RuntimeError ("Missing expected stem: " +:+ FS.name p))
  else ret tt.

(** The body of the [try] of [upload]. *)
Definition process (uid ext : string) (input_path job_dir : path) : M response :=
  let* out_subdir := run_demucs input_path job_dir in
  let vocals := out_subdir ++ ["vocals.wav"] in
  let drums := out_subdir ++ ["drums.wav"] in
  let bass := out_subdir ++ ["bass.wav"] in
  let other := out_subdir ++ ["other.wav"] in
  for_each [vocals; drums; bass; other] check_stem >>
  let instrumental := out_subdir ++ ["instrumental.wav"] in
  make_instrumental drums bass other instrumental >>
  let original_copy := job_dir ++ ["original" +:+ ext] in
  copy2 input_path original_copy >>
  let* rel := relative_to out_subdir OUTPUTS in
  let base := "/outputs/" +:+ as_posix rel in
  ret (jsonify [
    ("id", JStr uid);
    ("original", JStr ("/outputs/" +:+ uid +:+ "/original" +:+ ext));
    ("vocals", JStr (base +:+ "/vocals.wav"));
    ("instrumental", JStr (base +:+ "/instrumental.wav"));
    ("drums", JStr (base +:+ "/drums.wav"));
    ("bass", JStr (base +:+ "/bass.wav"));
    ("other", JStr (base +:+ "/other.wav"))
  ]).

Definition upload (file : option FileStorage) : M response :=
  match file with
  | None => ret (jsonify_status no_file 400)
  | Some file =>
      if bool_decide (filename file = "") then ret (jsonify_status no_file 400)
      else
        let ext := Py.lower (snd (Py.splitext (filename file))) in
        if negb (bool_decide (ext ∈ allowed))
        then ret (jsonify_status unsupported 400)
        else
          let uid := Py.uuid_hex (uuid4 env) in
          let input_path := UPLOADS ++ [uid +:+ ext] in
          write_bytes input_path (stream file) >>
          let job_dir := OUTPUTS ++ [uid] in
          mkdir_parents_exist_ok job_dir >>
          try_except
            (process uid ext input_path job_dir)
            (fun e =>
               rmtree_ignore_errors job_dir >>
               ret (jsonify_status [("detail", JStr (str_exn e))] 500))
  end.

Definition health : M response :=
  let* demucs_ok :=
    try_except
      (let* test := run_demucs_help in
       ret (bool_decide (returncode test = 0)))
      (fun _ => ret false) in
  let* ffmpeg_ok := _ffmpeg_exists in
  ret (jsonify [("status", JStr "ok");
                ("demucs", JBool demucs_ok);
                ("ffmpeg", JBool ffmpeg_ok)]).

End App.

(* ===================================================================== *)
(** * Notions used to state the properties *)
(* ===================================================================== *)

(** The subdirectories of [d], in listing order. *)
Definition subdirectories (d : path) (fs : node) : list path :=
  match FS.node_at d fs with
  | Some (Dir es) =>
      filter (fun q => FS.is_dir_node (FS.node_at q fs) = true)
             (map (fun kv => d ++ [fst kv]) es)
  | _ => []
  end.

Definition stem_names : list string := ["vocals.wav"; "drums.wav"; "bass.wav"; "other.wav"].

(** The first of the four stems that is absent from the track folder. *)
Definition first_missing (sub : path) (fs : node) : option string :=
  List.find (fun n => negb (FS.is_some_node (FS.node_at (sub ++ [n]) fs))) stem_names.

(** The keys of a JSON object. *)
Definition keys (b : body) : gset string :=
  match b with
  | Json d => dom d
  | _ => ∅
  end.

(** The member [k] of a JSON object. *)
Definition member (k : string) (b : body) : option jvalue :=
  match b with
  | Json d => d !! k
  | _ => None
  end.

(** A JSON string that begins with [pre]. *)
Definition begins_with (pre : string) (v : jvalue) : bool :=
  match v with
  | JStr s => Py.startswith pre s
  | JBool _ => false
  end.

(** [under p fs fs']: [fs'] comes from [fs] by rewriting listings of
    directories at or below [p]. *)
Inductive under (p : path) : node -> node -> Prop :=
| under_refl fs : under p fs fs
| under_step fs fs1 fs2 s f :
    FS.with_dir (p ++ s) f fs = Some fs1 -> under p fs1 fs2 -> under p fs fs2.

(** A computation that changes nothing outside [p]. *)
Definition confined {A} (p : path) (m : M A) : Prop :=
  forall fs, under p fs (snd (m fs)).

(** The members of the answer of [upload] that hold a URL. *)
Definition url_keys : list string :=
  ["original"; "vocals"; "instrumental"; "drums"; "bass"; "other"].

(** Whether a program starts. *)
Definition starts (l : launch) : bool :=
  match l with
  | Starts => true
  | Fails _ => false
  end.

(** Whether text mode can decode what a child wrote on its two pipes. *)
Definition is_text (d : Py.decoded) : bool :=
  match d with
  | Py.Text _ => true
  | Py.Undecodable _ _ _ _ => false
  end.

Definition decodable (env : Env) (child : ended) : bool :=
  is_text (locale_decode env (stdout_bytes child))
  && is_text (locale_decode env (stderr_bytes child)).

(** A path the operating system accepts: its text is shorter than
    [PATH_MAX] and none of its names is longer than [NAME_MAX]. *)
Definition accepted (env : Env) (p : path) : bool :=
  (String.length (str_path p) <? PATH_MAX env)%nat
  && forallb (fun c => (String.length c <=? NAME_MAX env)%nat) p.

(** The audio formats of the allow-list, and the file names whose
    extension (what [os.path.splitext] splits off, without its dot) is one
    of them in any letter case. *)
Definition formats : list string := ["mp3"; "wav"; "m4a"; "flac"; "ogg"; "aac"].

Definition supported (name : string) : Prop :=
  exists x, snd (Py.splitext name) = "." +:+ x /\ Py.lower x ∈ formats.

(** The names [upload] derives from a request. *)
Definition ext_of (file : FileStorage) : string :=
  Py.lower (snd (Py.splitext (filename file))).

Definition job_id (env : Env) : string := Py.uuid_hex (uuid4 env).

Definition input_path_of (env : Env) (file : FileStorage) : path :=
  UPLOADS env ++ [job_id env +:+ ext_of file].

Definition job_dir_of (env : Env) : path := OUTPUTS env ++ [job_id env].

(** What [upload] answers when the body of its [try] raises [e]. *)
Definition failed (e : exn) : response :=
  jsonify_status [("detail", JStr (str_exn e))] 500.

(** What [upload] does once the file has passed its two checks: the job
    itself, and the part of it that follows the saving of the upload. *)
Definition guarded (env : Env) (file : FileStorage) : M response :=
  try_except
    (process env (job_id env) (ext_of file) (input_path_of env file) (job_dir_of env))
    (fun e => rmtree_ignore_errors (job_dir_of env) >> ret (failed e)).

Definition pipeline (env : Env) (file : FileStorage) : M response :=
  write_bytes (input_path_of env file) (stream file) >>
  mkdir_parents_exist_ok (job_dir_of env) >>
  guarded env file.

(* ===================================================================== *)
(** * A deployment to run the handlers on *)
(* ===================================================================== *)

Module Scenario.

Definition text (s : string) : node := File (list_byte_of_string s).

(** The application directory before the module body has run. *)
Definition disk : node :=
  Dir [("srv", Dir [("app", Dir [("app.py", text "import os");
                                 ("static", Dir [("index.html", text "<html></html>")])])])].

(** A child that ends with status [code] and has written nothing on its
    pipes. *)
Definition exited (code : Z) : ended :=
  {| exit_status := code; stdout_bytes := []; stderr_bytes := [] |}.

(** Token 255, hence the job identifier 00..00ff. *)
Definition token : N := 255.
Definition uid : string := "000000000000000000000000000000ff".

(** A track folder with the given files, as demucs names it after the
    input file. *)
Definition track (files : list (string * node)) : list (string * node) :=
  [("htdemucs", Dir [(uid, Dir files)])].

Definition four_stems : list (string * node) :=
  [("vocals.wav", text "V"); ("drums.wav", text "D");
   ("bass.wav", text "B"); ("other.wav", text "O")].

Definition no_bass : list (string * node) :=
  [("vocals.wav", text "V"); ("drums.wav", text "D"); ("other.wav", text "O")].

Definition mixed : bytes := list_byte_of_string "D+B+O".

(** The first bytes of a mix that the answer to a range request holds. *)
Definition first_bytes (p : path) (data : bytes) : response :=
  Resp 206 (Download (take 2 data)).

(** A deployment on Linux with a UTF-8 locale, serving a plain GET: what
    demucs writes and how it exits, whether ffmpeg starts, and how its two
    invocations exit. *)
Definition deployment (written : list (string * node)) (demucs_exit : Z)
    (ffmpeg : launch) (version_exit amix_exit : Z) : Env :=
  {| BASE_DIR := ["srv"; "app"];
     sys_executable := "/usr/bin/python3";
     uuid4 := token;
     python_launch := Starts;
     demucs_help := exited 0;
     demucs_cli := fun _ _ => (exited demucs_exit, written);
     ffmpeg_launch := ffmpeg;
     ffmpeg_version := exited version_exit;
     ffmpeg_amix := fun _ _ =>
       (exited amix_exit, if bool_decide (amix_exit = 0) then Some mixed else None);
     locale_decode := Py.utf8_decode;
     NAME_MAX := 255;
     PATH_MAX := 4096;
     request_method := "GET";
     request_headers := [];
     conditional_response := first_bytes |}.

(** The deployment [env] with an ffmpeg that writes [err] on its standard
    error when it mixes, and with a demucs that does so when it separates. *)
Definition ffmpeg_says (env : Env) (err : bytes) : Env :=
  {| BASE_DIR := BASE_DIR env;
     sys_executable := sys_executable env;
     uuid4 := uuid4 env;
     python_launch := python_launch env;
     demucs_help := demucs_help env;
     demucs_cli := demucs_cli env;
     ffmpeg_launch := ffmpeg_launch env;
     ffmpeg_version := ffmpeg_version env;
     ffmpeg_amix := fun cmd fs =>
       ({| exit_status := exit_status (fst (ffmpeg_amix env cmd fs));
           stdout_bytes := [];
           stderr_bytes := err |}, snd (ffmpeg_amix env cmd fs));
     locale_decode := locale_decode env;
     NAME_MAX := NAME_MAX env;
     PATH_MAX := PATH_MAX env;
     request_method := request_method env;
     request_headers := request_headers env;
     conditional_response := conditional_response env |}.

Definition demucs_says (env : Env) (err : bytes) : Env :=
  {| BASE_DIR := BASE_DIR env;
     sys_executable := sys_executable env;
     uuid4 := uuid4 env;
     python_launch := python_launch env;
     demucs_help :=
       {| exit_status := exit_status (demucs_help env);
          stdout_bytes := [];
          stderr_bytes := err |};
     demucs_cli := fun cmd fs =>
       ({| exit_status := exit_status (fst (demucs_cli env cmd fs));
           stdout_bytes := [];
           stderr_bytes := err |}, snd (demucs_cli env cmd fs));
     ffmpeg_launch := ffmpeg_launch env;
     ffmpeg_version := ffmpeg_version env;
     ffmpeg_amix := ffmpeg_amix env;
     locale_decode := locale_decode env;
     NAME_MAX := NAME_MAX env;
     PATH_MAX := PATH_MAX env;
     request_method := request_method env;
     request_headers := request_headers env;
     conditional_response := conditional_response env |}.

(** The deployment [env] serving a request with the given method and
    headers. *)
Definition requested (env : Env) (method : string) (headers : list (string * string)) : Env :=
  {| BASE_DIR := BASE_DIR env;
     sys_executable := sys_executable env;
     uuid4 := uuid4 env;
     python_launch := python_launch env;
     demucs_help := demucs_help env;
     demucs_cli := demucs_cli env;
     ffmpeg_launch := ffmpeg_launch env;
     ffmpeg_version := ffmpeg_version env;
     ffmpeg_amix := ffmpeg_amix env;
     locale_decode := locale_decode env;
     NAME_MAX := NAME_MAX env;
     PATH_MAX := PATH_MAX env;
     request_method := method;
     request_headers := headers;
     conditional_response := conditional_response env |}.

Definition healthy : Env := deployment (track four_stems) 0 Starts 0 0.
Definition demucs_crashes : Env := deployment [] 1 Starts 0 0.
Definition bass_missing : Env := deployment (track no_bass) 0 Starts 0 0.
Definition without_ffmpeg : Env := deployment (track four_stems) 0 (Fails ENOENT) 0 0.
Definition ffmpeg_broken : Env := deployment (track four_stems) 0 Starts 127 127.
Definition ffmpeg_denied : Env := deployment (track four_stems) 0 (Fails EACCES) 0 0.

(** A byte that is no UTF-8, and tools that write it. *)
Definition garbage : bytes := [xff].

Definition ffmpeg_garbled : Env := ffmpeg_says ffmpeg_broken garbage.
Definition help_garbled : Env := demucs_says healthy garbage.

(** Track folders in which a directory has the name of a file. *)
Definition other_is_a_directory : list (string * node) :=
  [("vocals.wav", text "V"); ("drums.wav", text "D");
   ("bass.wav", text "B"); ("other.wav", Dir [])].

Definition instrumental_is_a_directory : list (string * node) :=
  four_stems ++ [("instrumental.wav", Dir [])].

Definition odd_other : Env := deployment (track other_is_a_directory) 0 (Fails ENOENT) 0 0.
Definition odd_instrumental : Env :=
  deployment (track instrumental_is_a_directory) 0 (Fails ENOENT) 0 0.

(** The tree once the module body has created its three directories. *)
Definition started : node := snd (startup healthy disk).

Definition song : FileStorage :=
  {| filename := "song.MP3"; stream := list_byte_of_string "RIFF" |}.

Definition readme : FileStorage :=
  {| filename := "README"; stream := list_byte_of_string "read me" |}.

Definition clip : FileStorage :=
  {| filename := "clip.xyz"; stream := list_byte_of_string "xyz" |}.

(** The tree of a job in deployment [env] once separation has returned,
    and the track folder demucs made. *)
Definition separated (env : Env) : node :=
  snd ((write_bytes (input_path_of env song) (stream song) >>
        mkdir_parents_exist_ok (job_dir_of env) >>
        run_demucs env (input_path_of env song) (job_dir_of env)) started).

Definition track_folder : path := ["srv"; "app"; "outputs"; uid; "htdemucs"; uid].

End Scenario.

(* ===================================================================== *)
(** * Further notions: plain names, and more trees to run on *)
(* ===================================================================== *)

(** A name as a directory entry has it: not empty, not "." or "..", and
    without a slash. *)
Definition is_plain (c : string) : bool :=
  negb (bool_decide (c = "")) && negb (bool_decide (c = "."))
  && negb (bool_decide (c = "..")) && negb (Py.has_char "/" c).

(** All characters of [s] occur in [alphabet]. *)
Fixpoint all_in (alphabet s : string) : bool :=
  match s with
  | EmptyString => true
  | String c r => Py.has_char c alphabet && all_in alphabet r
  end.

Definition hexdigits : string := "0123456789abcdef".

(** The member of the answer of [upload] that goes with a file of the
    track folder. *)
Definition track_files : list (string * string) :=
  [("vocals", "vocals.wav"); ("instrumental", "instrumental.wav");
   ("drums", "drums.wav"); ("bass", "bass.wav"); ("other", "other.wav")].

(** [keeps fs fs']: every regular file of [fs] is in [fs'] with the same
    bytes, and every directory of [fs] is a directory of [fs']. *)
Definition keeps (fs fs' : node) : Prop :=
  forall q,
    (forall data, FS.node_at q fs = Some (File data) -> FS.node_at q fs' = Some (File data))
    /\ (FS.is_dir_node (FS.node_at q fs) = true -> FS.is_dir_node (FS.node_at q fs') = true).

Module Site.

(** An application directory that holds nothing yet. *)
Definition empty : node := Dir [("srv", Dir [("app", Dir [])])].

(** An application directory where a regular file is in the way of the
    uploads directory. *)
Definition blocked : node :=
  Dir [("srv", Dir [("app", Dir [("uploads", Scenario.text "not a directory")])])].

(** A tree in which an earlier job and an earlier upload are kept. *)
Definition used : node :=
  Dir [("srv", Dir [("app", Dir [
    ("static", Dir [("index.html", Scenario.text "<html></html>")]);
    ("uploads", Dir [("earlier.wav", Scenario.text "E")]);
    ("outputs", Dir [("0123", Dir [("original.wav", Scenario.text "E")])])])])].

(** An application directory with the given page. *)
Definition with_page (page : node) : node :=
  Dir [("srv", Dir [("app", Dir [("static", Dir [("index.html", page)])])])].

Definition crlf : string := String Py.cr (String Py.lf "").

(** "<p>caf", e acute in Latin-1, "</p>" *)
Definition latin1 : bytes :=
  list_byte_of_string "<p>caf" ++ [xe9] ++ list_byte_of_string "</p>".

End Site.

(* ===================================================================== *)
(** * Lemmas on [os.path.splitext] *)
(* ===================================================================== *)

Module PyFacts.
Import Py.

Lemma has_char_app c a b : has_char c (a +:+ b) = (has_char c a || has_char c b)%bool.
Proof. induction a as [|x a IH]; simpl; [done|]. by rewrite IH, orb_assoc. Qed.

Lemma rfind_from_absent c s : forall i last,
  has_char c s = false -> rfind_from c s i last = last.
Proof.
  induction s as [|a r IH]; intros i last H; simpl in *; [done|].
  apply orb_false_iff in H as [-> Hr]. by apply IH.
Qed.

Lemma rfind_from_app c a b : forall i last,
  rfind_from c (a +:+ b) i last
  = rfind_from c b (i + Z.of_nat (String.length a)) (rfind_from c a i last).
Proof.
  induction a as [|x a IH]; intros i last; simpl.
  - by rewrite Z.add_0_r.
  - rewrite IH. f_equal. lia.
Qed.

Lemma rfind_from_ge c s : forall i last, last <= i -> last <= rfind_from c s i last.
Proof.
  induction s as [|a r IH]; intros i last H; simpl; [lia|].
  destruct (Ascii.eqb a c).
  - etrans; [exact H|]. apply IH. lia.
  - apply IH. lia.
Qed.

(** The last occurrence of [c]. *)
Lemma rfind_last c a b :
  has_char c b = false -> rfind c (a +:+ String c b) = Z.of_nat (String.length a).
Proof.
  intros Hb. unfold rfind. rewrite rfind_from_app. simpl.
  rewrite Ascii.eqb_refl. by rewrite rfind_from_absent.
Qed.

Lemma rfind_absent c s : has_char c s = false -> rfind c s = -1.
Proof. apply rfind_from_absent. Qed.

Lemma substring_prefix a b : substring 0 (String.length a) (a +:+ b) = a.
Proof.
  induction a as [|x a IH]; simpl; [by destruct b|]. by rewrite IH.
Qed.

Lemma substring_whole b : substring 0 (String.length b) b = b.
Proof. induction b as [|x b IH]; simpl; [done|]. by rewrite IH. Qed.

Lemma substring_suffix a b :
  substring (String.length a) (String.length b) (a +:+ b) = b.
Proof. induction a as [|x a IH]; simpl; [apply substring_whole | apply IH]. Qed.

Lemma length_app a b :
  String.length (a +:+ b) = (String.length a + String.length b)%nat.
Proof. induction a as [|x a IH]; simpl; [done|]. by rewrite IH. Qed.

(** A plain file name [stem.x]: no slash, a stem that is not made of dots
    only, and no further dot in [x].  Its extension is [.x]. *)
Lemma splitext_simple stem x :
  has_char "/" stem = false -> all_dots stem = false ->
  has_char "." x = false -> has_char "/" x = false ->
  splitext (stem +:+ "." +:+ x) = (stem, "." +:+ x).
Proof.
  intros Hs Hd Hx Hx'. unfold splitext.
  change ("." +:+ x) with (String "."%char x).
  rewrite (rfind_absent "/") by (rewrite has_char_app; simpl; by rewrite Hs, Hx').
  rewrite rfind_last by done.
  replace (-1 <? Z.of_nat (String.length stem)) with true by (symmetry; apply Z.ltb_lt; lia).
  assert (slice 0 (Z.of_nat (String.length stem)) (stem +:+ String "." x) = stem) as Hpre.
  { unfold slice. rewrite Z.sub_0_r, Nat2Z.id. apply substring_prefix. }
  assert (slice_from (Z.of_nat (String.length stem)) (stem +:+ String "." x)
          = String "." x) as Hsuf.
  { unfold slice_from. rewrite Nat2Z.id, length_app.
    replace (String.length stem + String.length (String "." x) - String.length stem)%nat
      with (String.length (String "." x)) by lia.
    apply substring_suffix. }
  change (-1 + 1) with 0. by rewrite Hpre, Hsuf, Hd.
Qed.

(** A name without a dot has no extension. *)
Lemma splitext_no_dot name : has_char "." name = false -> splitext name = (name, "").
Proof.
  intros H. unfold splitext. rewrite (rfind_absent "." name H).
  pose proof (rfind_from_ge "/" name 0 (-1)) as Hge. unfold rfind.
  replace (rfind_from "/" name 0 (-1) <? -1) with false; [done|].
  symmetry. apply Z.ltb_ge. apply Hge. lia.
Qed.

End PyFacts.

(* ===================================================================== *)
(** * Lemmas on the directory tree *)
(* ===================================================================== *)

Module FSFacts.
Import FS.

Lemma find_entry_set_eq c n es : find_entry c (set_entry c n es) = Some n.
Proof.
  induction es as [|[k v] r IH]; simpl.
  - by rewrite decide_True.
  - destruct (decide (k = c)) as [->|Hne]; simpl.
    + by rewrite decide_True.
    + by rewrite decide_False.
Qed.

Lemma find_entry_set_ne c b n es :
  c <> b -> find_entry b (set_entry c n es) = find_entry b es.
Proof.
  intros Hcb. induction es as [|[k v] r IH]; simpl.
  - by rewrite decide_False.
  - destruct (decide (k = c)) as [->|Hne]; simpl.
    + by rewrite !decide_False.
    + destruct (decide (k = b)); [done | apply IH].
Qed.

Lemma find_entry_del_eq c es : find_entry c (del_entry c es) = None.
Proof.
  induction es as [|[k v] r IH]; simpl; [done|].
  destruct (decide (k = c)) as [->|Hne]; simpl; [done|].
  by rewrite decide_False.
Qed.

Lemma find_entry_del_ne c b es :
  c <> b -> find_entry b (del_entry c es) = find_entry b es.
Proof.
  intros Hcb. induction es as [|[k v] r IH]; simpl; [done|].
  destruct (decide (k = c)) as [->|Hne]; simpl.
  - by rewrite decide_False.
  - destruct (decide (k = b)); [done | apply IH].
Qed.

(** Adding a batch of entries leaves every other name as it was. *)
Lemma find_entry_add_other (written : list (string * node)) b es :
  b ∉ map fst written ->
  find_entry b (fold_left (fun acc kv => set_entry (fst kv) (snd kv) acc) written es)
  = find_entry b es.
Proof.
  revert es. induction written as [|[k v] w IH]; intros es Hb; simpl; [done|].
  simpl in Hb. apply not_elem_of_cons in Hb as [Hk Hw].
  rewrite IH by done. apply find_entry_set_ne. congruence.
Qed.

Lemma node_at_app p q t :
  node_at (p ++ q) t = match node_at p t with Some n => node_at q n | None => None end.
Proof.
  revert t. induction p as [|c r IH]; intros t; simpl; [done|].
  destruct t as [|es]; [done|].
  destruct (find_entry c es); [apply IH | done].
Qed.

Lemma node_at_under_file p c r t data :
  node_at p t = Some (File data) -> node_at (p ++ c :: r) t = None.
Proof. intros H. by rewrite node_at_app, H. Qed.

Lemma node_at_under_none p q t : node_at p t = None -> node_at (p ++ q) t = None.
Proof. intros H. by rewrite node_at_app, H. Qed.

Lemma parent_snoc d (c : string) : parent (d ++ [c]) = d.
Proof. apply removelast_last. Qed.

Lemma name_snoc d (c : string) : name (d ++ [c]) = c.
Proof. apply last_last. Qed.

(** A path without ".." resolves by plain descent. *)
Lemma namei_plain p : forall up cur,
  ".." ∉ p -> namei up cur p = node_at p cur.
Proof.
  induction p as [|c r IH]; intros up cur Hp; simpl; [done|].
  destruct cur as [|es]; [done|].
  rewrite decide_False by set_solver.
  destruct (find_entry c es); [apply IH; set_solver | done].
Qed.

Lemma resolve_plain p root : ".." ∉ p -> resolve p root = node_at p root.
Proof. apply namei_plain. Qed.

(** ** Divergence *)

Lemma diverge_sym p : forall q, diverge p q = diverge q p.
Proof.
  induction p as [|a p IH]; intros [|b q]; simpl; try done.
  destruct (decide (a = b)) as [->|Hne].
  - rewrite decide_True by done. apply IH.
  - by rewrite decide_False.
Qed.

Lemma diverge_app_l p s : forall q, diverge p q = true -> diverge (p ++ s) q = true.
Proof.
  induction p as [|a p IH]; intros [|b q]; simpl; try done.
  destruct (decide (a = b)); [apply IH | done].
Qed.

Lemma diverge_app_r p s q : diverge p q = true -> diverge p (q ++ s) = true.
Proof.
  intros H. rewrite diverge_sym. apply diverge_app_l. by rewrite diverge_sym.
Qed.

Lemma diverge_common b p q : diverge (b ++ p) (b ++ q) = diverge p q.
Proof. induction b as [|a b IH]; simpl; [done|]. by rewrite decide_True. Qed.

Lemma diverge_siblings b (x y : string) p q :
  x <> y -> diverge (b ++ x :: p) (b ++ y :: q) = true.
Proof. intros Hxy. rewrite diverge_common. simpl. by rewrite decide_False. Qed.

(** ** Rewriting a listing *)

Lemma with_dir_at d f : forall t t',
  with_dir d f t = Some t' ->
  exists es, node_at d t = Some (Dir es) /\ node_at d t' = Some (Dir (f es)).
Proof.
  induction d as [|c r IH]; intros t t' H; destruct t as [|es]; simpl in H; try done.
  - inversion H; subst. by exists es.
  - destruct (find_entry c es) as [sub|] eqn:Hc; [|done].
    destruct (with_dir r f sub) as [sub'|] eqn:Hr; [|done].
    inversion H; subst. simpl. rewrite Hc, find_entry_set_eq. by apply IH.
Qed.

Lemma with_dir_is_Some d f : forall t es,
  node_at d t = Some (Dir es) -> is_Some (with_dir d f t).
Proof.
  induction d as [|c r IH]; intros t es H; simpl in H.
  - inversion H; subst. by eexists.
  - destruct t as [|es']; [done|]. simpl.
    destruct (find_entry c es') as [sub|]; [|done].
    destruct (IH _ _ H) as [sub' ->]. by eexists.
Qed.

Lemma with_dir_None d f t :
  with_dir d f t = None -> is_dir_node (node_at d t) = false.
Proof.
  intros H. destruct (node_at d t) as [[|es]|] eqn:Hd; try done.
  destruct (with_dir_is_Some d f _ _ Hd) as [? ?]. congruence.
Qed.

(** Whatever is done to the listing of [d], a path that parts ways with
    [d] sees the same node. *)
Lemma with_dir_frame d f : forall t t' q,
  with_dir d f t = Some t' -> diverge d q = true -> node_at q t' = node_at q t.
Proof.
  induction d as [|c r IH]; intros t t' q H Hq; [done|].
  destruct q as [|b q]; [done|]. simpl in Hq.
  destruct t as [|es]; simpl in H; [done|].
  destruct (find_entry c es) as [sub|] eqn:Hc; [|done].
  destruct (with_dir r f sub) as [sub'|] eqn:Hr; [|done].
  inversion H; subst. simpl.
  destruct (decide (c = b)) as [->|Hne].
  - rewrite find_entry_set_eq, Hc. by eapply IH.
  - by rewrite find_entry_set_ne.
Qed.

(** When the rewriting only concerns the entry [c] of [d], a path that
    parts ways with [d ++ [c]] sees the same node. *)
Lemma with_dir_frame_name d c f :
  (forall es b, c <> b -> find_entry b (f es) = find_entry b es) ->
  forall t t' q,
  with_dir d f t = Some t' -> diverge (d ++ [c]) q = true ->
  node_at q t' = node_at q t.
Proof.
  intros Hf. induction d as [|a r IH]; intros t t' q H Hq;
    destruct q as [|b q]; try done; simpl in Hq;
    destruct t as [|es]; simpl in H; try done.
  - inversion H; subst. simpl.
    destruct (decide (c = b)); [by destruct q | by rewrite Hf].
  - destruct (find_entry a es) as [sub|] eqn:Hc; [|done].
    destruct (with_dir r f sub) as [sub'|] eqn:Hr; [|done].
    inversion H; subst. simpl.
    destruct (decide (a = b)) as [->|Hne].
    + rewrite find_entry_set_eq, Hc. by eapply IH.
    + by rewrite find_entry_set_ne.
Qed.

(** After a listing below [p] was rewritten, [p] is a directory. *)
Lemma with_dir_prefix_dir p s f t t' :
  with_dir (p ++ s) f t = Some t' -> is_dir_node (node_at p t') = true.
Proof.
  intros H. apply with_dir_at in H as (es & _ & H').
  rewrite node_at_app in H'.
  destruct (node_at p t') as [[|es']|]; try done.
  by destruct s.
Qed.

(** ** mkdir -p *)

Lemma mkdir_p_dir p : forall t t',
  mkdir_p p t = Some t' -> is_dir_node (node_at p t') = true.
Proof.
  induction p as [|c r IH]; intros t t' H; destruct t as [|es]; simpl in H; try done.
  - by inversion H.
  - destruct (mkdir_p r _) as [sub'|] eqn:Hr; [|done].
    inversion H; subst. simpl. rewrite find_entry_set_eq. by eapply IH.
Qed.

Lemma node_at_empty_dir q : q <> [] -> node_at q (Dir []) = None.
Proof. by destruct q. Qed.

Lemma mkdir_p_frame p : forall t t' q,
  mkdir_p p t = Some t' -> diverge p q = true -> node_at q t' = node_at q t.
Proof.
  induction p as [|c r IH]; intros t t' q H Hq; [done|].
  destruct q as [|b q]; [done|]. simpl in Hq.
  destruct t as [|es]; simpl in H; [done|].
  destruct (mkdir_p r _) as [sub'|] eqn:Hr; [|done].
  inversion H; subst. simpl.
  destruct (decide (c = b)) as [->|Hne].
  - rewrite find_entry_set_eq. rewrite (IH _ _ q Hr Hq).
    destruct (find_entry b es); simpl; [done|].
    apply node_at_empty_dir. intros ->. by destruct r.
  - by rewrite find_entry_set_ne.
Qed.

End FSFacts.

(* ===================================================================== *)
(** * Running computations *)
(* ===================================================================== *)

Section Runs.
Context {A B : Type}.

Lemma bind_inv (m : M A) (k : A -> M B) fs r fs' :
  bind m k fs = (r, fs') ->
  (exists a fs1, m fs = (Ok a, fs1) /\ k a fs1 = (r, fs'))
  \/ (exists e, m fs = (Raise e, fs') /\ r = Raise e).
Proof.
  unfold bind. destruct (m fs) as [[a|e] fs1]; intros H.
  - left. by exists a, fs1.
  - right. exists e. by inversion H.
Qed.

Lemma bind_Ok (m : M A) (k : A -> M B) fs a fs1 :
  m fs = (Ok a, fs1) -> bind m k fs = k a fs1.
Proof. unfold bind. by intros ->. Qed.

Lemma bind_Raise (m : M A) (k : A -> M B) fs e fs1 :
  m fs = (Raise e, fs1) -> bind m k fs = (Raise e, fs1).
Proof. unfold bind. by intros ->. Qed.

Lemma try_except_inv (m : M A) (h : exn -> M A) fs r fs' :
  try_except m h fs = (r, fs') ->
  (exists a, m fs = (Ok a, fs') /\ r = Ok a)
  \/ (exists e fs1, m fs = (Raise e, fs1) /\ h e fs1 = (r, fs')).
Proof.
  unfold try_except. destruct (m fs) as [[a|e] fs1]; intros H.
  - left. exists a. by inversion H.
  - right. by exists e, fs1.
Qed.

End Runs.

(** ** Changes confined below a directory *)

Section Confinement.
Import FS FSFacts.

Lemma under_trans p fs1 fs2 fs3 : under p fs1 fs2 -> under p fs2 fs3 -> under p fs1 fs3.
Proof. induction 1; [done|]. intros. eapply under_step; eauto. Qed.

Lemma under_one p s f fs fs' : with_dir (p ++ s) f fs = Some fs' -> under p fs fs'.
Proof. intros. eapply under_step; [eassumption | apply under_refl]. Qed.

Lemma under_frame p q fs fs' :
  under p fs fs' -> diverge p q = true -> node_at q fs' = node_at q fs.
Proof.
  induction 1 as [|fs fs1 fs2 s f H _ IH]; intros Hq; [done|].
  rewrite IH by done. eapply with_dir_frame; [eassumption|].
  by apply diverge_app_l.
Qed.

Lemma under_dir p fs fs' :
  under p fs fs' -> is_dir_node (node_at p fs) = true ->
  is_dir_node (node_at p fs') = true.
Proof.
  induction 1 as [|fs fs1 fs2 s f H _ IH]; intros Hd; [done|].
  apply IH. by eapply with_dir_prefix_dir.
Qed.

Lemma confined_unchanged {A} p (m : M A) : (forall fs, snd (m fs) = fs) -> confined p m.
Proof. intros H fs. rewrite H. apply under_refl. Qed.

Lemma confined_ret {A} p (a : A) : confined p (ret a).
Proof. by apply confined_unchanged. Qed.

Lemma confined_raise {A} p e : confined p (@raise A e).
Proof. by apply confined_unchanged. Qed.

Lemma confined_bind {A B} p (m : M A) (k : A -> M B) :
  confined p m ->
  (forall a fs fs1, m fs = (Ok a, fs1) -> confined p (k a)) ->
  confined p (bind m k).
Proof.
  intros Hm Hk fs. unfold bind. specialize (Hm fs).
  destruct (m fs) as [[a|e] fs1] eqn:E; simpl in *; [|done].
  eapply under_trans; [eassumption|]. by eapply Hk.
Qed.

Lemma confined_then {A B} p (m : M A) (k : M B) :
  confined p m -> confined p k -> confined p (m >> k).
Proof. intros. apply confined_bind; auto. Qed.

Lemma confined_try_except {A} p (m : M A) (h : exn -> M A) :
  confined p m -> (forall e, confined p (h e)) -> confined p (try_except m h).
Proof.
  intros Hm Hh fs. unfold try_except. specialize (Hm fs).
  destruct (m fs) as [[a|e] fs1]; simpl in *; [done|].
  eapply under_trans; [eassumption | apply Hh].
Qed.

Lemma confined_for_each {A} p (l : list A) (f : A -> M unit) :
  (forall x, confined p (f x)) -> confined p (for_each l f).
Proof.
  intros Hf. induction l as [|x r IH]; simpl; [apply confined_ret|].
  by apply confined_then.
Qed.

Lemma confined_filter_m {A} p (l : list A) (f : A -> M bool) :
  (forall x, confined p (f x)) -> confined p (filter_m f l).
Proof.
  intros Hf. induction l as [|x r IH]; simpl; [apply confined_ret|].
  apply confined_bind; [done|]. intros b _ _ _.
  apply confined_bind; [done|]. intros r' _ _ _. apply confined_ret.
Qed.

Lemma confined_path_exists p q : confined p (path_exists q).
Proof. by apply confined_unchanged. Qed.

Lemma confined_is_dir p q : confined p (is_dir q).
Proof. by apply confined_unchanged. Qed.

Lemma confined_iterdir p q : confined p (iterdir q).
Proof.
  apply confined_unchanged. intros fs. unfold iterdir.
  by destruct (node_at q fs) as [[|?]|].
Qed.

Lemma confined_read_bytes p q : confined p (read_bytes q).
Proof.
  apply confined_unchanged. intros fs. unfold read_bytes.
  by destruct (node_at q fs) as [[|?]|].
Qed.

Lemma confined_spawn p l prog : confined p (spawn l prog).
Proof. destruct l; [apply confined_ret | apply confined_raise]. Qed.

Lemma confined_write_bytes p s c data : confined p (write_bytes ((p ++ s) ++ [c]) data).
Proof.
  intros fs. unfold write_bytes. rewrite parent_snoc, name_snoc.
  destruct (node_at _ fs) as [[|?]|];
    try apply under_refl;
    (destruct (with_dir _ _ fs) eqn:E; simpl; [by eapply under_one | apply under_refl]).
Qed.

Lemma confined_copy2 p s c src : confined p (copy2 src ((p ++ s) ++ [c])).
Proof.
  unfold copy2. apply confined_bind; [apply confined_is_dir|]. intros into _ _ _.
  apply confined_bind; [apply confined_path_exists|]. intros there _ _ _.
  destruct (there && _)%bool; [apply confined_raise|].
  apply confined_bind; [apply confined_read_bytes|]. intros data _ _ _.
  destruct into; [|apply confined_write_bytes].
  rewrite <- (app_assoc p s [c]). apply confined_write_bytes.
Qed.

Lemma confined_copy2_child p c src : confined p (copy2 src (p ++ [c])).
Proof. pose proof (confined_copy2 p [] c src) as H. by rewrite app_nil_r in H. Qed.

End Confinement.

(* ===================================================================== *)
(** * What the file operations do *)
(* ===================================================================== *)

Section Primitives.
Import FS FSFacts.

Lemma path_split (p : path) : p <> [] -> p = parent p ++ [name p].
Proof. apply app_removelast_last. Qed.

Lemma set_entry_other c n es b : c <> b -> find_entry b (set_entry c n es) = find_entry b es.
Proof. apply find_entry_set_ne. Qed.

Lemma del_entry_other c es b : c <> b -> find_entry b (del_entry c es) = find_entry b es.
Proof. apply find_entry_del_ne. Qed.

Lemma write_bytes_Raise p data fs e fs' :
  write_bytes p data fs = (Raise e, fs') -> fs' = fs.
Proof.
  unfold write_bytes.
  destruct (node_at p fs) as [[|?]|]; try (by inversion 1);
    (destruct (with_dir _ _ fs); by inversion 1).
Qed.

Lemma write_bytes_frame p data fs q :
  diverge p q = true -> node_at q (snd (write_bytes p data fs)) = node_at q fs.
Proof.
  intros Hq. destruct (decide (p = [])) as [->|Hp]; [done|].
  unfold write_bytes.
  destruct (node_at p fs) as [[|?]|]; try done;
    (destruct (with_dir _ _ fs) eqn:E; simpl; [|done];
     eapply with_dir_frame_name; [apply set_entry_other | eassumption |];
     by rewrite <- path_split).
Qed.

Lemma write_bytes_written d c data fs fs' :
  write_bytes (d ++ [c]) data fs = (Ok tt, fs') ->
  node_at (d ++ [c]) fs' = Some (File data).
Proof.
  unfold write_bytes. rewrite parent_snoc, name_snoc. intros H.
  assert (with_dir d (set_entry c (File data)) fs = Some fs') as E.
  { destruct (node_at (d ++ [c]) fs) as [[|?]|]; try done;
      (destruct (with_dir _ _ fs); by inversion H). }
  apply with_dir_at in E as (es & _ & E).
  rewrite node_at_app, E. simpl. by rewrite find_entry_set_eq.
Qed.

Lemma write_bytes_succeeds d c data fs :
  is_dir_node (node_at d fs) = true ->
  is_dir_node (node_at (d ++ [c]) fs) = false ->
  exists fs', write_bytes (d ++ [c]) data fs = (Ok tt, fs').
Proof.
  intros Hd Hc. unfold write_bytes. rewrite parent_snoc, name_snoc.
  destruct (node_at d fs) as [[|es]|] eqn:E; try done.
  destruct (with_dir_is_Some d (set_entry c (File data)) _ _ E) as [fs' ->].
  exists fs'. by destruct (node_at (d ++ [c]) fs) as [[|?]|].
Qed.

Lemma rmtree_Ok p fs : fst (rmtree_ignore_errors p fs) = Ok tt.
Proof.
  unfold rmtree_ignore_errors.
  destruct (node_at p fs) as [[|?]|]; try done.
  destruct p; [done|]. by destruct (with_dir _ _ fs).
Qed.

Lemma rmtree_gone d c fs :
  is_dir_node (node_at (d ++ [c]) fs) = true ->
  node_at (d ++ [c]) (snd (rmtree_ignore_errors (d ++ [c]) fs)) = None.
Proof.
  intros Hd. unfold rmtree_ignore_errors.
  destruct (node_at (d ++ [c]) fs) as [[|es]|] eqn:E; try done.
  destruct (d ++ [c]) as [|x r] eqn:Hp; [by destruct d|]. rewrite <- Hp in *.
  rewrite parent_snoc, name_snoc.
  rewrite node_at_app in E.
  destruct (node_at d fs) as [[|es']|] eqn:E'; try done.
  destruct (with_dir_is_Some d (del_entry c) _ _ E') as [fs' Hw]. rewrite Hw. simpl.
  apply with_dir_at in Hw as (es2 & _ & Hw).
  rewrite node_at_app, Hw. simpl. by rewrite find_entry_del_eq.
Qed.

Lemma rmtree_frame p q fs :
  diverge p q = true -> node_at q (snd (rmtree_ignore_errors p fs)) = node_at q fs.
Proof.
  intros Hq. unfold rmtree_ignore_errors.
  destruct (node_at p fs) as [[|?]|]; try done.
  destruct p as [|x r] eqn:Hp; [done|]. rewrite <- Hp in *.
  destruct (with_dir _ _ fs) eqn:E; simpl; [|done].
  eapply with_dir_frame_name; [apply del_entry_other | eassumption |].
  rewrite <- path_split; [done | by rewrite Hp].
Qed.

Lemma mkdir_Ok_dir p fs fs' :
  mkdir_parents_exist_ok p fs = (Ok tt, fs') -> is_dir_node (node_at p fs') = true.
Proof.
  unfold mkdir_parents_exist_ok. destruct (mkdir_p p fs) eqn:E; [|done].
  inversion 1; subst. by eapply mkdir_p_dir.
Qed.

Lemma mkdir_frame p q fs :
  diverge p q = true -> node_at q (snd (mkdir_parents_exist_ok p fs)) = node_at q fs.
Proof.
  intros Hq. unfold mkdir_parents_exist_ok.
  destruct (mkdir_p p fs) eqn:E; simpl; [|done]. by eapply mkdir_p_frame.
Qed.

Lemma mkdir_Raise p fs e fs' :
  mkdir_parents_exist_ok p fs = (Raise e, fs') -> fs' = fs.
Proof.
  unfold mkdir_parents_exist_ok. destruct (mkdir_p p fs); by inversion 1.
Qed.

Lemma copy2_frame src dst fs q :
  diverge dst q = true -> node_at q (snd (copy2 src dst fs)) = node_at q fs.
Proof.
  intros Hq. unfold copy2, bind, is_dir, path_exists, raise. simpl.
  destruct (_ && _)%bool; [done|].
  unfold read_bytes. destruct (node_at src fs) as [[data|?]|]; try done.
  apply write_bytes_frame.
  destruct (is_dir_node _); [by apply diverge_app_l | done].
Qed.

(** Copying a regular file onto a name in an existing directory. *)
Lemma copy2_file src d c data fs :
  node_at src fs = Some (File data) ->
  is_dir_node (node_at d fs) = true ->
  is_dir_node (node_at (d ++ [c]) fs) = false ->
  src <> d ++ [c] ->
  exists fs', copy2 src (d ++ [c]) fs = (Ok tt, fs')
              /\ node_at (d ++ [c]) fs' = Some (File data).
Proof.
  intros Hsrc Hd Hc Hne.
  destruct (write_bytes_succeeds d c data fs Hd Hc) as [fs' Hw].
  exists fs'. split; [|by eapply write_bytes_written].
  unfold copy2, bind, is_dir, path_exists, read_bytes. simpl.
  rewrite Hc, Hsrc. simpl. rewrite bool_decide_eq_false_2 by done.
  by rewrite Hsrc.
Qed.

End Primitives.

(* ===================================================================== *)
(** * The helpers of [upload] *)
(* ===================================================================== *)

Section Helpers.
Import FS FSFacts.
Context (env : Env).

Lemma filter_m_is_dir (l : list path) fs :
  filter_m is_dir l fs
  = (Ok (filter (fun q => is_dir_node (node_at q fs) = true) l), fs).
Proof.
  induction l as [|q r IH]; [done|].
  simpl. unfold bind at 1. unfold is_dir at 1. unfold bind at 1. rewrite IH.
  unfold ret. rewrite filter_cons.
  destruct (is_dir_node (node_at q fs)); by destruct (decide _).
Qed.

Lemma subdirectories_elem d fs q :
  q ∈ subdirectories d fs ->
  (exists c, q = d ++ [c]) /\ is_dir_node (node_at q fs) = true.
Proof.
  unfold subdirectories. destruct (node_at d fs) as [[|es]|]; try by inversion 1.
  intros [Hq Hin]%list_elem_of_filter. split; [|done].
  apply list_elem_of_In, in_map_iff in Hin as ([c v] & <- & _). by exists c.
Qed.

Lemma spawn_unchanged l prog fs : snd (spawn l prog fs) = fs.
Proof. by destruct l. Qed.

Lemma confined_run_demucs_cli cmd out_dir : confined out_dir (run_demucs_cli env cmd out_dir).
Proof.
  unfold run_demucs_cli. apply confined_then; [apply confined_spawn|].
  intros fs. destruct (demucs_cli env cmd fs) as [proc written]. simpl.
  destruct (with_dir out_dir _ fs) eqn:E; simpl; [|apply under_refl].
  eapply (under_one out_dir []). rewrite app_nil_r. eassumption.
Qed.

(** [run_demucs], step by step: the tool is run; a non-zero exit status
    raises; otherwise the model directory is looked up and the first of its
    subdirectories is returned. *)
Lemma run_demucs_unfold input_path out_dir fs :
  run_demucs env input_path out_dir fs =
  let cmd := demucs_cmd env "htdemucs" input_path out_dir in
  let model_dir := out_dir ++ ["htdemucs"] in
  match run_demucs_cli env cmd out_dir fs with
  | (Raise e, fs1) => (Raise e, fs1)
  | (Ok proc, fs1) =>
      if bool_decide (returncode proc = 0) then
        match node_at model_dir fs1 with
        | None => (Raise (RuntimeError "Demucs output not found."), fs1)
        | Some (File _) => (Raise (OSError ENOTDIR (str_path model_dir)), fs1)
        | Some (Dir _) =>
            match subdirectories model_dir fs1 with
            | [] => (Raise (RuntimeError "Demucs didn't produce a track folder."), fs1)
            | first :: _ => (Ok first, fs1)
            end
        end
      else (Raise (RuntimeError (demucs_failed cmd proc)), fs1)
  end.
Proof.
  unfold run_demucs. cbv zeta. unfold bind at 1.
  destruct (run_demucs_cli env _ out_dir fs) as [[proc|e] fs1]; [|done].
  destruct (bool_decide (returncode proc = 0)); simpl; [|done].
  unfold bind at 1, path_exists at 1. unfold subdirectories.
  destruct (node_at (out_dir ++ ["htdemucs"]) fs1) as [[data|es]|] eqn:E; simpl; try done.
  - unfold bind at 1, iterdir at 1. by rewrite E.
  - unfold bind at 1, iterdir at 1. rewrite E.
    unfold bind at 1. rewrite filter_m_is_dir.
    by destruct (filter _ _).
Qed.

Lemma run_demucs_Ok input_path out_dir fs d fs' :
  run_demucs env input_path out_dir fs = (Ok d, fs') ->
  (exists c, d = (out_dir ++ ["htdemucs"]) ++ [c])
  /\ is_dir_node (node_at d fs') = true.
Proof.
  rewrite run_demucs_unfold. cbv zeta.
  destruct (run_demucs_cli env _ out_dir fs) as [[proc|e] fs1]; [|done].
  destruct (bool_decide _); [|done].
  destruct (node_at _ fs1) as [[|es]|]; try done.
  destruct (subdirectories _ fs1) as [|first rest] eqn:E; [done|].
  inversion 1; subst. apply subdirectories_elem. rewrite E. by left.
Qed.

Lemma confined_run_demucs input_path out_dir :
  confined out_dir (run_demucs env input_path out_dir).
Proof.
  intros fs. rewrite run_demucs_unfold. cbv zeta.
  pose proof (confined_run_demucs_cli (demucs_cmd env "htdemucs" input_path out_dir) out_dir fs) as H.
  destruct (run_demucs_cli env _ out_dir fs) as [[proc|e] fs1]; [|done].
  destruct (bool_decide _); [|done].
  destruct (node_at _ fs1) as [[|es]|]; try done.
  by destruct (subdirectories _ fs1).
Qed.

(** ** The probe for ffmpeg *)

Lemma _ffmpeg_exists_run fs :
  _ffmpeg_exists env fs =
  match ffmpeg_launch env with
  | Starts => (Ok true, fs)
  | Fails ENOENT => (Ok false, fs)
  | Fails errno => (Raise (OSError errno "ffmpeg"), fs)
  end.
Proof.
  unfold _ffmpeg_exists, try_except, run_ffmpeg_version, bind, spawn.
  destruct (ffmpeg_launch env) as [|[]]; reflexivity.
Qed.

Lemma confined__ffmpeg_exists p : confined p (_ffmpeg_exists env).
Proof.
  apply confined_unchanged. intros fs. rewrite _ffmpeg_exists_run.
  by destruct (ffmpeg_launch env) as [|[]].
Qed.

Lemma confined_run_ffmpeg_amix p s c cmd :
  confined p (run_ffmpeg_amix env cmd ((p ++ s) ++ [c])).
Proof.
  unfold run_ffmpeg_amix. apply confined_then; [apply confined_spawn|].
  intros fs. destruct (ffmpeg_amix env cmd fs) as [proc [data|]]; simpl.
  - apply confined_write_bytes.
  - apply under_refl.
Qed.

Lemma confined_make_instrumental p s c drums bass other :
  confined p (make_instrumental env drums bass other ((p ++ s) ++ [c])).
Proof.
  unfold make_instrumental.
  apply confined_bind; [apply confined__ffmpeg_exists|]. intros found _ _ _.
  destruct found; [|apply confined_copy2].
  apply confined_bind; [apply confined_run_ffmpeg_amix|]. intros proc _ _ _.
  destruct (negb _); [apply confined_copy2 | apply confined_ret].
Qed.

(** ** The body of the [try] *)

Lemma confined_check_stem p q : confined p (check_stem q).
Proof.
  unfold check_stem. apply confined_bind; [apply confined_path_exists|].
  intros there _ _ _. destruct (negb there); [apply confined_raise | apply confined_ret].
Qed.

Lemma confined_relative_to p q base : confined p (relative_to q base).
Proof.
  unfold relative_to. destruct (strip_prefix base q);
    [apply confined_ret | apply confined_raise].
Qed.

Lemma confined_process uid ext input_path job_dir :
  confined job_dir (process env uid ext input_path job_dir).
Proof.
  unfold process.
  apply confined_bind; [apply confined_run_demucs|].
  intros d fs fs1 [[c ->] _]%run_demucs_Ok.
  apply confined_then; [apply confined_for_each; intros; apply confined_check_stem|].
  rewrite <- (app_assoc job_dir ["htdemucs"] [c]).
  apply confined_then; [apply confined_make_instrumental|].
  apply confined_then; [apply confined_copy2_child|].
  apply confined_bind; [apply confined_relative_to|]. intros rel _ _ _.
  apply confined_ret.
Qed.

End Helpers.

(* ===================================================================== *)
(** * [upload] *)
(* ===================================================================== *)

Section Upload.
Import FS FSFacts.
Context (env : Env).

Lemma lower_ascii_dot c : Py.lower_ascii c = "."%char -> c = "."%char.
Proof.
  intros H.
  destruct c as [[] [] [] [] [] [] [] []]; vm_compute in H; try discriminate; reflexivity.
Qed.

(** The test of [upload] on the lowered extension is the match of the
    extension against the six formats up to letter case. *)
Lemma supported_iff name :
  supported name <-> Py.lower (snd (Py.splitext name)) ∈ allowed.
Proof.
  unfold supported. split.
  - intros (x & -> & Hin). unfold formats in Hin.
    change (Py.lower ("." +:+ x)) with (String "."%char (Py.lower x)).
    repeat (apply elem_of_cons in Hin as [->|Hin];
            [apply (bool_decide_unpack _); vm_compute; exact I|]).
    by apply elem_of_nil in Hin.
  - intros Hin. destruct (snd (Py.splitext name)) as [|c rest];
      [apply (bool_decide_pack _) in Hin; by vm_compute in Hin|].
    simpl in Hin. unfold allowed in Hin. exists rest.
    repeat (apply elem_of_cons in Hin as [[= Hc Hr]|Hin];
            [apply lower_ascii_dot in Hc as ->; split; [done|];
             rewrite Hr; apply (bool_decide_unpack _); vm_compute; exact I|]).
    by apply elem_of_nil in Hin.
Qed.

Lemma ext_of_nonempty file : ext_of file ∈ allowed -> filename file <> "".
Proof.
  intros H E. unfold ext_of in H. rewrite E in H.
  apply (bool_decide_pack _) in H. vm_compute in H. done.
Qed.

Lemma upload_accepted file fs :
  ext_of file ∈ allowed -> upload env (Some file) fs = pipeline env file fs.
Proof.
  intros H. pose proof (ext_of_nonempty _ H) as Hn.
  unfold upload. rewrite bool_decide_eq_false_2 by done.
  fold (ext_of file). by rewrite bool_decide_eq_true_2.
Qed.

Lemma upload_unsupported file fs :
  filename file <> "" -> ext_of file ∉ allowed ->
  upload env (Some file) fs = (Ok (jsonify_status unsupported 400), fs).
Proof.
  intros Hn H. unfold upload. rewrite bool_decide_eq_false_2 by done.
  fold (ext_of file). by rewrite bool_decide_eq_false_2.
Qed.

Lemma diverge_outputs_uploads s t :
  diverge (OUTPUTS env ++ s) (UPLOADS env ++ t) = true.
Proof.
  unfold OUTPUTS, UPLOADS. rewrite <- !app_assoc. simpl.
  by apply diverge_siblings.
Qed.

(** The answer of a job that ran to its end. *)
Lemma process_Ok uid ext input_path job_dir fs r fs' :
  process env uid ext input_path job_dir fs = (Ok r, fs') ->
  exists rel,
    let base := "/outputs/" +:+ as_posix rel in
    r = jsonify [
      ("id", JStr uid);
      ("original", JStr ("/outputs/" +:+ uid +:+ "/original" +:+ ext));
      ("vocals", JStr (base +:+ "/vocals.wav"));
      ("instrumental", JStr (base +:+ "/instrumental.wav"));
      ("drums", JStr (base +:+ "/drums.wav"));
      ("bass", JStr (base +:+ "/bass.wav"));
      ("other", JStr (base +:+ "/other.wav"))].
Proof.
  unfold process. intros H.
  apply bind_inv in H as [(d & fs1 & _ & H)|(? & _ & ?)]; [|done].
  apply bind_inv in H as [(? & fs2 & _ & H)|(? & _ & ?)]; [|done].
  apply bind_inv in H as [(? & fs3 & _ & H)|(? & _ & ?)]; [|done].
  apply bind_inv in H as [(? & fs4 & _ & H)|(? & _ & ?)]; [|done].
  apply bind_inv in H as [(rel & fs5 & _ & H)|(? & _ & ?)]; [|done].
  exists rel. by inversion H.
Qed.

Lemma process_Ok_status uid ext input_path job_dir fs r fs' :
  process env uid ext input_path job_dir fs = (Ok r, fs') -> status r = 200.
Proof. intros (rel & ->)%process_Ok. done. Qed.

(** The outcomes of the guarded part: the answer of the finished job, or
    the answer 500 after the job directory was removed. *)
Lemma guarded_inv file fs r fs' :
  guarded env file fs = (r, fs') ->
  (exists a, process env (job_id env) (ext_of file) (input_path_of env file)
                     (job_dir_of env) fs = (Ok a, fs') /\ r = Ok a)
  \/ (exists e fs1, process env (job_id env) (ext_of file) (input_path_of env file)
                            (job_dir_of env) fs = (Raise e, fs1)
                    /\ r = Ok (failed e)
                    /\ fs' = snd (rmtree_ignore_errors (job_dir_of env) fs1)).
Proof.
  intros [?|(e & fs1 & Hp & Hh)]%try_except_inv; [by left|].
  right. exists e, fs1. split; [done|].
  unfold bind in Hh.
  pose proof (rmtree_Ok (job_dir_of env) fs1) as Hr.
  destruct (rmtree_ignore_errors (job_dir_of env) fs1) as [[[]|?] fs2]; [|done].
  by inversion Hh.
Qed.

(** The guarded part changes nothing outside the job directory. *)
Lemma guarded_frame file fs q :
  diverge (job_dir_of env) q = true ->
  node_at q (snd (guarded env file fs)) = node_at q fs.
Proof.
  intros Hq. destruct (guarded env file fs) as [r fs'] eqn:E.
  pose proof (confined_process env (job_id env) (ext_of file)
                (input_path_of env file) (job_dir_of env) fs) as Hu.
  apply guarded_inv in E as [(a & Hp & _)|(e & fs1 & Hp & _ & ->)];
    rewrite Hp in Hu; simpl in *.
  - by eapply under_frame.
  - rewrite rmtree_frame by done. by eapply under_frame.
Qed.

(** After a failure the job directory is gone, provided it was a directory
    when the guarded part began. *)
Lemma guarded_failure_cleans file fs e fs1 :
  is_dir_node (node_at (job_dir_of env) fs) = true ->
  process env (job_id env) (ext_of file) (input_path_of env file)
          (job_dir_of env) fs = (Raise e, fs1) ->
  node_at (job_dir_of env) (snd (rmtree_ignore_errors (job_dir_of env) fs1)) = None.
Proof.
  intros Hd Hp. apply rmtree_gone.
  pose proof (confined_process env (job_id env) (ext_of file)
                (input_path_of env file) (job_dir_of env) fs) as Hu.
  rewrite Hp in Hu. by eapply under_dir.
Qed.

(** Everything outside the job directory and apart from the saved upload
    is as it was. *)
Lemma pipeline_frame file fs q :
  diverge (input_path_of env file) q = true ->
  diverge (job_dir_of env) q = true ->
  node_at q (snd (pipeline env file fs)) = node_at q fs.
Proof.
  intros Hi Hj. unfold pipeline, bind.
  pose proof (write_bytes_frame (input_path_of env file) (stream file) fs q Hi) as Hw.
  destruct (write_bytes _ _ fs) as [[[]|?] fs1]; simpl in *; [|done].
  pose proof (mkdir_frame (job_dir_of env) q fs1 Hj) as Hm.
  destruct (mkdir_parents_exist_ok _ fs1) as [[[]|?] fs2]; simpl in *; [|congruence].
  rewrite guarded_frame by done. congruence.
Qed.

(** Once saved, the upload is there when [upload] returns, whatever became
    of the job. *)
Lemma pipeline_keeps_upload file fs fs1 :
  write_bytes (input_path_of env file) (stream file) fs = (Ok tt, fs1) ->
  node_at (input_path_of env file) (snd (pipeline env file fs))
  = Some (File (stream file)).
Proof.
  intros Hw. unfold pipeline. rewrite (bind_Ok _ _ _ _ _ Hw).
  assert (diverge (job_dir_of env) (input_path_of env file) = true) as Hd
    by apply diverge_outputs_uploads.
  assert (node_at (input_path_of env file) fs1 = Some (File (stream file))) as Hf
    by (by eapply write_bytes_written).
  unfold bind.
  pose proof (mkdir_frame (job_dir_of env) _ fs1 Hd) as Hm.
  destruct (mkdir_parents_exist_ok _ fs1) as [[[]|?] fs2]; simpl in *; [|congruence].
  rewrite guarded_frame by done. congruence.
Qed.

(** The outcomes of the pipeline. *)
Lemma pipeline_inv file fs r fs' :
  pipeline env file fs = (r, fs') ->
  (exists e, r = Raise e)
  \/ (exists fs1 fs2,
        write_bytes (input_path_of env file) (stream file) fs = (Ok tt, fs1)
        /\ mkdir_parents_exist_ok (job_dir_of env) fs1 = (Ok tt, fs2)
        /\ guarded env file fs2 = (r, fs')).
Proof.
  unfold pipeline. intros H.
  apply bind_inv in H as [([] & fs1 & Hw & H)|(e & _ & ->)]; [|left; by exists e].
  apply bind_inv in H as [([] & fs2 & Hm & H)|(e & _ & ->)]; [|left; by exists e].
  right. by exists fs1, fs2.
Qed.

End Upload.

(* ===================================================================== *)
(** * The properties of the handlers *)
(* ===================================================================== *)

Section Calls.
Import FS FSFacts.
Context (env : Env).

(** A path that ends in ".." resolves to a directory, if it resolves. *)
Lemma namei_dotdot_dir p : forall up cur n,
  Forall (fun d => is_dir_node (Some d) = true) up ->
  namei up cur (p ++ [".."]) = Some n ->
  is_dir_node (Some n) = true.
Proof.
  induction p as [|c r IH]; intros up cur n Hup H; simpl in H;
    destruct cur as [|es]; try done.
  - destruct up as [|parent up']; [by inversion H|].
    inversion H; subst. by inversion Hup.
  - destruct (decide (c = "..")).
    + destruct up as [|parent up']; [by eapply IH|].
      inversion Hup; subst. by eapply IH.
    + destruct (find_entry c es) as [sub|]; [|done].
      eapply IH; [|eassumption]. by constructor.
Qed.

Lemma resolve_file_name (p : path) (fs : node) (data : bytes) :
  p <> [] -> resolve p fs = Some (File data) -> name p <> "..".
Proof.
  intros Hp Hr Hn. rewrite (path_split p Hp), Hn in Hr.
  by apply namei_dotdot_dir in Hr.
Qed.

(** ** Walks under a bound on the length of names *)

Lemma walk_Found m p : forall up cur n,
  walk m up cur p = Found n -> namei up cur p = Some n.
Proof.
  induction p as [|c r IH]; intros up cur n; simpl; [by intros [= ->]|].
  destruct cur as [|es]; [done|].
  destruct (decide (c = "..")); [destruct up; apply IH|].
  destruct (_ <? _)%nat; [done|].
  destruct (find_entry c es); [apply IH | done].
Qed.

Lemma walk_Missing m p : forall up cur,
  walk m up cur p = Missing -> namei up cur p = None.
Proof.
  induction p as [|c r IH]; intros up cur; simpl; [done|].
  destruct cur as [|es]; [done|].
  destruct (decide (c = "..")); [destruct up; apply IH|].
  destruct (_ <? _)%nat; [done|].
  destruct (find_entry c es); [apply IH | done].
Qed.

(** With names within the bound the walk is plain path resolution. *)
Lemma walk_short m p : forall up cur,
  Forall (fun c => (String.length c <= m)%nat) p ->
  walk m up cur p = match namei up cur p with
                    | Some n => Found n
                    | None => Missing
                    end.
Proof.
  induction p as [|c r IH]; intros up cur Hs; simpl; [done|].
  inversion Hs as [|? ? Hc Hr]; subst.
  destruct cur as [|es]; [done|].
  destruct (decide (c = "..")); [destruct up; by apply IH|].
  rewrite (proj2 (Nat.ltb_ge _ _) Hc).
  destruct (find_entry c es); [by apply IH | done].
Qed.

(** ** [os.stat] and the tests built on it *)

Lemma os_stat_unchanged p fs : snd (os_stat env p fs) = fs.
Proof.
  unfold os_stat. destruct (_ <=? _)%nat; [done|]. by destruct (walk _ _ _ _).
Qed.

Lemma os_stat_Ok p fs st fs' :
  os_stat env p fs = (Ok st, fs') -> st = resolve p fs /\ fs' = fs.
Proof.
  unfold os_stat, resolve. destruct (_ <=? _)%nat; [done|].
  destruct (walk _ _ _ _) eqn:E; intros [= <- <-]; split; try done.
  - by rewrite (walk_Found _ _ _ _ _ E).
  - by rewrite (walk_Missing _ _ _ _ E).
Qed.

Lemma os_stat_accepted p fs :
  accepted env p = true -> os_stat env p fs = (Ok (resolve p fs), fs).
Proof.
  unfold accepted. intros [Hlen%Nat.ltb_lt Hnames]%andb_true_iff.
  unfold os_stat, resolve.
  rewrite (proj2 (Nat.leb_gt _ _) Hlen), walk_short.
  - by destruct (namei [] fs p).
  - apply Forall_forall. intros c Hc.
    apply Nat.leb_le. by apply (proj1 (forallb_forall _ _) Hnames), list_elem_of_In.
Qed.


Lemma regular_file_run p fs :
  regular_file env p fs
  = (Ok match fst (os_stat env p fs) with
        | Ok (Some (File data)) => Some data
        | _ => None
        end, fs).
Proof.
  unfold regular_file, try_except, bind.
  pose proof (os_stat_unchanged p fs) as Hu.
  destruct (os_stat env p fs) as [[st|e] fs']; simpl in *; by subst.
Qed.

(** [outputs_serve] by what [os.stat] makes of the joined path. *)
Lemma outputs_serve_stat subpath fs :
  let full := joinpath (OUTPUTS env) subpath in
  full <> [] ->
  outputs_serve env subpath fs =
  match fst (os_stat env full fs) with
  | Raise e => (Raise e, fs)
  | Ok (Some (File data)) => (Ok (send_file env full data), fs)
  | Ok _ => (Ok (jsonify_status not_found 404), fs)
  end.
Proof.
  intros full Hne. unfold outputs_serve. fold full.
  unfold bind at 1, stat_exists at 1, bind at 1.
  pose proof (os_stat_unchanged full fs) as Hu.
  destruct (os_stat env full fs) as [[st|e] fs'] eqn:Hst; simpl in Hu; subst fs';
    [|done].
  simpl. destruct st as [[data|es]|]; simpl; [| |done].
  - unfold bind at 1, stat_is_file, bind at 1. rewrite Hst. simpl.
    destruct (os_stat_Ok _ _ _ _ Hst) as [Hr _].
    unfold send_from_directory.
    rewrite decide_False by (by eapply resolve_file_name).
    unfold bind. by rewrite regular_file_run, <- path_split, Hst.
  - unfold bind at 1, stat_is_file, bind at 1. by rewrite Hst.
Qed.

Lemma outputs_serve_unchanged subpath fs : snd (outputs_serve env subpath fs) = fs.
Proof.
  unfold outputs_serve.
  unfold bind at 1, stat_exists at 1, bind at 1.
  pose proof (os_stat_unchanged (joinpath (OUTPUTS env) subpath) fs) as Hu.
  destruct (os_stat env _ fs) as [[st|e] fs'] eqn:Hst; simpl in Hu; subst fs'; [|done].
  simpl. destruct (is_some_node st); simpl.
  - unfold bind at 1, stat_is_file, bind at 1. rewrite Hst. simpl.
    destruct (is_file_node st); simpl; [|done].
    unfold send_from_directory. destruct (decide _); [done|].
    unfold bind. rewrite regular_file_run. by destruct (fst _) as [[[|]|]|].
  - done.
Qed.

(** ** Text mode *)

Lemma run_demucs_help_run fs :
  run_demucs_help env fs =
  match python_launch env with
  | Starts => (text_mode env (demucs_help env), fs)
  | Fails errno => (Raise (OSError errno (sys_executable env)), fs)
  end.
Proof. unfold run_demucs_help, bind, spawn, lift. by destruct (python_launch env). Qed.

Lemma read_text_utf8_unchanged p fs : snd (read_text_utf8 p fs) = fs.
Proof.
  unfold read_text_utf8, bind, read_bytes.
  destruct (node_at p fs) as [[data|?]|]; try done.
  by destruct (Py.utf8_decode data).
Qed.

End Calls.

Lemma handlers_read_only (env : Env) :
  (forall fs, snd (health env fs) = fs)
  /\ (forall subpath fs, snd (outputs_serve env subpath fs) = fs)
  /\ (forall fs, snd (index env fs) = fs).
Proof.
  split; [|split].
  - intros fs. unfold health, bind, try_except. rewrite run_demucs_help_run.
    destruct (python_launch env); [destruct (text_mode env _)|]; simpl;
      rewrite _ffmpeg_exists_run;
      by destruct (ffmpeg_launch env) as [|[]].
  - apply outputs_serve_unchanged.
  - intros fs. unfold index, bind.
    pose proof (read_text_utf8_unchanged (STATIC env ++ ["index.html"]) fs) as Hu.
    by destruct (read_text_utf8 _ fs) as [[text|e] fs'].
Qed.

Lemma status_unsupported : status (jsonify_status unsupported 400) = 400.
Proof. reflexivity. Qed.

(** C4.  A file whose extension is one of mp3, wav, m4a, flac, ogg, aac in
    any letter case is accepted: the answer is not a 400 and, the uploads
    directory being there, the bytes sent are saved as uploads/<id><ext>.
    A file with a name and any other extension is answered 400 with detail
    "Unsupported file format." and the tree is left as it was: no upload
    is written and no job directory is made. *)
Theorem upload_extension_gate (env : Env) (file : FileStorage) (fs : node) :
  (supported (filename file) ->
     (forall b, fst (upload env (Some file) fs) <> Ok (Resp 400 b))
     /\ (FS.is_dir_node (FS.node_at (UPLOADS env) fs) = true ->
         FS.is_dir_node (FS.node_at (input_path_of env file) fs) = false ->
         FS.node_at (input_path_of env file) (snd (upload env (Some file) fs))
         = Some (File (stream file))))
  /\ (filename file <> "" -> ~ supported (filename file) ->
      upload env (Some file) fs = (Ok (jsonify_status unsupported 400), fs)).
Proof.
  split.
  2:{ intros Hn Hs. apply upload_unsupported; [done|].
      intros Hin. by apply Hs, supported_iff. }
  intros Hext%supported_iff. fold (ext_of file) in Hext.
  rewrite upload_accepted by done. split.
  - intros b Hb. destruct (pipeline env file fs) as [r fs'] eqn:E. simpl in Hb. subst r.
    apply pipeline_inv in E as [(e & ?)|(fs1 & fs2 & _ & _ & Hg)]; [done|].
    apply guarded_inv in Hg as [(a & Hp & [= <-])|(e & ? & _ & Hr & _)];
      [by apply process_Ok_status in Hp | by inversion Hr].
  - intros Hd Hf.
    destruct (write_bytes_succeeds _ _ (stream file) fs Hd Hf) as [fs1 Hw].
    by eapply pipeline_keeps_upload.
Qed.

Lemma upload_extension_gate_witness :
  (supported (filename Scenario.song)
   /\ FS.node_at (input_path_of Scenario.healthy Scenario.song)
        (snd (upload Scenario.healthy (Some Scenario.song) Scenario.started))
      = Some (File (stream Scenario.song)))
  /\ (~ supported (filename Scenario.clip)
      /\ upload Scenario.healthy (Some Scenario.clip) Scenario.started
         = (Ok (jsonify_status unsupported 400), Scenario.started)).
Proof.
  assert (supported (filename Scenario.song)) as Hsong.
  { exists "MP3". split; [reflexivity|].
    apply (bool_decide_unpack _). vm_compute. exact I. }
  assert (~ supported (filename Scenario.clip)) as Hclip.
  { intros (x & Hx & Hin). vm_compute in Hx. injection Hx as <-.
    apply (bool_decide_pack _) in Hin. vm_compute in Hin. exact Hin. }
  split; (split; [done|]).
  - apply (proj1 (upload_extension_gate Scenario.healthy Scenario.song Scenario.started) Hsong);
      vm_compute; reflexivity.
  - apply (proj2 (upload_extension_gate Scenario.healthy Scenario.clip Scenario.started));
      [discriminate | done].
Defined.

(** C9.  A file whose name is not empty and has no extension is answered
    400 with detail "Unsupported file format.", which is not the answer
    "No file uploaded."; the tree is left as it was. *)
Theorem upload_without_extension (env : Env) (file : FileStorage) (fs : node) :
  filename file <> "" ->
  snd (Py.splitext (filename file)) = "" ->
  upload env (Some file) fs = (Ok (jsonify_status unsupported 400), fs)
  /\ jsonify_status unsupported 400 <> jsonify_status no_file 400.
Proof.
  intros Hn He. split.
  - apply upload_unsupported; [done|]. unfold ext_of. rewrite He.
    apply (bool_decide_eq_false_1 _). vm_compute. reflexivity.
  - intros H. apply (f_equal (fun r => member "detail" (content r))) in H.
    vm_compute in H. discriminate.
Qed.

Lemma upload_without_extension_witness :
  upload Scenario.healthy (Some Scenario.readme) Scenario.started
  = (Ok (jsonify_status unsupported 400), Scenario.started)
  /\ jsonify_status unsupported 400 <> jsonify_status no_file 400.
Proof.
  apply (upload_without_extension Scenario.healthy Scenario.readme Scenario.started);
    [discriminate | vm_compute; reflexivity].
Defined.

(** C10.  Nothing removes or changes a file of the uploads directory once
    it is written.  A saved upload is still there, with the bytes sent,
    when [upload] returns, whether the job succeeded, failed or raised;
    every other entry of the uploads directory is left as [upload] found
    it; and the other handlers change nothing at all. *)
Theorem uploads_untouched (env : Env) :
  (forall file fs fs1,
      supported (filename file) ->
      write_bytes (input_path_of env file) (stream file) fs = (Ok tt, fs1) ->
      FS.node_at (input_path_of env file) (snd (upload env (Some file) fs))
      = Some (File (stream file)))
  /\ (forall file fs x rest,
         (forall f, file = Some f -> x <> job_id env +:+ ext_of f) ->
         FS.node_at (UPLOADS env ++ x :: rest) (snd (upload env file fs))
         = FS.node_at (UPLOADS env ++ x :: rest) fs)
  /\ (forall fs, snd (health env fs) = fs)
  /\ (forall subpath fs, snd (outputs_serve env subpath fs) = fs)
  /\ (forall fs, snd (index env fs) = fs).
Proof.
  split; [|split; [|apply handlers_read_only]].
  - intros file fs fs1 Hext%supported_iff Hw. fold (ext_of file) in Hext.
    rewrite upload_accepted by done.
    by eapply pipeline_keeps_upload.
  - intros [f|] fs x rest Hx; [|done].
    destruct (decide (filename f = "")) as [Hn|Hn].
    { unfold upload. by rewrite bool_decide_eq_true_2. }
    destruct (decide (ext_of f ∈ allowed)) as [He|He].
    + rewrite upload_accepted by done. apply pipeline_frame.
      * apply FSFacts.diverge_siblings. intros E. by eapply Hx.
      * apply diverge_outputs_uploads.
    + by rewrite upload_unsupported.
Qed.

Lemma uploads_untouched_witness :
  FS.node_at (input_path_of Scenario.demucs_crashes Scenario.song)
    (snd (upload Scenario.demucs_crashes (Some Scenario.song) Scenario.started))
  = Some (File (stream Scenario.song))
  /\ FS.node_at (UPLOADS Scenario.healthy ++ ["earlier.wav"])
       (snd (upload Scenario.healthy (Some Scenario.song) Scenario.started))
     = FS.node_at (UPLOADS Scenario.healthy ++ ["earlier.wav"]) Scenario.started.
Proof.
  split.
  - eapply (proj1 (uploads_untouched Scenario.demucs_crashes) Scenario.song Scenario.started).
    + exists "MP3". split; [reflexivity|].
      apply (bool_decide_unpack _). vm_compute. exact I.
    + vm_compute. reflexivity.
  - apply (proj1 (proj2 (uploads_untouched Scenario.healthy))).
    intros f [= <-]. vm_compute. discriminate.
Defined.

(** C2, as the code has it.  When a job fails inside the guarded part of
    [upload] (separation, stem verification, mixing, copy of the original),
    the answer is 500, the job directory is gone with all it held, so that
    no path below it leads anywhere, and the saved upload is still in the
    uploads directory. *)
Theorem failed_job_cleanup (env : Env) (file : option FileStorage) (fs : node)
    (r : response) (fs' : node) :
  upload env file fs = (Ok r, fs') ->
  status r = 500 ->
  (forall q, FS.node_at (job_dir_of env ++ q) fs' = None)
  /\ exists f, file = Some f
               /\ FS.node_at (input_path_of env f) fs' = Some (File (stream f)).
Proof.
  intros H Hs. destruct file as [f|]; [|by inversion H; subst].
  destruct (decide (filename f = "")) as [Hn|Hn].
  { unfold upload in H. rewrite bool_decide_eq_true_2 in H by done.
    by inversion H; subst. }
  destruct (decide (ext_of f ∈ allowed)) as [He|He];
    [|rewrite upload_unsupported in H by done; by inversion H; subst].
  rewrite upload_accepted in H by done.
  pose proof H as H0.
  apply pipeline_inv in H as [(e & ?)|(fs1 & fs2 & Hw & Hm & Hg)]; [done|].
  split.
  - intros q. apply FSFacts.node_at_under_none.
    apply mkdir_Ok_dir in Hm.
    apply guarded_inv in Hg as [(a & Hp & [= <-])|(e & fs3 & Hp & _ & ->)].
    + apply process_Ok_status in Hp. congruence.
    + by eapply guarded_failure_cleans.
  - exists f. split; [done|].
    pose proof (pipeline_keeps_upload env f fs fs1 Hw) as Hk.
    by rewrite H0 in Hk.
Qed.

Lemma failed_job_cleanup_witness :
  exists r fs',
    upload Scenario.demucs_crashes (Some Scenario.song) Scenario.started = (Ok r, fs')
    /\ status r = 500
    /\ FS.node_at (job_dir_of Scenario.demucs_crashes) fs' = None.
Proof.
  destruct (upload Scenario.demucs_crashes (Some Scenario.song) Scenario.started)
    as [[r|e] fs'] eqn:E; [|vm_compute in E; discriminate].
  assert (status r = 500) as Hs by (vm_compute in E; by inversion E).
  exists r, fs'. split; [done|]. split; [done|].
  rewrite <- (app_nil_r (job_dir_of Scenario.demucs_crashes)).
  by apply (failed_job_cleanup _ _ _ _ _ E Hs).
Defined.

(** C2, as stated, fails: after a job that failed in separation the upload
    is still in the uploads directory. *)
Lemma failed_job_keeps_upload :
  exists r fs',
    upload Scenario.demucs_crashes (Some Scenario.song) Scenario.started = (Ok r, fs')
    /\ status r = 500
    /\ FS.node_at ["srv"; "app"; "uploads"; "000000000000000000000000000000ff.mp3"] fs'
       = Some (File (stream Scenario.song)).
Proof.
  destruct (upload Scenario.demucs_crashes (Some Scenario.song) Scenario.started)
    as [[r|e] fs'] eqn:E; [|vm_compute in E; discriminate].
  exists r, fs'. split; [done|].
  vm_compute in E. inversion E; subst. split; reflexivity.
Qed.

(** C1, as the code has it.  The answer to an upload that succeeds is a
    JSON object with exactly the seven keys id, original, vocals,
    instrumental, drums, bass, other; id is the job identifier, and each of
    the six others is a string that begins with "/outputs/". *)
Theorem upload_success_shape (env : Env) (file : option FileStorage) (fs : node)
    (r : response) (fs' : node) :
  upload env file fs = (Ok r, fs') ->
  status r = 200 ->
  keys (content r)
  = {[ "id"; "original"; "vocals"; "instrumental"; "drums"; "bass"; "other" ]}
  /\ member "id" (content r) = Some (JStr (job_id env))
  /\ forall k, k ∈ url_keys ->
       exists v, member k (content r) = Some v /\ begins_with "/outputs/" v = true.
Proof.
  intros H Hs. destruct file as [f|]; [|by inversion H; subst].
  destruct (decide (filename f = "")) as [Hn|Hn].
  { unfold upload in H. rewrite bool_decide_eq_true_2 in H by done.
    by inversion H; subst. }
  destruct (decide (ext_of f ∈ allowed)) as [He|He];
    [|rewrite upload_unsupported in H by done; by inversion H; subst].
  rewrite upload_accepted in H by done.
  apply pipeline_inv in H as [(e & ?)|(fs1 & fs2 & _ & _ & Hg)]; [done|].
  apply guarded_inv in Hg as [(a & Hp & [= <-])|(e & fs3 & _ & [= ->] & _)]; [|done].
  apply process_Ok in Hp as (rel & ->). cbv zeta. clear.
  split; [|split].
  - unfold jsonify, content, keys. rewrite dom_list_to_map_L. reflexivity.
  - reflexivity.
  - intros k Hk. unfold url_keys in Hk.
    repeat (apply elem_of_cons in Hk as [->|Hk]; [eexists; split; reflexivity|]).
    by apply elem_of_nil in Hk.
Qed.

Lemma upload_success_shape_witness :
  exists r fs',
    upload Scenario.healthy (Some Scenario.song) Scenario.started = (Ok r, fs')
    /\ status r = 200
    /\ keys (content r)
       = {[ "id"; "original"; "vocals"; "instrumental"; "drums"; "bass"; "other" ]}
    /\ member "id" (content r) = Some (JStr Scenario.uid)
    /\ member "vocals" (content r)
       = Some (JStr "/outputs/000000000000000000000000000000ff/htdemucs/000000000000000000000000000000ff/vocals.wav").
Proof.
  destruct (upload Scenario.healthy (Some Scenario.song) Scenario.started)
    as [[r|e] fs'] eqn:E; [|vm_compute in E; discriminate].
  assert (status r = 200) as Hs by (vm_compute in E; by inversion E).
  exists r, fs'. split; [done|]. split; [done|].
  destruct (upload_success_shape _ _ _ _ _ E Hs) as (Hk & Hid & _).
  split; [done|]. split; [done|].
  vm_compute in E. inversion E; subst. reflexivity.
Defined.

(** C1, as stated, fails: the answer has seven members, and the member id
    does not begin with "/outputs/". *)
Lemma upload_success_id_is_no_url :
  exists r fs' v,
    upload Scenario.healthy (Some Scenario.song) Scenario.started = (Ok r, fs')
    /\ status r = 200
    /\ size (keys (content r)) = 7%nat
    /\ member "id" (content r) = Some v
    /\ begins_with "/outputs/" v = false.
Proof.
  destruct (upload Scenario.healthy (Some Scenario.song) Scenario.started)
    as [[r|e] fs'] eqn:E; [|vm_compute in E; discriminate].
  exists r, fs', (JStr Scenario.uid). split; [done|].
  vm_compute in E. inversion E; subst. repeat split; reflexivity.
Qed.

(** ** A missing stem *)

Lemma check_stems_run sub fs :
  for_each [sub ++ ["vocals.wav"]; sub ++ ["drums.wav"];
            sub ++ ["bass.wav"]; sub ++ ["other.wav"]] check_stem fs
  = match first_missing sub fs with
    | Some stem => (Raise (RuntimeError ("Missing expected stem: " +:+ stem)), fs)
    | None => (Ok tt, fs)
    end.
Proof.
  unfold first_missing, stem_names. simpl.
  unfold bind, check_stem, bind, path_exists. rewrite !FSFacts.name_snoc.
  repeat (destruct (FS.is_some_node (FS.node_at _ fs)); simpl; [|reflexivity]).
  reflexivity.
Qed.

Lemma first_missing_exists sub fs n :
  n ∈ stem_names -> FS.node_at (sub ++ [n]) fs = None ->
  exists stem, first_missing sub fs = Some stem.
Proof.
  intros Hin Hn. unfold first_missing.
  destruct (List.find _ stem_names) as [stem|] eqn:E; [by exists stem|].
  pose proof (find_none _ _ E n) as Hf. simpl in Hf.
  rewrite Hn in Hf. by specialize (Hf (proj1 (list_elem_of_In _ _) Hin)).
Qed.

(** The first missing stem is absent, and the stems before it in the order
    vocals, drums, bass, other are there. *)
Lemma first_missing_first sub fs stem :
  first_missing sub fs = Some stem ->
  exists before after,
    stem_names = before ++ stem :: after
    /\ FS.node_at (sub ++ [stem]) fs = None
    /\ Forall (fun n => FS.node_at (sub ++ [n]) fs <> None) before.
Proof.
  unfold first_missing. generalize stem_names as names.
  induction names as [|n names IH]; simpl; [done|].
  destruct (FS.node_at (sub ++ [n]) fs) as [x|] eqn:E; simpl.
  - intros (before & after & -> & Hs & Hb)%IH.
    exists (n :: before), after. split; [done|]. split; [done|].
    constructor; [congruence | done].
  - intros [= <-]. by exists [], names.
Qed.

(** C3.  When separation has returned a track folder and at least one of
    vocals.wav, drums.wav, bass.wav, other.wav is absent from it, [upload]
    answers 500 with the detail "Missing expected stem: " followed by the
    name of the first absent one in that order, and the job directory is
    gone afterwards. *)
Theorem missing_stem_fails (env : Env) (file : FileStorage) (fs fs1 fs2 fs3 : node)
    (sub : path) (absent : string) :
  supported (filename file) ->
  write_bytes (input_path_of env file) (stream file) fs = (Ok tt, fs1) ->
  mkdir_parents_exist_ok (job_dir_of env) fs1 = (Ok tt, fs2) ->
  run_demucs env (input_path_of env file) (job_dir_of env) fs2 = (Ok sub, fs3) ->
  absent ∈ stem_names ->
  FS.node_at (sub ++ [absent]) fs3 = None ->
  exists stem fs',
    first_missing sub fs3 = Some stem
    /\ upload env (Some file) fs
       = (Ok (jsonify_status [("detail", JStr ("Missing expected stem: " +:+ stem))] 500), fs')
    /\ FS.node_at (job_dir_of env) fs' = None.
Proof.
  intros Hext%supported_iff Hw Hm Hrun Hin Habs. fold (ext_of file) in Hext.
  destruct (first_missing_exists sub fs3 absent Hin Habs) as [stem Hmiss].
  assert (process env (job_id env) (ext_of file) (input_path_of env file)
            (job_dir_of env) fs2
          = (Raise (RuntimeError ("Missing expected stem: " +:+ stem)), fs3)) as Hp.
  { unfold process. rewrite (bind_Ok _ _ _ _ _ Hrun).
    unfold bind at 1. by rewrite check_stems_run, Hmiss. }
  exists stem, (snd (rmtree_ignore_errors (job_dir_of env) fs3)).
  split; [done|]. split.
  - rewrite upload_accepted by done. unfold pipeline.
    rewrite (bind_Ok _ _ _ _ _ Hw), (bind_Ok _ _ _ _ _ Hm).
    unfold guarded, try_except. rewrite Hp. unfold bind.
    pose proof (rmtree_Ok (job_dir_of env) fs3) as Hr.
    by destruct (rmtree_ignore_errors (job_dir_of env) fs3) as [[[]|?] ?].
  - eapply guarded_failure_cleans; [|exact Hp]. by eapply mkdir_Ok_dir.
Qed.

Lemma missing_stem_fails_witness :
  exists fs',
    upload Scenario.bass_missing (Some Scenario.song) Scenario.started
    = (Ok (jsonify_status [("detail", JStr "Missing expected stem: bass.wav")] 500), fs')
    /\ FS.node_at (job_dir_of Scenario.bass_missing) fs' = None.
Proof.
  assert (supported (filename Scenario.song)) as Hsong.
  { exists "MP3". split; [reflexivity|].
    apply (bool_decide_unpack _). vm_compute. exact I. }
  destruct (write_bytes (input_path_of Scenario.bass_missing Scenario.song)
              (stream Scenario.song) Scenario.started) as [[[]|?] fs1] eqn:Hw;
    [|vm_compute in Hw; discriminate].
  destruct (mkdir_parents_exist_ok (job_dir_of Scenario.bass_missing) fs1)
    as [[[]|?] fs2] eqn:Hm;
    [|vm_compute in Hw; inversion Hw; subst; vm_compute in Hm; discriminate].
  destruct (run_demucs Scenario.bass_missing
              (input_path_of Scenario.bass_missing Scenario.song)
              (job_dir_of Scenario.bass_missing) fs2) as [[sub|?] fs3] eqn:Hrun;
    [|vm_compute in Hw; inversion Hw; subst; vm_compute in Hm; inversion Hm; subst;
      vm_compute in Hrun; discriminate].
  assert (FS.node_at (sub ++ ["bass.wav"]) fs3 = None) as Habs.
  { vm_compute in Hw; inversion Hw; subst. vm_compute in Hm; inversion Hm; subst.
    vm_compute in Hrun; inversion Hrun; subst. reflexivity. }
  assert ("bass.wav" ∈ stem_names) as Hin
    by (apply (bool_decide_unpack _); vm_compute; exact I).
  destruct (missing_stem_fails _ _ _ _ _ _ _ _ Hsong Hw Hm Hrun Hin Habs)
    as (stem & fs' & Hfirst & Hup & Hgone).
  exists fs'. split; [|done].
  assert (stem = "bass.wav") as <-; [|done].
  vm_compute in Hw; inversion Hw; subst. vm_compute in Hm; inversion Hm; subst.
  vm_compute in Hrun; inversion Hrun; subst. vm_compute in Hfirst. congruence.
Defined.

(** ** The fallback of [make_instrumental] *)

Lemma diverge_irrefl p : FS.diverge p p = false.
Proof. induction p as [|a p IH]; simpl; [done|]. by rewrite decide_True. Qed.

Lemma write_bytes_keeps_parent d c data fs :
  FS.is_dir_node (FS.node_at d fs) = true ->
  FS.is_dir_node (FS.node_at d (snd (write_bytes (d ++ [c]) data fs))) = true.
Proof.
  intros Hd. unfold write_bytes. rewrite FSFacts.parent_snoc, FSFacts.name_snoc.
  destruct (FS.node_at (d ++ [c]) fs) as [[|?]|]; try done;
    (destruct (FS.with_dir d _ fs) eqn:E; simpl; [|done];
     apply FSFacts.with_dir_at in E as (es & _ & ->); done).
Qed.

Lemma write_bytes_no_dir d c data fs :
  FS.is_dir_node (FS.node_at (d ++ [c]) fs) = false ->
  FS.is_dir_node (FS.node_at (d ++ [c]) (snd (write_bytes (d ++ [c]) data fs))) = false.
Proof.
  intros Hc. destruct (write_bytes (d ++ [c]) data fs) as [[[]|e] fs1] eqn:E; simpl.
  - by rewrite (write_bytes_written _ _ _ _ _ E).
  - by rewrite (write_bytes_Raise _ _ _ _ _ E).
Qed.

(** Copying [other] over the target, in a tree where that can be done. *)
Lemma copy2_fallback other d c data fs :
  FS.node_at other fs = Some (File data) ->
  FS.is_dir_node (FS.node_at d fs) = true ->
  FS.is_dir_node (FS.node_at (d ++ [c]) fs) = false ->
  FS.diverge (d ++ [c]) other = true ->
  exists fs', copy2 other (d ++ [c]) fs = (Ok tt, fs')
              /\ FS.node_at (d ++ [c]) fs' = Some (File data)
              /\ FS.node_at other fs' = Some (File data).
Proof.
  intros Ho Hd Hc Hdiv.
  assert (other <> d ++ [c]) as Hne.
  { intros ->. by rewrite diverge_irrefl in Hdiv. }
  destruct (copy2_file other d c data fs Ho Hd Hc Hne) as (fs' & Hcp & Hout).
  exists fs'. split; [done|]. split; [done|].
  pose proof (copy2_frame other (d ++ [c]) fs other Hdiv) as Hf.
  rewrite Hcp in Hf. simpl in Hf. congruence.
Qed.

(** Text mode, by whether the output of the child decodes. *)
Lemma text_mode_decodable (env : Env) (child : ended) :
  decodable env child = true ->
  exists out err,
    text_mode env child
    = Ok {| returncode := exit_status child; stdout := out; stderr := err |}.
Proof.
  unfold decodable, text_mode, translate_newlines.
  destruct (locale_decode env (stdout_bytes child)); [|done].
  destruct (locale_decode env (stderr_bytes child)); [|done].
  intros _. by eexists _, _.
Qed.

Lemma text_mode_undecodable (env : Env) (child : ended) :
  decodable env child = false ->
  exists encoding object start stop reason,
    text_mode env child = Raise (UnicodeDecodeError encoding object start stop reason).
Proof.
  unfold decodable, text_mode, translate_newlines.
  destruct (locale_decode env (stdout_bytes child)); [|by eexists _, _, _, _, _].
  destruct (locale_decode env (stderr_bytes child)); [done|by eexists _, _, _, _, _].
Qed.

Lemma text_mode_returncode (env : Env) (child : ended) (proc : completed) :
  text_mode env child = Ok proc -> returncode proc = exit_status child.
Proof.
  unfold text_mode.
  destruct (translate_newlines env (stdout_bytes child)); [|done].
  destruct (translate_newlines env (stderr_bytes child)); [|done].
  by intros [= <-].
Qed.

(** [make_instrumental], step by step: the probe; then the mix, whose
    output file is written before its pipes are decoded; then the copy
    when the mix did not exit with 0. *)
Lemma make_instrumental_run (env : Env) (drums bass other out : path) (fs : node) :
  make_instrumental env drums bass other out fs =
  match ffmpeg_launch env with
  | Starts =>
      let child := fst (ffmpeg_amix env (amix_cmd drums bass other out) fs) in
      let fs1 := match snd (ffmpeg_amix env (amix_cmd drums bass other out) fs) with
                 | Some mix => snd (write_bytes out mix fs)
                 | None => fs
                 end in
      match text_mode env child with
      | Raise e => (Raise e, fs1)
      | Ok proc =>
          if bool_decide (returncode proc = 0) then (Ok tt, fs1)
          else copy2 other out fs1
      end
  | Fails ENOENT => copy2 other out fs
  | Fails errno => (Raise (OSError errno "ffmpeg"), fs)
  end.
Proof.
  unfold make_instrumental, bind. rewrite _ffmpeg_exists_run.
  destruct (ffmpeg_launch env) as [|errno] eqn:Hl; [|by destruct errno].
  unfold run_ffmpeg_amix, bind, spawn. rewrite Hl. simpl.
  destruct (ffmpeg_amix env _ fs) as [child [mix|]]; simpl;
    destruct (text_mode env child) as [proc|e]; try done;
    by destruct (bool_decide (returncode proc = 0)).
Qed.

Lemma make_instrumental_fallback (env : Env) (drums bass other d : path) (c : string)
    (data : bytes) (fs : node) :
  let child := fst (ffmpeg_amix env (amix_cmd drums bass other (d ++ [c])) fs) in
  FS.node_at other fs = Some (File data) ->
  FS.is_dir_node (FS.node_at d fs) = true ->
  FS.is_dir_node (FS.node_at (d ++ [c]) fs) = false ->
  FS.diverge (d ++ [c]) other = true ->
  ffmpeg_launch env = Fails ENOENT
  \/ (ffmpeg_launch env = Starts /\ decodable env child = true /\ exit_status child <> 0) ->
  exists fs', make_instrumental env drums bass other (d ++ [c]) fs = (Ok tt, fs')
              /\ FS.node_at (d ++ [c]) fs' = Some (File data)
              /\ FS.node_at other fs' = Some (File data).
Proof.
  intros child Ho Hd Hc Hdiv Hff. rewrite make_instrumental_run. fold child.
  destruct Hff as [Hl|(Hl & Hdec & Hrc)]; rewrite Hl; [by apply copy2_fallback|].
  cbv zeta. destruct (text_mode_decodable env child Hdec) as (out & err & ->).
  rewrite bool_decide_eq_false_2 by done.
  destruct (snd (ffmpeg_amix env _ fs)) as [partial|]; [|by apply copy2_fallback].
  apply copy2_fallback.
  - by rewrite write_bytes_frame.
  - by apply write_bytes_keeps_parent.
  - by apply write_bytes_no_dir.
  - done.
Qed.

(** C5, as the code has it.  In a job whose track folder holds other.wav as
    a regular file and no directory called instrumental.wav, when ffmpeg
    is not found, or is run, writes output that text mode can decode and
    exits non-zero, [make_instrumental] returns without raising and leaves
    an instrumental.wav with the very bytes of other.wav, which is itself
    unchanged. *)
Theorem instrumental_falls_back_to_other (env : Env) (sub : path) (data : bytes)
    (fs : node) :
  let drums := sub ++ ["drums.wav"] in
  let bass := sub ++ ["bass.wav"] in
  let other := sub ++ ["other.wav"] in
  let instrumental := sub ++ ["instrumental.wav"] in
  let child := fst (ffmpeg_amix env (amix_cmd drums bass other instrumental) fs) in
  FS.node_at other fs = Some (File data) ->
  FS.is_dir_node (FS.node_at instrumental fs) = false ->
  ffmpeg_launch env = Fails ENOENT
  \/ (ffmpeg_launch env = Starts /\ decodable env child = true /\ exit_status child <> 0) ->
  exists fs', make_instrumental env drums bass other instrumental fs = (Ok tt, fs')
              /\ FS.node_at instrumental fs' = Some (File data)
              /\ FS.node_at other fs' = Some (File data).
Proof.
  intros drums bass other instrumental child Ho Hi Hff.
  apply make_instrumental_fallback; try done.
  - unfold other in Ho. rewrite FSFacts.node_at_app in Ho.
    destruct (FS.node_at sub fs) as [[|es]|]; done.
  - apply (FSFacts.diverge_siblings sub "instrumental.wav" "other.wav" [] []). done.
Qed.

Lemma instrumental_falls_back_to_other_witness :
  (exists fs',
      make_instrumental Scenario.without_ffmpeg
        (Scenario.track_folder ++ ["drums.wav"]) (Scenario.track_folder ++ ["bass.wav"])
        (Scenario.track_folder ++ ["other.wav"])
        (Scenario.track_folder ++ ["instrumental.wav"])
        (Scenario.separated Scenario.without_ffmpeg) = (Ok tt, fs')
      /\ FS.node_at (Scenario.track_folder ++ ["instrumental.wav"]) fs'
         = Some (Scenario.text "O")
      /\ FS.node_at (Scenario.track_folder ++ ["other.wav"]) fs'
         = Some (Scenario.text "O"))
  /\ (exists fs',
         make_instrumental Scenario.ffmpeg_broken
           (Scenario.track_folder ++ ["drums.wav"]) (Scenario.track_folder ++ ["bass.wav"])
           (Scenario.track_folder ++ ["other.wav"])
           (Scenario.track_folder ++ ["instrumental.wav"])
           (Scenario.separated Scenario.ffmpeg_broken) = (Ok tt, fs')
         /\ FS.node_at (Scenario.track_folder ++ ["instrumental.wav"]) fs'
            = Some (Scenario.text "O")
         /\ FS.node_at (Scenario.track_folder ++ ["other.wav"]) fs'
            = Some (Scenario.text "O")).
Proof.
  split.
  - apply (instrumental_falls_back_to_other Scenario.without_ffmpeg Scenario.track_folder).
    + vm_compute. reflexivity.
    + vm_compute. reflexivity.
    + left. reflexivity.
  - apply (instrumental_falls_back_to_other Scenario.ffmpeg_broken Scenario.track_folder).
    + vm_compute. reflexivity.
    + vm_compute. reflexivity.
    + right. split; [reflexivity|]. split; [vm_compute; reflexivity | vm_compute; discriminate].
Defined.

(** C5, as stated, fails.  With ffmpeg exiting non-zero after it wrote a
    byte on its standard error that is no UTF-8, [make_instrumental]
    raises the [UnicodeDecodeError] of text mode and copies nothing.  With
    ffmpeg absent, it raises when other.wav is a directory, which the
    check of the stems lets through, and when instrumental.wav is a
    directory it returns with the copy inside that directory. *)
Lemma instrumental_fallback_can_raise :
  let drums := Scenario.track_folder ++ ["drums.wav"] in
  let bass := Scenario.track_folder ++ ["bass.wav"] in
  let other := Scenario.track_folder ++ ["other.wav"] in
  let instrumental := Scenario.track_folder ++ ["instrumental.wav"] in
  (let env := Scenario.ffmpeg_garbled in
   let fs := Scenario.separated env in
   ffmpeg_launch env = Starts
   /\ exit_status (fst (ffmpeg_amix env (amix_cmd drums bass other instrumental) fs)) = 127
   /\ FS.node_at other fs = Some (Scenario.text "O")
   /\ make_instrumental env drums bass other instrumental fs
      = (Raise (UnicodeDecodeError "utf-8" Scenario.garbage 0 1 "invalid start byte"), fs)
   /\ FS.node_at instrumental fs = None)
  /\ (let env := Scenario.odd_other in
      let fs := Scenario.separated env in
      ffmpeg_launch env = Fails ENOENT
      /\ first_missing Scenario.track_folder fs = None
      /\ make_instrumental env drums bass other instrumental fs
         = (Raise (OSError EISDIR (str_path other)), fs))
  /\ (let env := Scenario.odd_instrumental in
      let fs := Scenario.separated env in
      ffmpeg_launch env = Fails ENOENT
      /\ FS.node_at other fs = Some (Scenario.text "O")
      /\ exists fs',
           make_instrumental env drums bass other instrumental fs = (Ok tt, fs')
           /\ FS.node_at instrumental fs' = Some (Dir [("other.wav", Scenario.text "O")])).
Proof.
  cbv zeta. split; [|split].
  - repeat split; vm_compute; reflexivity.
  - repeat split; vm_compute; reflexivity.
  - split; [reflexivity|]. split; [vm_compute; reflexivity|].
    eexists. split; vm_compute; reflexivity.
Qed.

(** A whole job without ffmpeg: the answer is 200 and instrumental.wav
    holds the bytes of other.wav. *)
Example job_without_ffmpeg :
  exists r fs',
    upload Scenario.without_ffmpeg (Some Scenario.song) Scenario.started = (Ok r, fs')
    /\ status r = 200
    /\ FS.node_at (Scenario.track_folder ++ ["instrumental.wav"]) fs'
       = FS.node_at (Scenario.track_folder ++ ["other.wav"]) fs'
    /\ FS.node_at (Scenario.track_folder ++ ["other.wav"]) fs' = Some (Scenario.text "O").
Proof.
  destruct (upload Scenario.without_ffmpeg (Some Scenario.song) Scenario.started)
    as [[r|e] fs'] eqn:E; [|vm_compute in E; discriminate].
  exists r, fs'. split; [done|].
  vm_compute in E. inversion E; subst. repeat split; reflexivity.
Qed.

(** With ffmpeg at work the instrumental is the mix. *)
Example job_with_ffmpeg :
  exists r fs',
    upload Scenario.healthy (Some Scenario.song) Scenario.started = (Ok r, fs')
    /\ FS.node_at (Scenario.track_folder ++ ["instrumental.wav"]) fs'
       = Some (File Scenario.mixed).
Proof.
  destruct (upload Scenario.healthy (Some Scenario.song) Scenario.started)
    as [[r|e] fs'] eqn:E; [|vm_compute in E; discriminate].
  exists r, fs'. split; [done|].
  vm_compute in E. inversion E; subst. reflexivity.
Qed.

(** ** [health] *)

Lemma health_run (env : Env) (fs : node) :
  health env fs =
  let demucs_ok :=
    (starts (python_launch env) && decodable env (demucs_help env)
     && bool_decide (exit_status (demucs_help env) = 0))%bool in
  match ffmpeg_launch env with
  | Starts =>
      (Ok (jsonify [("status", JStr "ok"); ("demucs", JBool demucs_ok);
                    ("ffmpeg", JBool true)]), fs)
  | Fails ENOENT =>
      (Ok (jsonify [("status", JStr "ok"); ("demucs", JBool demucs_ok);
                    ("ffmpeg", JBool false)]), fs)
  | Fails errno => (Raise (OSError errno "ffmpeg"), fs)
  end.
Proof.
  unfold health, bind, try_except. rewrite run_demucs_help_run.
  destruct (python_launch env); simpl.
  - destruct (decodable env (demucs_help env)) eqn:Hd.
    + destruct (text_mode_decodable env _ Hd) as (out & err & ->). simpl.
      rewrite _ffmpeg_exists_run; by destruct (ffmpeg_launch env) as [|[]].
    + destruct (text_mode_undecodable env _ Hd) as (? & ? & ? & ? & ? & ->). simpl.
      rewrite _ffmpeg_exists_run; by destruct (ffmpeg_launch env) as [|[]].
  - rewrite _ffmpeg_exists_run; by destruct (ffmpeg_launch env) as [|[]].
Qed.

(** C6, as the code has it.  Unless starting ffmpeg fails for another
    reason than its absence, [health] answers 200 with status "ok"; demucs
    is true exactly when the help invocation runs, writes output that text
    mode can decode, and exits with 0; ffmpeg is true exactly when ffmpeg
    can be started, whatever the exit status of its version query. *)
Theorem health_report (env : Env) (fs : node) :
  (forall errno, ffmpeg_launch env = Fails errno -> errno = ENOENT) ->
  health env fs
  = (Ok (jsonify [
       ("status", JStr "ok");
       ("demucs", JBool (starts (python_launch env)
                         && decodable env (demucs_help env)
                         && bool_decide (exit_status (demucs_help env) = 0)));
       ("ffmpeg", JBool (starts (ffmpeg_launch env)))]), fs).
Proof.
  intros Hl. rewrite health_run. cbv zeta.
  destruct (ffmpeg_launch env) as [|errno]; [done|].
  by rewrite (Hl errno eq_refl).
Qed.

Lemma health_report_witness :
  health Scenario.without_ffmpeg Scenario.started
  = (Ok (jsonify [("status", JStr "ok"); ("demucs", JBool true); ("ffmpeg", JBool false)]),
     Scenario.started).
Proof.
  apply (health_report Scenario.without_ffmpeg Scenario.started).
  intros errno [= <-]. reflexivity.
Defined.

(** C6, as stated, fails: the version query of ffmpeg exits with 127 and
    the report still says ffmpeg: true. *)
Lemma health_ignores_ffmpeg_exit_status :
  exit_status (ffmpeg_version Scenario.ffmpeg_broken) = 127
  /\ exists r,
       health Scenario.ffmpeg_broken Scenario.started = (Ok r, Scenario.started)
       /\ status r = 200
       /\ member "ffmpeg" (content r) = Some (JBool true).
Proof.
  split; [reflexivity|].
  eexists. split; [vm_compute; reflexivity|]. split; reflexivity.
Qed.

(** When ffmpeg is there but may not be executed, the probe raises and so
    does [health]: only the absence of ffmpeg is caught. *)
Example health_raises_on_permission_error :
  health Scenario.ffmpeg_denied Scenario.started
  = (Raise (OSError EACCES "ffmpeg"), Scenario.started).
Proof. reflexivity. Qed.

(** A help run that exits with 0 after writing a byte that is no UTF-8:
    the [UnicodeDecodeError] of text mode is caught and demucs is reported
    as missing. *)
Example health_with_undecodable_help :
  exit_status (demucs_help Scenario.help_garbled) = 0
  /\ health Scenario.help_garbled Scenario.started
     = (Ok (jsonify [("status", JStr "ok"); ("demucs", JBool false);
                     ("ffmpeg", JBool true)]), Scenario.started).
Proof. split; reflexivity. Qed.

(** ** [run_demucs] *)



(** ** [outputs_serve] *)




(** A request for a range of the same file is answered by [send_file] in
    its own way, here with the two bytes asked for. *)
Example outputs_serve_range_request :
  outputs_serve (Scenario.requested Scenario.healthy "GET" [("Range", "bytes=0-1")])
    "../app.py" Scenario.started
  = (Ok (Resp 206 (Download (list_byte_of_string "im"))), Scenario.started).
Proof. vm_compute. reflexivity. Qed.

(* ===================================================================== *)
(** * Plain names, and the way from a URL back to a path *)
(* ===================================================================== *)

Section Names.
Import Py PyFacts.

Lemma is_plain_spec c :
  is_plain c = true <->
  c <> "" /\ c <> "." /\ c <> ".." /\ has_char "/" c = false.
Proof.
  unfold is_plain. rewrite !andb_true_iff, !negb_true_iff, !bool_decide_eq_false.
  tauto.
Qed.

Lemma split_on_no_sep sep c : has_char sep c = false -> split_on sep c = [c].
Proof.
  induction c as [|a r IH]; simpl; [done|].
  intros [-> Hr]%orb_false_iff. by rewrite IH.
Qed.

Lemma split_on_sep sep c s :
  has_char sep c = false ->
  split_on sep (c +:+ String sep s) = c :: split_on sep s.
Proof.
  induction c as [|a r IH]; simpl.
  - intros _. by rewrite Ascii.eqb_refl.
  - intros [-> Hr]%orb_false_iff. by rewrite IH.
Qed.

(** Joining plain names with "/" and splitting again gives them back. *)
Lemma split_on_join rel :
  rel <> [] -> Forall (fun c => is_plain c = true) rel ->
  split_on "/" (join "/" rel) = rel.
Proof.
  induction rel as [|c [|d rel] IH]; [done| |]; intros _ Hp.
  - simpl. apply split_on_no_sep. inversion Hp as [|? ? Hc _]; subst.
    by apply is_plain_spec in Hc as (_ & _ & _ & ?).
  - inversion Hp as [|? ? Hc Hr]; subst.
    change (join "/" (c :: d :: rel)) with (c +:+ String "/"%char (join "/" (d :: rel))).
    rewrite split_on_sep by (by apply is_plain_spec in Hc as (_ & _ & _ & ?)).
    by rewrite IH.
Qed.

(** What [pathlib] reads from the POSIX form of plain names. *)
Lemma parse_parts_as_posix rel :
  Forall (fun c => is_plain c = true) rel -> parse_parts (as_posix rel) = rel.
Proof.
  intros Hp. unfold parse_parts, as_posix.
  destruct rel as [|c rel]; [done|].
  rewrite split_on_join by done.
  induction Hp as [|x l Hx _ IH]; [done|].
  apply is_plain_spec in Hx as (? & ? & _).
  rewrite filter_cons_True by done. by rewrite IH.
Qed.

Lemma as_posix_relative rel :
  Forall (fun c => is_plain c = true) rel -> starts_with_slash (as_posix rel) = false.
Proof.
  intros Hp. destruct rel as [|c rel]; [done|].
  inversion Hp as [|? ? Hc _]; subst.
  apply is_plain_spec in Hc as (Hne & _ & _ & Hs).
  destruct c as [|a c]; [done|]. simpl in Hs. apply orb_false_iff in Hs as [Ha _].
  unfold as_posix. destruct rel; simpl; exact Ha.
Qed.

Lemma plain_no_dotdot rel :
  Forall (fun c => is_plain c = true) rel -> ".." ∉ rel.
Proof.
  intros Hp Hin. rewrite Forall_forall in Hp.
  specialize (Hp _ Hin). by vm_compute in Hp.
Qed.

(** ** The job identifier is a plain name *)

Lemma hex_digit_hex d : has_char (hex_digit d) hexdigits = true.
Proof.
  unfold hex_digit. generalize (N.to_nat d) as n. intros n.
  do 16 (destruct n as [|n]; [reflexivity|]). reflexivity.
Qed.

Lemma hex_digits_hex k : forall n acc,
  all_in hexdigits acc = true -> all_in hexdigits (hex_digits k n acc) = true.
Proof.
  induction k as [|k IH]; intros n acc Hacc; simpl; [done|].
  apply IH. cbn [all_in]. by rewrite hex_digit_hex.
Qed.

Lemma hex_digits_length k : forall n acc,
  String.length (hex_digits k n acc) = (k + String.length acc)%nat.
Proof.
  induction k as [|k IH]; intros n acc; simpl; [done|].
  rewrite IH. simpl. lia.
Qed.

Lemma hex_no_slash c : has_char c hexdigits = true -> Ascii.eqb c "/" = false.
Proof.
  destruct c as [[] [] [] [] [] [] [] []]; vm_compute; intros H;
    first [reflexivity | discriminate].
Qed.

Lemma all_hex_no_slash s : all_in hexdigits s = true -> has_char "/" s = false.
Proof.
  induction s as [|c r IH]; simpl; [done|].
  intros [Hc Hr]%andb_true_iff. by rewrite (hex_no_slash c Hc), IH.
Qed.

Lemma uuid_hex_length n : String.length (uuid_hex n) = 32%nat.
Proof. unfold uuid_hex. by rewrite hex_digits_length. Qed.

Lemma uuid_hex_plain n : is_plain (uuid_hex n) = true.
Proof.
  apply is_plain_spec.
  pose proof (uuid_hex_length n) as Hl.
  repeat split; try (intros E; rewrite E in Hl; discriminate).
  apply all_hex_no_slash. by apply hex_digits_hex.
Qed.

End Names.

(* ===================================================================== *)
(** * More on the helpers of [upload] *)
(* ===================================================================== *)

Section MoreHelpers.
Import FS FSFacts.
Context (env : Env).

Lemma strip_prefix_app base r : strip_prefix base (base ++ r) = Some r.
Proof. induction base as [|b base IH]; simpl; [done|]. by rewrite decide_True. Qed.

Lemma first_missing_none sub fs stem :
  first_missing sub fs = None -> stem ∈ stem_names ->
  node_at (sub ++ [stem]) fs <> None.
Proof.
  unfold first_missing. intros Hf Hin Hn.
  pose proof (find_none _ _ Hf stem (proj1 (list_elem_of_In _ _) Hin)) as H.
  simpl in H. by rewrite Hn in H.
Qed.

(** [make_instrumental] changes nothing but its target. *)
Lemma make_instrumental_frame drums bass other out fs q :
  diverge out q = true ->
  node_at q (snd (make_instrumental env drums bass other out fs)) = node_at q fs.
Proof.
  intros Hq. rewrite make_instrumental_run.
  destruct (ffmpeg_launch env) as [|errno] eqn:Hl.
  - cbv zeta. destruct (snd (ffmpeg_amix env _ fs)) as [data|];
      (destruct (text_mode env _) as [proc|e]; [destruct (bool_decide _)|]); simpl;
      rewrite ?copy2_frame by done; rewrite ?write_bytes_frame by done; done.
  - destruct errno; simpl; rewrite ?copy2_frame by done; done.
Qed.

(** A copy that went onto its target, not into it. *)
Lemma copy2_Ok_onto src d c fs fs' :
  copy2 src (d ++ [c]) fs = (Ok tt, fs') ->
  is_dir_node (node_at (d ++ [c]) fs') = false ->
  exists data, node_at src fs = Some (File data)
               /\ node_at (d ++ [c]) fs' = Some (File data).
Proof.
  unfold copy2, bind, is_dir, path_exists, read_bytes. simpl.
  destruct (_ && _)%bool; [done|].
  destruct (node_at src fs) as [[data|?]|]; try done.
  intros Hw Hd. exists data. split; [done|].
  destruct (is_dir_node (node_at (d ++ [c]) fs)) eqn:Hinto.
  - exfalso. unfold write_bytes in Hw. rewrite parent_snoc, name_snoc in Hw.
    assert (exists t, with_dir (d ++ [c]) (set_entry (name src) (File data)) fs = Some t
                      /\ t = fs') as (t & Ht & <-).
    { destruct (node_at ((d ++ [c]) ++ [name src]) fs) as [[|?]|]; try done;
        (destruct (with_dir _ _ fs) as [t|]; [|done]; exists t; split; [done|];
         by inversion Hw). }
    apply with_dir_at in Ht as (es & _ & Ht). by rewrite Ht in Hd.
  - by eapply write_bytes_written.
Qed.

(** The steps of a job that ran to its end. *)
Lemma process_inv uid ext input_path job_dir fs r fs' :
  process env uid ext input_path job_dir fs = (Ok r, fs') ->
  exists track fs1 fs2 rel,
    let sub := (job_dir ++ ["htdemucs"]) ++ [track] in
    run_demucs env input_path job_dir fs = (Ok sub, fs1)
    /\ first_missing sub fs1 = None
    /\ make_instrumental env (sub ++ ["drums.wav"]) (sub ++ ["bass.wav"])
         (sub ++ ["other.wav"]) (sub ++ ["instrumental.wav"]) fs1 = (Ok tt, fs2)
    /\ copy2 input_path (job_dir ++ ["original" +:+ ext]) fs2 = (Ok tt, fs')
    /\ strip_prefix (OUTPUTS env) sub = Some rel
    /\ r = jsonify [
         ("id", JStr uid);
         ("original", JStr ("/outputs/" +:+ uid +:+ "/original" +:+ ext));
         ("vocals", JStr (("/outputs/" +:+ as_posix rel) +:+ "/vocals.wav"));
         ("instrumental", JStr (("/outputs/" +:+ as_posix rel) +:+ "/instrumental.wav"));
         ("drums", JStr (("/outputs/" +:+ as_posix rel) +:+ "/drums.wav"));
         ("bass", JStr (("/outputs/" +:+ as_posix rel) +:+ "/bass.wav"));
         ("other", JStr (("/outputs/" +:+ as_posix rel) +:+ "/other.wav"))].
Proof.
  unfold process. intros H.
  apply bind_inv in H as [(sub & fs1 & Hrun & H)|(? & _ & ?)]; [|done].
  destruct (run_demucs_Ok env _ _ _ _ _ Hrun) as [[track ->] _].
  apply bind_inv in H as [([] & fs1' & Hchk & H)|(? & _ & ?)]; [|done].
  rewrite check_stems_run in Hchk.
  destruct (first_missing _ fs1) eqn:Hmiss; [done|]. inversion Hchk; subst fs1'.
  apply bind_inv in H as [([] & fs2 & Hmix & H)|(? & _ & ?)]; [|done].
  apply bind_inv in H as [([] & fs3 & Hcp & H)|(? & _ & ?)]; [|done].
  apply bind_inv in H as [(rel & fs4 & Hrel & H)|(? & _ & ?)]; [|done].
  unfold relative_to in Hrel.
  destruct (strip_prefix (OUTPUTS env) _) as [rel'|] eqn:Hs; [|done].
  inversion Hrel; subst. inversion H; subst.
  by exists track, fs1, fs2, rel.
Qed.

End MoreHelpers.

(* ===================================================================== *)
(** * A job that succeeded *)
(* ===================================================================== *)

Section Success.
Import FS FSFacts.
Context (env : Env).

Lemma upload_Ok_cases file fs r fs' :
  upload env file fs = (Ok r, fs') ->
  status r = 400 /\ fs' = fs
  \/ exists f, file = Some f /\ ext_of f ∈ allowed /\ pipeline env f fs = (Ok r, fs').
Proof.
  intros H. destruct file as [f|]; [|left; by inversion H].
  destruct (decide (filename f = "")) as [Hn|Hn].
  { unfold upload in H. rewrite bool_decide_eq_true_2 in H by done.
    left. by inversion H. }
  destruct (decide (ext_of f ∈ allowed)) as [He|He].
  - rewrite upload_accepted in H by done. right. by exists f.
  - rewrite upload_unsupported in H by done. left. by inversion H.
Qed.

Lemma upload_success_inv file fs r fs' :
  upload env (Some file) fs = (Ok r, fs') ->
  status r = 200 ->
  exists track fs1 fs2 fs3 fs4,
    let input_path := input_path_of env file in
    let job_dir := job_dir_of env in
    let sub := (job_dir ++ ["htdemucs"]) ++ [track] in
    let base := "/outputs/" +:+ as_posix [job_id env; "htdemucs"; track] in
    ext_of file ∈ allowed
    /\ write_bytes input_path (stream file) fs = (Ok tt, fs1)
    /\ mkdir_parents_exist_ok job_dir fs1 = (Ok tt, fs2)
    /\ run_demucs env input_path job_dir fs2 = (Ok sub, fs3)
    /\ first_missing sub fs3 = None
    /\ make_instrumental env (sub ++ ["drums.wav"]) (sub ++ ["bass.wav"])
         (sub ++ ["other.wav"]) (sub ++ ["instrumental.wav"]) fs3 = (Ok tt, fs4)
    /\ copy2 input_path (job_dir ++ ["original" +:+ ext_of file]) fs4 = (Ok tt, fs')
    /\ r = jsonify [
         ("id", JStr (job_id env));
         ("original", JStr ("/outputs/" +:+ job_id env +:+ "/original" +:+ ext_of file));
         ("vocals", JStr (base +:+ "/vocals.wav"));
         ("instrumental", JStr (base +:+ "/instrumental.wav"));
         ("drums", JStr (base +:+ "/drums.wav"));
         ("bass", JStr (base +:+ "/bass.wav"));
         ("other", JStr (base +:+ "/other.wav"))].
Proof.
  intros H Hs.
  apply upload_Ok_cases in H as [[? _]|(f & [= <-] & Hext & H)]; [congruence|].
  apply pipeline_inv in H as [(e & ?)|(fs1 & fs2 & Hw & Hm & Hg)]; [done|].
  apply guarded_inv in Hg as [(a & Hp & [= <-])|(e & fs3 & _ & [= ->] & _)]; [|done].
  apply process_inv in Hp as (track & fs3 & fs4 & rel & Hrun & Hmiss & Hmix & Hcp & Hrel & ->).
  exists track, fs1, fs2, fs3, fs4. cbv zeta.
  assert (rel = [job_id env; "htdemucs"; track]) as ->.
  { unfold job_dir_of in Hrel. rewrite <- !app_assoc in Hrel.
    rewrite strip_prefix_app in Hrel. by inversion Hrel. }
  done.
Qed.

End Success.

Section SuccessFacts.
Import FS FSFacts.
Context (env : Env).

Lemma original_is_not_htdemucs ext : "original" +:+ ext <> "htdemucs".
Proof. by intros [=]. Qed.

(** The copy of the original, unless a directory of that name was in the
    way. *)
Lemma success_original file fs r fs' :
  upload env (Some file) fs = (Ok r, fs') ->
  status r = 200 ->
  is_dir_node (node_at (job_dir_of env ++ ["original" +:+ ext_of file]) fs') = false ->
  node_at (job_dir_of env ++ ["original" +:+ ext_of file]) fs' = Some (File (stream file)).
Proof.
  intros H Hs Hd.
  destruct (upload_success_inv env _ _ _ _ H Hs)
    as (track & fs1 & fs2 & fs3 & fs4 & Hext & Hw & _ & _ & _ & _ & Hcp & _).
  destruct (copy2_Ok_onto _ _ _ _ _ Hcp Hd) as (data & Hsrc & Hdst).
  rewrite Hdst. do 2 f_equal.
  assert (node_at (input_path_of env file) fs' = Some (File data)) as Hin.
  { rewrite <- Hsrc.
    pose proof (copy2_frame (input_path_of env file)
                  (job_dir_of env ++ ["original" +:+ ext_of file]) fs4
                  (input_path_of env file)) as Hf.
    rewrite Hcp in Hf. apply Hf.
    unfold job_dir_of. rewrite <- app_assoc. apply diverge_outputs_uploads. }
  pose proof (pipeline_keeps_upload env file fs fs1 Hw) as Hk.
  rewrite <- upload_accepted, H in Hk by done. simpl in Hk. congruence.
Qed.

(** The track folder of a job that succeeded, with its four stems. *)
Lemma success_stems file fs r fs' :
  upload env (Some file) fs = (Ok r, fs') ->
  status r = 200 ->
  exists track,
    let sub := job_dir_of env ++ ["htdemucs"; track] in
    let base := "/outputs/" +:+ as_posix [job_id env; "htdemucs"; track] in
    is_dir_node (node_at sub fs') = true
    /\ (forall stem, stem ∈ stem_names -> node_at (sub ++ [stem]) fs' <> None)
    /\ (forall k f, (k, f) ∈ track_files ->
          member k (content r) = Some (JStr (base +:+ "/" +:+ f))).
Proof.
  intros H Hs.
  destruct (upload_success_inv env _ _ _ _ H Hs)
    as (track & fs1 & fs2 & fs3 & fs4 & Hext & _ & _ & Hrun & Hmiss & Hmix & Hcp & ->).
  exists track. cbv zeta.
  replace (job_dir_of env ++ ["htdemucs"; track])
    with ((job_dir_of env ++ ["htdemucs"]) ++ [track]) by (by rewrite <- app_assoc).
  set (sub := (job_dir_of env ++ ["htdemucs"]) ++ [track]) in *.
  assert (forall q, node_at (sub ++ q) fs' = node_at (sub ++ q) fs4) as Hlast.
  { intros q.
    pose proof (copy2_frame (input_path_of env file)
                  (job_dir_of env ++ ["original" +:+ ext_of file]) fs4 (sub ++ q)) as Hf.
    rewrite Hcp in Hf. apply Hf. unfold sub. rewrite <- !app_assoc.
    apply diverge_siblings, original_is_not_htdemucs. }
  split; [|split].
  - rewrite <- (app_nil_r sub), Hlast, app_nil_r.
    pose proof (confined_make_instrumental env sub [] "instrumental.wav"
                  (sub ++ ["drums.wav"]) (sub ++ ["bass.wav"]) (sub ++ ["other.wav"]) fs3)
      as Hu.
    rewrite app_nil_r, Hmix in Hu. eapply under_dir; [exact Hu|].
    by apply run_demucs_Ok in Hrun as [_ ?].
  - intros stem Hin. rewrite Hlast.
    pose proof (make_instrumental_frame env (sub ++ ["drums.wav"]) (sub ++ ["bass.wav"])
                  (sub ++ ["other.wav"]) (sub ++ ["instrumental.wav"]) fs3
                  (sub ++ [stem])) as Hf.
    rewrite Hmix in Hf. simpl in Hf. rewrite Hf; [by apply first_missing_none|].
    apply diverge_siblings. intros <-.
    apply (bool_decide_pack _) in Hin. by vm_compute in Hin.
  - intros k f Hin. unfold track_files in Hin.
    repeat (apply elem_of_cons in Hin as [[= -> ->]|Hin]; [reflexivity|]).
    by apply elem_of_nil in Hin.
Qed.

(** What [upload] answers when the guarded part raises [e]. *)
Lemma upload_failure file fs fs1 fs2 e fs3 :
  ext_of file ∈ allowed ->
  write_bytes (input_path_of env file) (stream file) fs = (Ok tt, fs1) ->
  mkdir_parents_exist_ok (job_dir_of env) fs1 = (Ok tt, fs2) ->
  process env (job_id env) (ext_of file) (input_path_of env file) (job_dir_of env) fs2
  = (Raise e, fs3) ->
  exists fs', upload env (Some file) fs = (Ok (failed e), fs')
              /\ node_at (job_dir_of env) fs' = None.
Proof.
  intros Hext Hw Hm Hp.
  exists (snd (rmtree_ignore_errors (job_dir_of env) fs3)). split.
  - rewrite upload_accepted by done. unfold pipeline.
    rewrite (bind_Ok _ _ _ _ _ Hw), (bind_Ok _ _ _ _ _ Hm).
    unfold guarded, try_except. rewrite Hp. unfold bind.
    pose proof (rmtree_Ok (job_dir_of env) fs3) as Hr.
    by destruct (rmtree_ignore_errors (job_dir_of env) fs3) as [[[]|?] ?].
  - eapply guarded_failure_cleans; [|exact Hp]. by eapply mkdir_Ok_dir.
Qed.

Lemma pipeline_status file fs r fs' :
  pipeline env file fs = (Ok r, fs') -> status r = 200 \/ status r = 500.
Proof.
  intros [(e & ?)|(fs1 & fs2 & _ & _ & Hg)]%pipeline_inv; [done|].
  apply guarded_inv in Hg as [(a & Hp & [= <-])|(e & fs3 & _ & [= ->] & _)].
  - left. by eapply process_Ok_status.
  - by right.
Qed.

End SuccessFacts.

(* ===================================================================== *)
(** * Further properties of [upload] *)
(* ===================================================================== *)

(** X1.  [upload] answers 400 "No file uploaded." exactly when the form has
    no file part or the part has an empty file name; it then leaves the
    tree as it was. *)
Theorem upload_no_file (env : Env) (file : option FileStorage) (fs : node) :
  (file = None \/ (exists f, file = Some f /\ filename f = "") ->
   upload env file fs = (Ok (jsonify_status no_file 400), fs))
  /\ (fst (upload env file fs) = Ok (jsonify_status no_file 400) ->
      file = None \/ (exists f, file = Some f /\ filename f = "")).
Proof.
  split.
  - intros [->|(f & -> & Hn)]; [done|].
    unfold upload. by rewrite bool_decide_eq_true_2.
  - intros H. destruct file as [f|]; [|by left].
    destruct (decide (filename f = "")) as [Hn|Hn]; [right; by exists f|].
    exfalso. destruct (decide (ext_of f ∈ allowed)) as [He|He].
    + rewrite upload_accepted in H by done.
      destruct (pipeline env f fs) as [[r|e] fs'] eqn:E; [|done].
      simpl in H. injection H as ->.
      by apply pipeline_status in E as [?|?].
    + rewrite upload_unsupported in H by done. simpl in H.
      apply (f_equal (fun o => match o with
                               | Ok r => member "detail" (content r)
                               | Raise _ => None
                               end)) in H.
      vm_compute in H. discriminate.
Qed.

Lemma upload_no_file_witness :
  upload Scenario.healthy None Scenario.started
  = (Ok (jsonify_status no_file 400), Scenario.started)
  /\ upload Scenario.healthy (Some {| filename := ""; stream := [] |}) Scenario.started
     = (Ok (jsonify_status no_file 400), Scenario.started).
Proof.
  split.
  - apply (proj1 (upload_no_file Scenario.healthy None Scenario.started)). by left.
  - apply (proj1 (upload_no_file Scenario.healthy _ Scenario.started)).
    right. by eexists.
Defined.

(** X2.  No exception of the job leaves [upload]: when [upload] raises, the
    file was supported and the exception comes from saving the upload or
    from making the job directory, before the [try]; every answer it gives
    has status 200, 400 or 500. *)
Theorem upload_raises_before_try_only (env : Env) (file : option FileStorage)
    (fs : node) :
  (forall e fs',
      upload env file fs = (Raise e, fs') ->
      exists f,
        file = Some f /\ supported (filename f)
        /\ (write_bytes (input_path_of env f) (stream f) fs = (Raise e, fs')
            \/ exists fs1,
                 write_bytes (input_path_of env f) (stream f) fs = (Ok tt, fs1)
                 /\ mkdir_parents_exist_ok (job_dir_of env) fs1 = (Raise e, fs')))
  /\ (forall r fs',
         upload env file fs = (Ok r, fs') ->
         status r = 200 \/ status r = 400 \/ status r = 500).
Proof.
  split.
  - intros e fs' H. destruct file as [f|]; [|done].
    destruct (decide (filename f = "")) as [Hn|Hn].
    { unfold upload in H. by rewrite bool_decide_eq_true_2 in H. }
    destruct (decide (ext_of f ∈ allowed)) as [He|He];
      [|by rewrite upload_unsupported in H].
    exists f. split; [done|]. split; [by apply supported_iff|].
    rewrite upload_accepted in H by done. unfold pipeline in H.
    apply bind_inv in H as [([] & fs1 & Hw & H)|(e' & Hw & [= <-])]; [|by left].
    apply bind_inv in H as [([] & fs2 & Hm & H)|(e' & Hm & [= <-])];
      [|right; by exists fs1].
    by apply guarded_inv in H as [(a & _ & ?)|(? & ? & _ & ? & _)].
  - intros r fs' [[-> _]|(f & _ & _ & H)]%upload_Ok_cases; [tauto|].
    apply pipeline_status in H. tauto.
Qed.

Lemma upload_raises_before_try_only_witness :
  upload Scenario.healthy (Some Scenario.song) Site.empty
  = (Raise (OSError ENOENT "/srv/app/uploads/000000000000000000000000000000ff.mp3"),
     Site.empty)
  /\ write_bytes (input_path_of Scenario.healthy Scenario.song) (stream Scenario.song)
       Site.empty
     = (Raise (OSError ENOENT "/srv/app/uploads/000000000000000000000000000000ff.mp3"),
        Site.empty).
Proof.
  assert (upload Scenario.healthy (Some Scenario.song) Site.empty
          = (Raise (OSError ENOENT "/srv/app/uploads/000000000000000000000000000000ff.mp3"),
             Site.empty)) as H by (vm_compute; reflexivity).
  split; [done|].
  destruct (proj1 (upload_raises_before_try_only Scenario.healthy _ Site.empty) _ _ H)
    as (f & [= <-] & _ & [Hw|(fs1 & Hw & _)]); [done|].
  vm_compute in Hw. discriminate.
Defined.




(** X4.  [upload] changes nothing but the upload it saves and the job
    directory it makes: every path that parts ways with both is left as it
    was, the output directories of all other jobs among them. *)
Theorem upload_touches_own_job_only (env : Env) (file : option FileStorage) (fs : node) :
  (forall q,
      (forall f, file = Some f -> FS.diverge (input_path_of env f) q = true) ->
      FS.diverge (job_dir_of env) q = true ->
      FS.node_at q (snd (upload env file fs)) = FS.node_at q fs)
  /\ (forall other rest,
         other <> job_id env ->
         FS.node_at (OUTPUTS env ++ other :: rest) (snd (upload env file fs))
         = FS.node_at (OUTPUTS env ++ other :: rest) fs).
Proof.
  assert (forall q,
      (forall f, file = Some f -> FS.diverge (input_path_of env f) q = true) ->
      FS.diverge (job_dir_of env) q = true ->
      FS.node_at q (snd (upload env file fs)) = FS.node_at q fs) as Hgen.
  { intros q Hi Hj. destruct file as [f|]; [|done].
    destruct (decide (filename f = "")) as [Hn|Hn].
    { unfold upload. by rewrite bool_decide_eq_true_2. }
    destruct (decide (ext_of f ∈ allowed)) as [He|He].
    - rewrite upload_accepted by done. apply pipeline_frame; [by apply Hi | done].
    - by rewrite upload_unsupported. }
  split; [exact Hgen|].
  intros other rest Hne. apply Hgen.
  - intros f _. rewrite FSFacts.diverge_sym. unfold input_path_of.
    apply (diverge_outputs_uploads env (other :: rest)).
  - unfold job_dir_of. apply FSFacts.diverge_siblings. congruence.
Qed.

Lemma upload_touches_own_job_only_witness :
  FS.node_at (OUTPUTS Scenario.healthy ++ ["0123"; "original.wav"])
    (snd (upload Scenario.healthy (Some Scenario.song) Site.used))
  = Some (Scenario.text "E").
Proof.
  rewrite (proj2 (upload_touches_own_job_only Scenario.healthy (Some Scenario.song) Site.used)).
  - reflexivity.
  - vm_compute. discriminate.
Defined.

(** X5.  After an upload that succeeded, outputs/<id>/original<ext> holds
    the bytes that were uploaded (unless a directory of that name was in
    the way, in which case it still is a directory), and the member
    original of the answer is the URL of that file. *)
Theorem upload_keeps_original_copy (env : Env) (file : FileStorage) (fs : node)
    (r : response) (fs' : node) :
  let original := job_dir_of env ++ ["original" +:+ ext_of file] in
  upload env (Some file) fs = (Ok r, fs') ->
  status r = 200 ->
  FS.is_dir_node (FS.node_at original fs') = false ->
  FS.node_at original fs' = Some (File (stream file))
  /\ member "original" (content r)
     = Some (JStr ("/outputs/" +:+ as_posix [job_id env; "original" +:+ ext_of file])).
Proof.
  intros original H Hs Hd. split; [by eapply success_original|].
  destruct (upload_success_inv env _ _ _ _ H Hs)
    as (track & fs1 & fs2 & fs3 & fs4 & _ & _ & _ & _ & _ & _ & _ & ->).
  reflexivity.
Qed.

Lemma upload_keeps_original_copy_witness :
  exists r fs',
    upload Scenario.healthy (Some Scenario.song) Scenario.started = (Ok r, fs')
    /\ FS.node_at ["srv"; "app"; "outputs"; Scenario.uid; "original.mp3"] fs'
       = Some (File (stream Scenario.song))
    /\ member "original" (content r)
       = Some (JStr "/outputs/000000000000000000000000000000ff/original.mp3").
Proof.
  destruct (upload Scenario.healthy (Some Scenario.song) Scenario.started)
    as [[r|e] fs'] eqn:E; [|vm_compute in E; discriminate].
  assert (status r = 200) as Hs by (vm_compute in E; by inversion E).
  assert (FS.is_dir_node
            (FS.node_at (job_dir_of Scenario.healthy ++ ["original" +:+ ext_of Scenario.song])
               fs') = false) as Hd
    by (vm_compute in E; inversion E; subst; reflexivity).
  exists r, fs'. split; [done|].
  exact (upload_keeps_original_copy Scenario.healthy Scenario.song _ _ _ E Hs Hd).
Defined.

(** X6.  After an upload that succeeded there is a track folder
    outputs/<id>/htdemucs/<track> that holds vocals.wav, drums.wav,
    bass.wav and other.wav, and the members vocals, instrumental, drums,
    bass and other of the answer are "/outputs/<id>/htdemucs/<track>/"
    followed by the file name: the whole path below the outputs root. *)
Theorem upload_urls_name_the_track_folder (env : Env) (file : FileStorage) (fs : node)
    (r : response) (fs' : node) :
  upload env (Some file) fs = (Ok r, fs') ->
  status r = 200 ->
  exists track,
    let sub := job_dir_of env ++ ["htdemucs"; track] in
    let base := "/outputs/" +:+ as_posix [job_id env; "htdemucs"; track] in
    FS.is_dir_node (FS.node_at sub fs') = true
    /\ (forall stem, stem ∈ stem_names -> FS.node_at (sub ++ [stem]) fs' <> None)
    /\ (forall k f, (k, f) ∈ track_files ->
          member k (content r) = Some (JStr (base +:+ "/" +:+ f))).
Proof. apply success_stems. Qed.

Lemma upload_urls_name_the_track_folder_witness :
  exists r fs' track,
    upload Scenario.healthy (Some Scenario.song) Scenario.started = (Ok r, fs')
    /\ FS.node_at (job_dir_of Scenario.healthy ++ ["htdemucs"; track] ++ ["bass.wav"]) fs'
       <> None
    /\ member "bass" (content r)
       = Some (JStr (("/outputs/" +:+ as_posix [Scenario.uid; "htdemucs"; track])
                     +:+ "/bass.wav")).
Proof.
  destruct (upload Scenario.healthy (Some Scenario.song) Scenario.started)
    as [[r|e] fs'] eqn:E; [|vm_compute in E; discriminate].
  assert (status r = 200) as Hs by (vm_compute in E; by inversion E).
  destruct (upload_urls_name_the_track_folder Scenario.healthy Scenario.song _ _ _ E Hs)
    as (track & _ & Hstems & Hurls).
  exists r, fs', track. split; [done|]. split.
  - rewrite app_assoc. apply Hstems.
    apply (bool_decide_unpack _). vm_compute. exact I.
  - apply (Hurls "bass" "bass.wav").
    apply (bool_decide_unpack _). vm_compute. exact I.
Defined.

(* ===================================================================== *)
(** * Further properties of [make_instrumental] *)
(* ===================================================================== *)

Lemma make_instrumental_launch_error (env : Env) drums bass other out fs errno :
  ffmpeg_launch env = Fails errno -> errno <> ENOENT ->
  make_instrumental env drums bass other out fs = (Raise (OSError errno "ffmpeg"), fs).
Proof.
  intros Hl Hne. unfold make_instrumental, bind. rewrite _ffmpeg_exists_run, Hl.
  by destruct errno.
Qed.

(** X7.  Whatever ffmpeg does and however it ends, [make_instrumental]
    changes nothing but its target: in a job, the four stems are as
    separation left them and the track folder is still a directory. *)
Theorem make_instrumental_spares_the_stems (env : Env) (sub : path) (fs : node) :
  let run := make_instrumental env (sub ++ ["drums.wav"]) (sub ++ ["bass.wav"])
               (sub ++ ["other.wav"]) (sub ++ ["instrumental.wav"]) fs in
  (forall q, FS.diverge (sub ++ ["instrumental.wav"]) q = true ->
             FS.node_at q (snd run) = FS.node_at q fs)
  /\ (forall stem, stem ∈ stem_names ->
                   FS.node_at (sub ++ [stem]) (snd run) = FS.node_at (sub ++ [stem]) fs)
  /\ (FS.is_dir_node (FS.node_at sub fs) = true ->
      FS.is_dir_node (FS.node_at sub (snd run)) = true).
Proof.
  intros run. split; [|split].
  - intros q Hq. by apply make_instrumental_frame.
  - intros stem Hin. apply make_instrumental_frame.
    apply FSFacts.diverge_siblings. intros <-.
    apply (bool_decide_pack _) in Hin. by vm_compute in Hin.
  - pose proof (confined_make_instrumental env sub [] "instrumental.wav"
                  (sub ++ ["drums.wav"]) (sub ++ ["bass.wav"]) (sub ++ ["other.wav"]) fs)
      as Hu.
    rewrite app_nil_r in Hu. by apply under_dir.
Qed.

Lemma make_instrumental_spares_the_stems_witness :
  FS.node_at (Scenario.track_folder ++ ["vocals.wav"])
    (snd (make_instrumental Scenario.healthy
            (Scenario.track_folder ++ ["drums.wav"]) (Scenario.track_folder ++ ["bass.wav"])
            (Scenario.track_folder ++ ["other.wav"])
            (Scenario.track_folder ++ ["instrumental.wav"])
            (Scenario.separated Scenario.healthy)))
  = Some (Scenario.text "V").
Proof.
  rewrite (proj1 (proj2 (make_instrumental_spares_the_stems Scenario.healthy
                           Scenario.track_folder (Scenario.separated Scenario.healthy)))).
  - vm_compute. reflexivity.
  - apply (bool_decide_unpack _). vm_compute. exact I.
Defined.

(** X8.  When ffmpeg starts, writes on its pipes what text mode can decode
    and the mix exits with 0, [make_instrumental] returns without copying
    anything: the target holds what ffmpeg wrote, whatever other.wav
    holds, and when ffmpeg wrote no file the tree is as it was, without a
    target and without an error.  When text mode cannot decode what ffmpeg
    wrote on its pipes, [make_instrumental] raises the [UnicodeDecodeError]
    instead, whatever the exit status, and copies nothing. *)
Theorem make_instrumental_keeps_the_mix (env : Env) (drums bass other d : path)
    (c : string) (fs : node) (child : ended) (written : option bytes) :
  let after := match written with
               | Some mix => snd (write_bytes (d ++ [c]) mix fs)
               | None => fs
               end in
  ffmpeg_launch env = Starts ->
  ffmpeg_amix env (amix_cmd drums bass other (d ++ [c])) fs = (child, written) ->
  (decodable env child = true ->
   exit_status child = 0 ->
   make_instrumental env drums bass other (d ++ [c]) fs = (Ok tt, after)
   /\ match written with
      | Some mix =>
          FS.is_dir_node (FS.node_at d fs) = true ->
          FS.is_dir_node (FS.node_at (d ++ [c]) fs) = false ->
          FS.node_at (d ++ [c]) after = Some (File mix)
      | None => after = fs
      end)
  /\ (decodable env child = false ->
      exists encoding object start stop reason,
        make_instrumental env drums bass other (d ++ [c]) fs
        = (Raise (UnicodeDecodeError encoding object start stop reason), after)).
Proof.
  intros after Hl Hmix. rewrite make_instrumental_run, Hl, Hmix. cbv zeta. simpl.
  fold after. split.
  - intros Hdec Hrc. destruct (text_mode_decodable env child Hdec) as (out & err & ->).
    rewrite bool_decide_eq_true_2 by done. split; [done|].
    unfold after. destruct written as [mix|]; [|done]. intros Hd Hc.
    destruct (write_bytes_succeeds d c mix fs Hd Hc) as [fs' Hw].
    rewrite Hw. simpl. by eapply write_bytes_written.
  - intros Hdec.
    destruct (text_mode_undecodable env child Hdec)
      as (encoding & object & start & stop & reason & ->).
    by exists encoding, object, start, stop, reason.
Qed.

Lemma make_instrumental_keeps_the_mix_witness :
  (exists fs',
      make_instrumental Scenario.healthy
        (Scenario.track_folder ++ ["drums.wav"]) (Scenario.track_folder ++ ["bass.wav"])
        (Scenario.track_folder ++ ["other.wav"])
        (Scenario.track_folder ++ ["instrumental.wav"])
        (Scenario.separated Scenario.healthy) = (Ok tt, fs')
      /\ FS.node_at (Scenario.track_folder ++ ["instrumental.wav"]) fs'
         = Some (File Scenario.mixed))
  /\ (exists e,
         make_instrumental Scenario.ffmpeg_garbled
           (Scenario.track_folder ++ ["drums.wav"]) (Scenario.track_folder ++ ["bass.wav"])
           (Scenario.track_folder ++ ["other.wav"])
           (Scenario.track_folder ++ ["instrumental.wav"])
           (Scenario.separated Scenario.ffmpeg_garbled)
         = (Raise e, Scenario.separated Scenario.ffmpeg_garbled)).
Proof.
  split.
  - destruct (proj1 (make_instrumental_keeps_the_mix Scenario.healthy
                (Scenario.track_folder ++ ["drums.wav"]) (Scenario.track_folder ++ ["bass.wav"])
                (Scenario.track_folder ++ ["other.wav"]) Scenario.track_folder
                "instrumental.wav" (Scenario.separated Scenario.healthy)
                (Scenario.exited 0) (Some Scenario.mixed) eq_refl eq_refl))
      as (Hrun & Hout); [reflexivity | reflexivity |].
    eexists. split; [exact Hrun|].
    apply Hout; vm_compute; reflexivity.
  - destruct (proj2 (make_instrumental_keeps_the_mix Scenario.ffmpeg_garbled
                (Scenario.track_folder ++ ["drums.wav"]) (Scenario.track_folder ++ ["bass.wav"])
                (Scenario.track_folder ++ ["other.wav"]) Scenario.track_folder
                "instrumental.wav" (Scenario.separated Scenario.ffmpeg_garbled)
                {| exit_status := 127; stdout_bytes := []; stderr_bytes := Scenario.garbage |}
                None eq_refl eq_refl))
      as (encoding & object & start & stop & reason & Hrun); [reflexivity|].
    eexists. exact Hrun.
Defined.

(** X9.  Only the absence of ffmpeg leads to the fallback.  When starting
    ffmpeg fails for another reason (it is there but may not be executed),
    a job whose four stems are all there answers 500 with the text of that
    error, and the job directory is removed with the stems in it. *)
Theorem ffmpeg_launch_error_fails_the_job (env : Env) (file : FileStorage)
    (fs fs1 fs2 fs3 : node) (sub : path) (errno : oserror) :
  supported (filename file) ->
  write_bytes (input_path_of env file) (stream file) fs = (Ok tt, fs1) ->
  mkdir_parents_exist_ok (job_dir_of env) fs1 = (Ok tt, fs2) ->
  run_demucs env (input_path_of env file) (job_dir_of env) fs2 = (Ok sub, fs3) ->
  first_missing sub fs3 = None ->
  ffmpeg_launch env = Fails errno ->
  errno <> ENOENT ->
  exists fs',
    upload env (Some file) fs
    = (Ok (jsonify_status [("detail", JStr (strerror errno +:+ ": 'ffmpeg'"))] 500), fs')
    /\ FS.node_at (job_dir_of env) fs' = None.
Proof.
  intros Hext%supported_iff Hw Hm Hrun Hmiss Hl Hne. fold (ext_of file) in Hext.
  apply (upload_failure env file fs fs1 fs2 (OSError errno "ffmpeg") fs3); try done.
  unfold process. rewrite (bind_Ok _ _ _ _ _ Hrun).
  unfold bind at 1. rewrite check_stems_run, Hmiss.
  unfold bind at 1. by rewrite (make_instrumental_launch_error env _ _ _ _ _ errno).
Qed.

Lemma ffmpeg_launch_error_fails_the_job_witness :
  exists fs',
    upload Scenario.ffmpeg_denied (Some Scenario.song) Scenario.started
    = (Ok (jsonify_status [("detail", JStr "[Errno 13] Permission denied: 'ffmpeg'")] 500),
       fs')
    /\ FS.node_at (job_dir_of Scenario.ffmpeg_denied) fs' = None.
Proof.
  set (env := Scenario.ffmpeg_denied).
  assert (supported (filename Scenario.song)) as Hsong.
  { exists "MP3". split; [reflexivity|].
    apply (bool_decide_unpack _). vm_compute. exact I. }
  destruct (write_bytes (input_path_of env Scenario.song) (stream Scenario.song)
              Scenario.started) as [[[]|?] fs1] eqn:Hw;
    [|vm_compute in Hw; discriminate].
  destruct (mkdir_parents_exist_ok (job_dir_of env) fs1) as [[[]|?] fs2] eqn:Hm;
    [|vm_compute in Hw; inversion Hw; subst; vm_compute in Hm; discriminate].
  destruct (run_demucs env (input_path_of env Scenario.song) (job_dir_of env) fs2)
    as [[sub|?] fs3] eqn:Hrun;
    [|vm_compute in Hw; inversion Hw; subst; vm_compute in Hm; inversion Hm; subst;
      vm_compute in Hrun; discriminate].
  assert (first_missing sub fs3 = None) as Hmiss.
  { vm_compute in Hw; inversion Hw; subst. vm_compute in Hm; inversion Hm; subst.
    vm_compute in Hrun; inversion Hrun; subst. reflexivity. }
  apply (ffmpeg_launch_error_fails_the_job env Scenario.song _ _ _ _ sub EACCES
           Hsong Hw Hm Hrun Hmiss); [reflexivity | discriminate].
Defined.

(* ===================================================================== *)
(** * Further properties of [outputs_serve] *)
(* ===================================================================== *)

Section Serving.
Import FS FSFacts.
Context (env : Env).

(** [outputs_serve] by what the joined path resolves to, when the
    operating system accepts that path. *)
Lemma outputs_serve_run subpath fs :
  joinpath (OUTPUTS env) subpath <> [] ->
  accepted env (joinpath (OUTPUTS env) subpath) = true ->
  outputs_serve env subpath fs =
  match resolve (joinpath (OUTPUTS env) subpath) fs with
  | Some (File data) =>
      (Ok (send_file env (joinpath (OUTPUTS env) subpath) data), fs)
  | _ => (Ok (jsonify_status not_found 404), fs)
  end.
Proof.
  intros Hne Hacc. rewrite outputs_serve_stat by done.
  rewrite os_stat_accepted by done. simpl.
  by destruct (resolve _ fs) as [[data|es]|].
Qed.

Lemma append_assoc (a b c : string) : (a +:+ b) +:+ c = a +:+ b +:+ c.
Proof.
  induction a as [|x a IH]; [done|].
  change ((String x a +:+ b) +:+ c) with (String x ((a +:+ b) +:+ c)).
  by rewrite IH.
Qed.

Lemma join_snoc sep rel f :
  rel <> [] -> Py.join sep (rel ++ [f]) = Py.join sep rel +:+ sep +:+ f.
Proof.
  induction rel as [|a [|b rel] IH]; [done|done|]. intros _.
  change (Py.join sep ((a :: b :: rel) ++ [f]))
    with (a +:+ sep +:+ Py.join sep ((b :: rel) ++ [f])).
  rewrite IH by done.
  change (Py.join sep (a :: b :: rel)) with (a +:+ sep +:+ Py.join sep (b :: rel)).
  by rewrite !append_assoc.
Qed.

Lemma outputs_path_plain rel :
  ".." ∉ BASE_DIR env -> Forall (fun c => is_plain c = true) rel ->
  ".." ∉ OUTPUTS env ++ rel.
Proof.
  intros Hb Hp. unfold OUTPUTS. rewrite !not_elem_of_app. split; [split|].
  - done.
  - by intros [=]%list_elem_of_singleton.
  - by apply plain_no_dotdot.
Qed.

Lemma outputs_serve_plain rel fs :
  ".." ∉ BASE_DIR env ->
  Forall (fun c => is_plain c = true) rel ->
  accepted env (OUTPUTS env ++ rel) = true ->
  outputs_serve env (as_posix rel) fs =
  match node_at (OUTPUTS env ++ rel) fs with
  | Some (File data) => (Ok (send_file env (OUTPUTS env ++ rel) data), fs)
  | _ => (Ok (jsonify_status not_found 404), fs)
  end.
Proof.
  intros Hb Hp Hacc.
  assert (joinpath (OUTPUTS env) (as_posix rel) = OUTPUTS env ++ rel) as Hj.
  { unfold joinpath. by rewrite as_posix_relative, parse_parts_as_posix. }
  rewrite outputs_serve_run; rewrite Hj.
  - by rewrite resolve_plain by (by apply outputs_path_plain).
  - unfold OUTPUTS. by destruct (BASE_DIR env).
  - done.
Qed.

(** The same for a plain GET: the whole file with status 200. *)
Lemma outputs_serve_plain_get rel fs data :
  ".." ∉ BASE_DIR env ->
  Forall (fun c => is_plain c = true) rel ->
  accepted env (OUTPUTS env ++ rel) = true ->
  plain_get env = true ->
  node_at (OUTPUTS env ++ rel) fs = Some (File data) ->
  outputs_serve env (as_posix rel) fs = (Ok (Resp 200 (Download data)), fs).
Proof.
  intros Hb Hp Hacc Hget Hf. rewrite outputs_serve_plain, Hf by done.
  unfold send_file. by rewrite Hget.
Qed.

Lemma original_plain ext : ext ∈ allowed -> is_plain ("original" +:+ ext) = true.
Proof.
  unfold allowed. intros Hin.
  repeat (apply elem_of_cons in Hin as [->|Hin]; [reflexivity|]).
  by apply elem_of_nil in Hin.
Qed.

End Serving.

(** X10.  A request for a path of plain names below the outputs root, as
    in <jobId>/htdemucs/<trackname>/vocals.wav, that the operating system
    accepts (no name longer than NAME_MAX, the whole path shorter than
    PATH_MAX) is answered with 404 {"detail": "File not found."} when
    nothing or a directory is at that place; when a regular file is there,
    a GET without conditional headers is answered 200 with the bytes of
    the file, and any other request with what [send_file] makes of that
    file. *)
Theorem outputs_serve_nested_paths (env : Env) (rel : path) (fs : node) :
  ".." ∉ BASE_DIR env ->
  Forall (fun c => is_plain c = true) rel ->
  accepted env (OUTPUTS env ++ rel) = true ->
  outputs_serve env (as_posix rel) fs =
  match FS.node_at (OUTPUTS env ++ rel) fs with
  | Some (File data) =>
      (Ok (if plain_get env then Resp 200 (Download data)
           else conditional_response env (OUTPUTS env ++ rel) data), fs)
  | _ => (Ok (jsonify_status not_found 404), fs)
  end.
Proof. apply outputs_serve_plain. Qed.

Lemma outputs_serve_nested_paths_witness :
  outputs_serve Scenario.healthy "0123/original.wav" Site.used
  = (Ok (Resp 200 (Download (list_byte_of_string "E"))), Site.used)
  /\ outputs_serve Scenario.healthy "0123" Site.used
     = (Ok (jsonify_status not_found 404), Site.used).
Proof.
  split.
  - apply (outputs_serve_nested_paths Scenario.healthy ["0123"; "original.wav"] Site.used).
    + apply (bool_decide_eq_false_1 _). vm_compute. reflexivity.
    + repeat constructor.
    + reflexivity.
  - apply (outputs_serve_nested_paths Scenario.healthy ["0123"] Site.used).
    + apply (bool_decide_eq_false_1 _). vm_compute. reflexivity.
    + repeat constructor.
    + reflexivity.
Defined.

(** X11.  What [upload] hands out, [outputs_serve] gives back: after an
    upload that succeeded, the member original of the answer is
    "/outputs/" followed by a path for which [outputs_serve], serving a
    GET without conditional headers in the same application directory,
    answers 200 with the very bytes that were uploaded, provided the
    operating system accepts the path of the copy. *)
Theorem uploaded_original_is_served (env env' : Env) (file : FileStorage) (fs : node)
    (r : response) (fs' : node) :
  let original := job_dir_of env ++ ["original" +:+ ext_of file] in
  upload env (Some file) fs = (Ok r, fs') ->
  status r = 200 ->
  ".." ∉ BASE_DIR env ->
  FS.is_dir_node (FS.node_at original fs') = false ->
  BASE_DIR env' = BASE_DIR env ->
  plain_get env' = true ->
  accepted env' original = true ->
  exists url,
    member "original" (content r) = Some (JStr ("/outputs/" +:+ url))
    /\ outputs_serve env' url fs' = (Ok (Resp 200 (Download (stream file))), fs').
Proof.
  intros original H Hs Hb Hd Hbase Hget Hacc.
  pose proof (success_original env _ _ _ _ H Hs Hd) as Ho.
  destruct (upload_success_inv env _ _ _ _ H Hs)
    as (track & fs1 & fs2 & fs3 & fs4 & Hext & _ & _ & _ & _ & _ & _ & ->).
  exists (as_posix [job_id env; "original" +:+ ext_of file]). split; [reflexivity|].
  assert (OUTPUTS env' = OUTPUTS env) as Hout by (unfold OUTPUTS; by rewrite Hbase).
  unfold original, job_dir_of in Ho, Hacc. rewrite <- app_assoc in Ho, Hacc.
  simpl in Ho, Hacc. rewrite <- Hout in Ho, Hacc.
  apply outputs_serve_plain_get; try done.
  - by rewrite Hbase.
  - repeat constructor; [apply uuid_hex_plain | by apply original_plain].
Qed.

Lemma uploaded_original_is_served_witness :
  exists r fs',
    upload Scenario.healthy (Some Scenario.song) Scenario.started = (Ok r, fs')
    /\ member "original" (content r)
       = Some (JStr "/outputs/000000000000000000000000000000ff/original.mp3")
    /\ outputs_serve Scenario.healthy "000000000000000000000000000000ff/original.mp3" fs'
       = (Ok (Resp 200 (Download (stream Scenario.song))), fs').
Proof.
  destruct (upload Scenario.healthy (Some Scenario.song) Scenario.started)
    as [[r|e] fs'] eqn:E; [|vm_compute in E; discriminate].
  assert (status r = 200) as Hs by (vm_compute in E; by inversion E).
  assert (".." ∉ BASE_DIR Scenario.healthy) as Hb
    by (apply (bool_decide_eq_false_1 _); vm_compute; reflexivity).
  assert (FS.is_dir_node
            (FS.node_at (job_dir_of Scenario.healthy ++ ["original" +:+ ext_of Scenario.song])
               fs') = false) as Hd
    by (vm_compute in E; inversion E; subst; reflexivity).
  destruct (uploaded_original_is_served Scenario.healthy Scenario.healthy Scenario.song
              _ _ _ E Hs Hb Hd eq_refl eq_refl eq_refl)
    as (url & Hurl & Hget).
  exists r, fs'. split; [done|].
  assert (url = "000000000000000000000000000000ff/original.mp3") as ->.
  { assert (member "original" (content r)
            = Some (JStr "/outputs/000000000000000000000000000000ff/original.mp3")) as Hm
      by (vm_compute in E; inversion E; subst; reflexivity).
    rewrite Hm in Hurl. vm_compute in Hurl. by injection Hurl as <-. }
  by split.
Defined.

(** X12.  The same for the stems: there is a track folder
    outputs/<id>/htdemucs/<track> such that each of the members vocals,
    instrumental, drums, bass and other of the answer is "/outputs/"
    followed by a path for which [outputs_serve], serving a GET without
    conditional headers in the same application directory, answers 200
    with the bytes of that file of the track folder, if it is a regular
    file, the name of the track folder is a plain one and the operating
    system accepts the path of the file. *)
Theorem uploaded_stems_are_served (env env' : Env) (file : FileStorage) (fs : node)
    (r : response) (fs' : node) :
  upload env (Some file) fs = (Ok r, fs') ->
  status r = 200 ->
  ".." ∉ BASE_DIR env ->
  BASE_DIR env' = BASE_DIR env ->
  plain_get env' = true ->
  exists track,
    let sub := job_dir_of env ++ ["htdemucs"; track] in
    FS.is_dir_node (FS.node_at sub fs') = true
    /\ forall k f, (k, f) ∈ track_files ->
         exists url,
           member k (content r) = Some (JStr ("/outputs/" +:+ url))
           /\ (is_plain track = true ->
               accepted env' (sub ++ [f]) = true ->
               forall data,
                 FS.node_at (sub ++ [f]) fs' = Some (File data) ->
                 outputs_serve env' url fs' = (Ok (Resp 200 (Download data)), fs')).
Proof.
  intros H Hs Hb Hbase Hget.
  destruct (success_stems env _ _ _ _ H Hs) as (track & Hdir & _ & Hurls).
  exists track. split; [exact Hdir|]. intros k f Hin.
  exists (as_posix [job_id env; "htdemucs"; track; f]). split.
  - rewrite (Hurls k f Hin).
    assert (as_posix [job_id env; "htdemucs"; track; f]
            = as_posix [job_id env; "htdemucs"; track] +:+ "/" +:+ f) as ->
      by (by apply (join_snoc "/" [job_id env; "htdemucs"; track] f)).
    by rewrite append_assoc.
  - intros Ht Hacc data Hf.
    assert (OUTPUTS env' = OUTPUTS env) as Hout by (unfold OUTPUTS; by rewrite Hbase).
    unfold job_dir_of in Hf, Hacc. rewrite <- !app_assoc in Hf, Hacc.
    simpl in Hf, Hacc. rewrite <- Hout in Hf, Hacc.
    apply outputs_serve_plain_get; try done.
    + by rewrite Hbase.
    + assert (is_plain f = true) as Hpf.
      { unfold track_files in Hin.
        repeat (apply elem_of_cons in Hin as [[= -> ->]|Hin]; [reflexivity|]).
        by apply elem_of_nil in Hin. }
      repeat constructor; [apply uuid_hex_plain | done | done].
Qed.

Lemma uploaded_stems_are_served_witness :
  exists r fs' url,
    upload Scenario.healthy (Some Scenario.song) Scenario.started = (Ok r, fs')
    /\ member "vocals" (content r) = Some (JStr ("/outputs/" +:+ url))
    /\ outputs_serve Scenario.healthy url fs'
       = (Ok (Resp 200 (Download (list_byte_of_string "V"))), fs').
Proof.
  destruct (upload Scenario.healthy (Some Scenario.song) Scenario.started)
    as [[r|e] fs'] eqn:E; [|vm_compute in E; discriminate].
  assert (status r = 200) as Hs by (vm_compute in E; by inversion E).
  assert (".." ∉ BASE_DIR Scenario.healthy) as Hb
    by (apply (bool_decide_eq_false_1 _); vm_compute; reflexivity).
  destruct (uploaded_stems_are_served Scenario.healthy Scenario.healthy Scenario.song
              _ _ _ E Hs Hb eq_refl eq_refl)
    as (track & Hdir & Hall).
  assert (track = Scenario.uid) as ->.
  { cbv zeta in Hdir.
    change ["htdemucs"; track] with (["htdemucs"] ++ [track]) in Hdir.
    rewrite app_assoc, FSFacts.node_at_app in Hdir.
    assert (FS.node_at (job_dir_of Scenario.healthy ++ ["htdemucs"]) fs'
            = Some (Dir [(Scenario.uid, Dir (Scenario.four_stems
                           ++ [("instrumental.wav", File Scenario.mixed)]))])) as Hd
      by (vm_compute in E; inversion E; subst; reflexivity).
    rewrite Hd in Hdir. simpl in Hdir.
    by destruct (decide (Scenario.uid = track)). }
  destruct (Hall "vocals" "vocals.wav") as (url & Hurl & Hget).
  { apply (bool_decide_unpack _). vm_compute. exact I. }
  exists r, fs', url. split; [done|]. split; [done|].
  apply Hget; [reflexivity | reflexivity |].
  vm_compute in E. inversion E; subst. reflexivity.
Defined.

(* ===================================================================== *)
(** * The module body and [index] *)
(* ===================================================================== *)

Section Startup.
Import FS FSFacts.
Context (env : Env).

Lemma keeps_refl fs : keeps fs fs.
Proof. by intros q. Qed.

Lemma keeps_trans fs1 fs2 fs3 : keeps fs1 fs2 -> keeps fs2 fs3 -> keeps fs1 fs3.
Proof.
  intros H12 H23 q. destruct (H12 q) as [Hf Hd], (H23 q) as [Hf' Hd']. split; auto.
Qed.

(** Adding an entry under a name that was free keeps what was there. *)
Lemma with_dir_add_keeps c n d : forall t t',
  with_dir d (set_entry c n) t = Some t' ->
  node_at (d ++ [c]) t = None ->
  keeps t t'.
Proof.
  induction d as [|a r IH]; intros t t' H Hfree q;
    destruct t as [|es]; simpl in H; try done.
  - inversion H; subst. simpl in Hfree.
    destruct q as [|b q']; [by split|]. simpl.
    destruct (decide (c = b)) as [<-|Hne].
    + destruct (find_entry c es); [done|]. by split.
    + by rewrite find_entry_set_ne.
  - destruct (find_entry a es) as [sub|] eqn:Ha; [|done].
    destruct (with_dir r _ sub) as [sub'|] eqn:Hr; [|done].
    inversion H; subst. simpl in Hfree. rewrite Ha in Hfree.
    destruct q as [|b q']; [by split|]. simpl.
    destruct (decide (a = b)) as [<-|Hne].
    + rewrite find_entry_set_eq, Ha. by apply (IH sub sub').
    + by rewrite find_entry_set_ne.
Qed.

Lemma mkdir_exist_ok_dir p fs :
  is_dir_node (node_at p fs) = true -> mkdir_exist_ok p fs = (Ok tt, fs).
Proof. unfold mkdir_exist_ok. by destruct (node_at p fs) as [[|?]|]. Qed.

Lemma mkdir_exist_ok_file p fs :
  is_file_node (node_at p fs) = true ->
  mkdir_exist_ok p fs = (Raise (OSError EEXIST (str_path p)), fs).
Proof. unfold mkdir_exist_ok. by destruct (node_at p fs) as [[|?]|]. Qed.

(** [mkdir(exist_ok=True)] in a directory, on a name that is not taken by
    a regular file. *)
Lemma mkdir_exist_ok_run d c fs :
  is_dir_node (node_at d fs) = true ->
  is_file_node (node_at (d ++ [c]) fs) = false ->
  exists fs',
    mkdir_exist_ok (d ++ [c]) fs = (Ok tt, fs')
    /\ is_dir_node (node_at (d ++ [c]) fs') = true
    /\ keeps fs fs'
    /\ (forall q, diverge (d ++ [c]) q = true -> node_at q fs' = node_at q fs)
    /\ (node_at (d ++ [c]) fs = None -> node_at (d ++ [c]) fs' = Some (Dir [])).
Proof.
  intros Hd Hf. unfold mkdir_exist_ok. rewrite parent_snoc, name_snoc.
  destruct (node_at (d ++ [c]) fs) as [[|es]|] eqn:E; try done.
  - exists fs. rewrite E. split; [done|]. split; [done|].
    split; [apply keeps_refl|]. by split.
  - destruct (node_at d fs) as [[|es]|] eqn:Ed; try done.
    destruct (with_dir_is_Some d (set_entry c (Dir [])) _ _ Ed) as [fs' Hw].
    rewrite Hw. exists fs'.
    assert (node_at (d ++ [c]) fs' = Some (Dir [])) as Hnew.
    { apply with_dir_at in Hw as (es' & _ & Hw').
      rewrite node_at_app, Hw'. simpl. by rewrite find_entry_set_eq. }
    split; [done|]. split; [by rewrite Hnew|].
    split; [by eapply with_dir_add_keeps|]. split; [|done].
    intros q Hq. eapply with_dir_frame_name; [apply set_entry_other | done | done].
Qed.

Lemma base_child_diverge (a b : string) :
  a <> b -> diverge (BASE_DIR env ++ [a]) (BASE_DIR env ++ [b]) = true.
Proof. apply (diverge_siblings _ a b [] []). Qed.

(** The three [mkdir] of the module body, in a tree where the application
    directory is there and no regular file is in their way. *)
Lemma startup_run fs :
  is_dir_node (node_at (BASE_DIR env) fs) = true ->
  is_file_node (node_at (UPLOADS env) fs) = false ->
  is_file_node (node_at (OUTPUTS env) fs) = false ->
  is_file_node (node_at (STATIC env) fs) = false ->
  exists fs',
    startup env fs = (Ok tt, fs')
    /\ is_dir_node (node_at (UPLOADS env) fs') = true
    /\ is_dir_node (node_at (OUTPUTS env) fs') = true
    /\ is_dir_node (node_at (STATIC env) fs') = true
    /\ keeps fs fs'
    /\ (node_at (STATIC env) fs = None -> node_at (STATIC env) fs' = Some (Dir [])).
Proof.
  intros Hb Hu Ho Hs. unfold startup, UPLOADS, OUTPUTS, STATIC in *.
  destruct (mkdir_exist_ok_run _ "uploads" fs Hb Hu) as (fs1 & Hm1 & Hd1 & Hk1 & Hf1 & _).
  assert (is_dir_node (node_at (BASE_DIR env) fs1) = true) as Hb1 by (by apply Hk1).
  assert (is_file_node (node_at (BASE_DIR env ++ ["outputs"]) fs1) = false) as Ho1
    by (by rewrite Hf1 by (by apply base_child_diverge)).
  destruct (mkdir_exist_ok_run _ "outputs" fs1 Hb1 Ho1) as (fs2 & Hm2 & Hd2 & Hk2 & Hf2 & _).
  assert (is_dir_node (node_at (BASE_DIR env) fs2) = true) as Hb2 by (by apply Hk2).
  assert (node_at (BASE_DIR env ++ ["static"]) fs2 = node_at (BASE_DIR env ++ ["static"]) fs)
    as Hs2.
  { rewrite Hf2 by (by apply base_child_diverge).
    by rewrite Hf1 by (by apply base_child_diverge). }
  assert (is_file_node (node_at (BASE_DIR env ++ ["static"]) fs2) = false) as Hs2'
    by (by rewrite Hs2).
  destruct (mkdir_exist_ok_run _ "static" fs2 Hb2 Hs2')
    as (fs3 & Hm3 & Hd3 & Hk3 & Hf3 & Hnew).
  exists fs3. split.
  { by rewrite (bind_Ok _ _ _ _ _ Hm1), (bind_Ok _ _ _ _ _ Hm2). }
  split; [by apply Hk3, Hk2|]. split; [by apply Hk3|]. split; [done|].
  split; [by eapply keeps_trans; [eapply keeps_trans|]|].
  intros Hn. apply Hnew. by rewrite Hs2.
Qed.

Lemma missing_errno_child c d : forall t es,
  node_at d t = Some (Dir es) -> find_entry c es = None ->
  missing_errno (d ++ [c]) t = ENOENT.
Proof.
  induction d as [|a r IH]; intros t es H Hc; simpl in *.
  - inversion H; subst. by rewrite Hc.
  - destruct t as [|es']; [done|].
    destruct (find_entry a es') as [sub|]; [|done]. by eapply IH.
Qed.

End Startup.

(** X13.  Where the application directory is there and no regular file is
    in the way, the module body makes uploads, outputs and static, keeps
    every file and every directory that was there before (a restart loses
    no upload and no result), and a second run changes nothing; where a
    regular file is called uploads it raises [FileExistsError]. *)
Theorem startup_keeps_what_is_there (env : Env) (fs : node) :
  (FS.is_dir_node (FS.node_at (BASE_DIR env) fs) = true ->
   FS.is_file_node (FS.node_at (UPLOADS env) fs) = false ->
   FS.is_file_node (FS.node_at (OUTPUTS env) fs) = false ->
   FS.is_file_node (FS.node_at (STATIC env) fs) = false ->
   exists fs',
     startup env fs = (Ok tt, fs')
     /\ FS.is_dir_node (FS.node_at (UPLOADS env) fs') = true
     /\ FS.is_dir_node (FS.node_at (OUTPUTS env) fs') = true
     /\ FS.is_dir_node (FS.node_at (STATIC env) fs') = true
     /\ keeps fs fs'
     /\ startup env fs' = (Ok tt, fs'))
  /\ (FS.is_file_node (FS.node_at (UPLOADS env) fs) = true ->
      startup env fs = (Raise (OSError EEXIST (str_path (UPLOADS env))), fs)).
Proof.
  split.
  - intros Hb Hu Ho Hs.
    destruct (startup_run env fs Hb Hu Ho Hs) as (fs' & Hrun & Hdu & Hdo & Hds & Hk & _).
    exists fs'. split; [done|]. split; [done|]. split; [done|]. split; [done|].
    split; [done|].
    unfold startup.
    rewrite (bind_Ok _ _ _ _ _ (mkdir_exist_ok_dir _ _ Hdu)).
    rewrite (bind_Ok _ _ _ _ _ (mkdir_exist_ok_dir _ _ Hdo)).
    by apply mkdir_exist_ok_dir.
  - intros Hu. unfold startup.
    by rewrite (bind_Raise _ _ _ _ _ (mkdir_exist_ok_file _ _ Hu)).
Qed.

Lemma startup_keeps_what_is_there_witness :
  (exists fs',
      startup Scenario.healthy Site.used = (Ok tt, fs')
      /\ FS.node_at (UPLOADS Scenario.healthy ++ ["earlier.wav"]) fs'
         = Some (Scenario.text "E")
      /\ startup Scenario.healthy fs' = (Ok tt, fs'))
  /\ startup Scenario.healthy Site.blocked
     = (Raise (OSError EEXIST "/srv/app/uploads"), Site.blocked).
Proof.
  split.
  - destruct (proj1 (startup_keeps_what_is_there Scenario.healthy Site.used))
      as (fs' & Hrun & _ & _ & _ & Hk & Hagain); try (vm_compute; reflexivity).
    exists fs'. split; [done|]. split; [|done].
    apply Hk. vm_compute. reflexivity.
  - apply (proj2 (startup_keeps_what_is_there Scenario.healthy Site.blocked)).
    vm_compute. reflexivity.
Defined.

(** ** Reading text *)

Lemma utf8_scan_ascii (l : list N) : forall i,
  forallb (fun b => (b <? 128)%N) l = true -> Py.utf8_scan i l = None.
Proof.
  induction l as [|b l IH]; intros i; simpl; [done|].
  intros [Hb Hl]%andb_true_iff. rewrite Hb. by apply IH.
Qed.

Lemma utf8_decode_ascii (data : bytes) :
  forallb (fun b => (Byte.to_N b <? 128)%N) data = true ->
  Py.utf8_decode data = Py.Text (string_of_list_byte data).
Proof.
  intros H. unfold Py.utf8_decode. rewrite utf8_scan_ascii; [done|].
  rewrite <- H. clear H. induction data as [|b data IH]; simpl; [done|].
  by rewrite IH.
Qed.

Lemma utf8_decode_Text (data : bytes) (s : string) :
  Py.utf8_decode data = Py.Text s -> s = string_of_list_byte data.
Proof.
  unfold Py.utf8_decode. destruct (Py.utf8_scan 0 _) as [[[? ?] ?]|]; [done|].
  by intros [= <-].
Qed.

Lemma universal_newlines_no_cr (s : string) :
  Py.has_char Py.cr s = false -> Py.universal_newlines s = s.
Proof.
  induction s as [|c r IH]; simpl; [done|].
  intros [Hc Hr]%orb_false_iff. rewrite Hc. by rewrite IH.
Qed.

(** X14.  [index] reads static/index.html as UTF-8 text with universal
    newlines.  When the page is a regular file whose bytes are well-formed
    UTF-8, the answer is 200 with that text, in which every "\r\n" and
    every other "\r" has become "\n"; a page of ASCII bytes without a
    carriage return is answered byte for byte.  When the bytes of the page
    are no UTF-8, [index] raises [UnicodeDecodeError].  The module body
    makes the static directory but not the page: started in an application
    directory without a static directory, [index] raises
    [FileNotFoundError] for static/index.html. *)
Theorem index_needs_the_page (env : Env) (fs : node) :
  (forall data,
      FS.node_at (STATIC env ++ ["index.html"]) fs = Some (File data) ->
      (forall s,
          Py.utf8_decode data = Py.Text s ->
          s = string_of_list_byte data
          /\ index env fs = (Ok (Resp 200 (Html (Py.universal_newlines s))), fs))
      /\ (forallb (fun b => (Byte.to_N b <? 128)%N) data = true ->
          Py.has_char Py.cr (string_of_list_byte data) = false ->
          index env fs = (Ok (Resp 200 (Html (string_of_list_byte data))), fs))
      /\ (forall encoding start stop reason,
             Py.utf8_decode data = Py.Undecodable encoding start stop reason ->
             index env fs
             = (Raise (UnicodeDecodeError encoding data start stop reason), fs)))
  /\ (FS.is_dir_node (FS.node_at (BASE_DIR env) fs) = true ->
      FS.is_file_node (FS.node_at (UPLOADS env) fs) = false ->
      FS.is_file_node (FS.node_at (OUTPUTS env) fs) = false ->
      FS.node_at (STATIC env) fs = None ->
      exists fs',
        startup env fs = (Ok tt, fs')
        /\ index env fs'
           = (Raise (OSError ENOENT (str_path (STATIC env ++ ["index.html"]))), fs')).
Proof.
  split.
  - intros data H.
    assert (forall s, Py.utf8_decode data = Py.Text s ->
                      index env fs = (Ok (Resp 200 (Html (Py.universal_newlines s))), fs))
      as Htext.
    { intros s Hs. unfold index, bind, read_text_utf8, bind, read_bytes.
      by rewrite H, Hs. }
    split; [|split].
    + intros s Hs. split; [by apply utf8_decode_Text | by apply Htext].
    + intros Hascii Hcr. rewrite (Htext _ (utf8_decode_ascii data Hascii)).
      by rewrite universal_newlines_no_cr.
    + intros encoding start stop reason Hu.
      unfold index, bind, read_text_utf8, bind, read_bytes. by rewrite H, Hu.
  - intros Hb Hu Ho Hs.
    destruct (startup_run env fs Hb Hu Ho) as (fs' & Hrun & _ & _ & _ & _ & Hnew);
      [by rewrite Hs|].
    exists fs'. split; [done|]. specialize (Hnew Hs).
    unfold index, bind, read_text_utf8, bind, read_bytes.
    rewrite FSFacts.node_at_app, Hnew. simpl.
    by rewrite (missing_errno_child "index.html" (STATIC env) fs' [] Hnew).
Qed.

Lemma index_needs_the_page_witness :
  index Scenario.healthy Scenario.started
  = (Ok (Resp 200 (Html "<html></html>")), Scenario.started)
  /\ exists fs',
       startup Scenario.healthy Site.empty = (Ok tt, fs')
       /\ index Scenario.healthy fs'
          = (Raise (OSError ENOENT "/srv/app/static/index.html"), fs').
Proof.
  split.
  - apply (proj1 (proj2 (proj1 (index_needs_the_page Scenario.healthy Scenario.started)
                           (list_byte_of_string "<html></html>") eq_refl)));
      reflexivity.
  - apply (proj2 (index_needs_the_page Scenario.healthy Site.empty));
      vm_compute; reflexivity.
Defined.

(** A page saved with the line ends of Windows comes back with line feeds
    only, and a page in Latin-1 is not served at all. *)
Example index_translates_newlines :
  index Scenario.healthy (Site.with_page (Scenario.text ("<p>" +:+ Site.crlf +:+ "</p>")))
  = (Ok (Resp 200 (Html ("<p>" +:+ Py.nl +:+ "</p>"))),
     Site.with_page (Scenario.text ("<p>" +:+ Site.crlf +:+ "</p>"))).
Proof. reflexivity. Qed.

Example index_refuses_latin1 :
  index Scenario.healthy (Site.with_page (File Site.latin1))
  = (Raise (UnicodeDecodeError "utf-8" Site.latin1 6 7 "invalid continuation byte"),
     Site.with_page (File Site.latin1))
  /\ str_exn (UnicodeDecodeError "utf-8" Site.latin1 6 7 "invalid continuation byte")
     = "'utf-8' codec can't decode byte 0xe9 in position 6: invalid continuation byte".
Proof. split; reflexivity. Qed.
